(** * Timesheet validator: the rule engine, the CSV normalizer and the export
    serializer, embedded from the TypeScript sources.

    The sources hold two revisions of the validator, the parser and the types;
    the later one, on period records with hour buckets, is the one embedded:

    - [src/types/timesheet.ts] (later revision)   -> the records below
    - [src/utils/validator.ts], [validateTimesheet] from line 154 on
                                    -> Modules [Validator], [ValidatorRules]
    - [src/utils/csvParser.ts] (later revision), [parseCSV]
                                    -> Module [CsvParser]
    - [src/components/TimesheetTable.tsx], [sortedEntries] and [exportToCSV]
                                    -> Module [TimesheetTable]
    - [src/components/TimesheetTable.tsx], [getRowErrors], [getRowWarnings]
                                    -> Module [TableView]
    - [src/components/BulkOperations.tsx], the selection and its identifiers
                                    -> Module [BulkOperations]
    - [src/App.tsx], [handleBulkStatusUpdate], [resetApp], [handleFilterChange]
                                    -> Module [App]
    - [src/components/AdvancedFilters.tsx], the filters and the drop-downs
                                    -> Module [AdvancedFilters]
    - [src/components/Analytics.tsx], [totalEmployees] and [statusData]
                                    -> Module [Analytics]

    JavaScript numbers are IEEE 754 binary64 values: they are modelled by Rocq's
    primitive [float], so every comparison and every sum below rounds exactly as
    the program does ([NaN] compares false with everything, [-0 = 0]).
    Strings are Rocq [string]s, read as sequences of code units below 256.
    Built-ins of the JavaScript runtime that the program calls ([new Date(s)],
    [parseFloat], [Number.prototype.toString], ...) form the interface
    [JsRuntime]; the wall clock read by [new Date()] is a sequence of readings;
    the [papaparse] reader is the interface [CsvReader].  A reference runtime
    and a reference reader instantiate the interfaces where a statement is
    evaluated on sample data. *)

From Stdlib Require Import ZArith Floats String Ascii List Bool Lia DecimalString.
From Stdlib Require Import Sorted DecimalNat.
From Stdlib Require OrderedTypeEx.
From stdpp Require Import base list strings gmap.
Import ListNotations.

Local Open Scope string_scope.

(** ** JavaScript values and built-ins *)

Abbreviation number := float.

Module Js.

(** [!s] is false exactly for the non-empty strings. *)
Definition truthy_str (s : string) : bool := negb (String.eqb s "").

(** [x || 0] on numbers: [NaN], [0] and [-0] are falsy. *)
Definition truthy_num (x : number) : bool :=
  negb (PrimFloat.is_nan x || PrimFloat.is_zero x).

Definition isNaN (x : number) : bool := PrimFloat.is_nan x.

(** [xs.includes(s)] on an array of strings (strict equality). *)
Definition includes (xs : list string) (s : string) : bool :=
  existsb (String.eqb s) xs.

(** [xs.join(sep)] on an array of strings. *)
Fixpoint join (sep : string) (xs : list string) : string :=
  match xs with
  | [] => ""
  | [x] => x
  | x :: rest => x ++ sep ++ join sep rest
  end.

Definition dquote : string := String "034"%char EmptyString.

(** [s.startsWith(pre)] *)
Fixpoint startsWith (s pre : string) {struct pre} : bool :=
  match pre with
  | EmptyString => true
  | String a pre' =>
      match s with
      | EmptyString => false
      | String b s' => Ascii.eqb a b && startsWith s' pre'
      end
  end.

(** Strings are sequences of code units below 256.  The white space and line
    terminator code units in that range: TAB, LF, VT, FF, CR, SPACE, NBSP. *)
Definition isWhiteSpace (c : ascii) : bool :=
  let n := nat_of_ascii c in
  (((9 <=? n) && (n <=? 13)) || (n =? 32) || (n =? 160))%nat.

(** Strings made of white space, and strings without any. *)
Fixpoint all_ws (w : string) : bool :=
  match w with
  | EmptyString => true
  | String c rest => isWhiteSpace c && all_ws rest
  end.

Fixpoint all_nonws (s : string) : bool :=
  match s with
  | EmptyString => true
  | String c rest => negb (isWhiteSpace c) && all_nonws rest
  end.

(** [s.trimStart()] *)
Fixpoint trimStart (s : string) : string :=
  match s with
  | EmptyString => EmptyString
  | String c rest => if isWhiteSpace c then trimStart rest else s
  end.

(** [s.trimEnd()] *)
Fixpoint trimEnd (s : string) : string :=
  match s with
  | EmptyString => EmptyString
  | String c rest =>
      match trimEnd rest with
      | EmptyString => if isWhiteSpace c then EmptyString else String c EmptyString
      | rest' => String c rest'
      end
  end.

(** [s.trim()] *)
Definition trim (s : string) : string := trimEnd (trimStart s).

Definition toLowerCase_char (c : ascii) : ascii :=
  let n := nat_of_ascii c in
  if (((65 <=? n) && (n <=? 90))
      || ((192 <=? n) && (n <=? 222) && negb (n =? 215)))%nat
  then ascii_of_nat (n + 32) else c.

(** [s.toLowerCase()] *)
Fixpoint toLowerCase (s : string) : string :=
  match s with
  | EmptyString => EmptyString
  | String c rest => String (toLowerCase_char c) (toLowerCase rest)
  end.

(** [x || 0] *)
Definition or0 (x : number) : number := if truthy_num x then x else 0%float.

(** A value stored in a property of a parsed row. *)
Inductive Value :=
| VStr (s : string)
| VNum (x : number).

(** [new Error(message)] *)
Record Error := { error_message : string }.

(** The state a promise settles in. *)
Inductive Settled (A : Type) :=
| Resolved (value : A)
| Rejected (reason : Error).
Arguments Resolved {A} value.
Arguments Rejected {A} reason.

End Js.

(** The built-ins whose result is fixed by the runtime (engine, locale, time
    zone) and not by this program.  A [Date] object is represented by its time
    value, the number [getTime()] returns: [NaN] for an invalid date. *)
Class JsRuntime := {
  (** [new Date(s).getTime()] *)
  Date_parse : string -> number;
  (** [d.getFullYear()] on the date of time value [d] *)
  Date_getFullYear : number -> number;
  (** time value of [d] after [d.setFullYear(y)] *)
  Date_setFullYear : number -> number -> number;
  (** [String(x)], as used by template literals and [Array.prototype.join] *)
  Number_toString : number -> string;
  (** [x.toFixed(2)] *)
  Number_toFixed2 : number -> string;
  (** [Math.round(x)] *)
  Math_round : number -> number;
  (** [parseFloat(s)] *)
  parseFloat : string -> number;
}.

(** The wall clock: the [n]-th evaluation of [new Date()] yields [clock n]. *)
Definition Clock := nat -> number.

(** ** Data model ([src/types/timesheet.ts]) *)

Record TimesheetEntry := {
  employeeId : string;
  startDate : string;
  endDate : string;
  timesheetStatus : string;
  scheduleHours : number;
  reportedHours : number;
  regularHours : number;
  overtimeHours : number;
  holidayHours : number;
  leaveHours : number;
  totalHours : number;
}.

Inductive Severity := error | warning.

(** [row] is [index + 1] for an array index: a natural number. *)
Record ValidationError := {
  row : nat;
  field : string;
  message : string;
  severity : Severity;
}.

Record ValidationResult := {
  isValid : bool;
  errors : list ValidationError;
  warnings : list ValidationError;
}.

Definition Severity_eqb (a b : Severity) : bool :=
  match a, b with
  | error, error | warning, warning => true
  | _, _ => false
  end.

(** ** The rule engine ([validateTimesheet]) *)

Module Validator.

(** The two arrays the function pushes to, and the number of clock readings
    taken so far. *)
Record VState := {
  st_errors : list ValidationError;
  st_warnings : list ValidationError;
  st_reads : nat;
}.

Definition Action := VState -> VState.

Definition skip : Action := fun st => st.

Definition seq (a b : Action) : Action := fun st => b (a st).

Definition when (c : bool) (a : Action) : Action := if c then a else skip.

(** [errors.push(f)] *)
Definition errors_push (f : ValidationError) : Action := fun st =>
  {| st_errors := st_errors st ++ [f];
     st_warnings := st_warnings st;
     st_reads := st_reads st |}.

(** [warnings.push(f)] *)
Definition warnings_push (f : ValidationError) : Action := fun st =>
  {| st_errors := st_errors st;
     st_warnings := st_warnings st ++ [f];
     st_reads := st_reads st |}.

(** [const d = new Date(); k d] *)
Definition new_Date (clock : Clock) (k : number -> Action) : Action := fun st =>
  k (clock (st_reads st))
    {| st_errors := st_errors st;
       st_warnings := st_warnings st;
       st_reads := S (st_reads st) |}.

(** [xs.forEach(f)] *)
Fixpoint forEach {A} (f : A -> Action) (xs : list A) : Action :=
  match xs with
  | [] => skip
  | x :: rest => seq (f x) (forEach f rest)
  end.

(** [xs.forEach((x, index) => f x index)], counting from [index]. *)
Fixpoint forEach_from {A} (f : A -> nat -> Action) (index : nat) (xs : list A)
  : Action :=
  match xs with
  | [] => skip
  | x :: rest => seq (f x index) (forEach_from f (S index) rest)
  end.

End Validator.

Declare Scope action_scope.
Delimit Scope action_scope with action.
Bind Scope action_scope with Validator.Action.
Notation "a ;; b" := (Validator.seq a b)
  (at level 100, b at level 200, right associativity) : action_scope.

Local Set Warnings "-inexact-float".

Module ValidatorRules.
Import Validator Js.
Local Open Scope action_scope.
Local Open Scope float_scope.

Section WithRuntime.
Context `{JsRuntime}.
Variable clock : Clock.

Definition validStatuses : list string :=
  ["Approved"; "Partially Submitted"; "Needs Approval"; "Not Submitted";
   "Absence/Holiday"; "Partially Approved"]%string.

(** The body of [entries.forEach((entry, index) => ...)]. *)
Definition validateEntry (entry : TimesheetEntry) (index : nat) : Action :=
  let row := (index + 1)%nat in
  (* Required field validation *)
  when (negb (truthy_str entry.(employeeId)))
    (errors_push {| row := row; field := "employeeId";
                    message := "Employee ID is required";
                    severity := error |}) ;;
  when (negb (truthy_str entry.(startDate)))
    (errors_push {| row := row; field := "startDate";
                    message := "Start date is required";
                    severity := error |}) ;;
  when (negb (truthy_str entry.(endDate)))
    (errors_push {| row := row; field := "endDate";
                    message := "End date is required";
                    severity := error |}) ;;
  (if negb (truthy_str entry.(timesheetStatus)) then
     errors_push {| row := row; field := "timesheetStatus";
                    message := "Timesheet status is required";
                    severity := error |}
   else
     when (negb (includes validStatuses entry.(timesheetStatus)))
       (warnings_push
          {| row := row; field := "timesheetStatus";
             message := ("Unknown status " ++ dquote
                         ++ entry.(timesheetStatus) ++ dquote
                         ++ ". Expected: " ++ join ", " validStatuses)%string;
             severity := warning |})) ;;
  (* Date format and range validation *)
  when (truthy_str entry.(startDate) && truthy_str entry.(endDate))
    (let startDate := Date_parse entry.(startDate) in
     let endDate := Date_parse entry.(endDate) in
     when (isNaN startDate)
       (errors_push {| row := row; field := "startDate";
                       message := "Invalid start date format";
                       severity := error |}) ;;
     when (isNaN endDate)
       (errors_push {| row := row; field := "endDate";
                       message := "Invalid end date format";
                       severity := error |}) ;;
     when (negb (isNaN startDate) && negb (isNaN endDate))
       (when (endDate <=? startDate)
          (errors_push {| row := row; field := "endDate";
                          message := "End date must be after start date";
                          severity := error |}) ;;
        let daysDiff := (endDate - startDate) / (1000 * 60 * 60 * 24) in
        when (14 <? daysDiff)
          (warnings_push
             {| row := row; field := "endDate";
                message := ("Long period ("
                            ++ Number_toString (Math_round daysDiff)
                            ++ " days). Typical periods are 7-14 days")%string;
                severity := warning |}))) ;;
  (* Schedule hours validation *)
  when (entry.(scheduleHours) <? 0)
    (errors_push {| row := row; field := "scheduleHours";
                    message := "Schedule hours cannot be negative";
                    severity := error |}) ;;
  when (80 <? entry.(scheduleHours))
    (warnings_push
       {| row := row; field := "scheduleHours";
          message := "Schedule hours over 80 seems unusually high for a period";
          severity := warning |}) ;;
  (* Hours validation (negative checks) *)
  (let hourFields :=
     [("reportedHours", entry.(reportedHours));
      ("regularHours", entry.(regularHours));
      ("overtimeHours", entry.(overtimeHours));
      ("holidayHours", entry.(holidayHours));
      ("leaveHours", entry.(leaveHours));
      ("totalHours", entry.(totalHours))]%string in
   forEach (fun '(field, value) =>
              when (value <? 0)
                (errors_push {| row := row; field := field;
                                message := (field ++ " cannot be negative")%string;
                                severity := error |}))
           hourFields) ;;
  (* VALIDATION 1: Total Hours = Regular + Overtime + Holiday + Leave *)
  let calculatedTotal :=
    entry.(regularHours) + entry.(overtimeHours) + entry.(holidayHours)
    + entry.(leaveHours) in
  when (0 <? entry.(totalHours))
    (let totalDiff := abs (entry.(totalHours) - calculatedTotal) in
     when (0.01 <? totalDiff)
       (errors_push
          {| row := row; field := "totalHours";
             message := ("Total hours (" ++ Number_toString entry.(totalHours)
                         ++ ") doesn't match calculated total ("
                         ++ Number_toFixed2 calculatedTotal ++ ")")%string;
             severity := error |})) ;;
  (* VALIDATION 2: Reported Hours <= Schedule Hours *)
  when (entry.(scheduleHours) <? entry.(reportedHours))
    (let isSubmitted :=
       includes ["Approved"; "Partially Approved"; "Partially Submitted"]%string
                entry.(timesheetStatus) in
     if isSubmitted then
       warnings_push
         {| row := row; field := "reportedHours";
            message := ("Reported hours (" ++ Number_toString entry.(reportedHours)
                        ++ ") exceed schedule hours ("
                        ++ Number_toString entry.(scheduleHours) ++ ")")%string;
            severity := warning |}
     else
       errors_push
         {| row := row; field := "reportedHours";
            message := ("Reported hours (" ++ Number_toString entry.(reportedHours)
                        ++ ") cannot exceed schedule hours ("
                        ++ Number_toString entry.(scheduleHours) ++ ")")%string;
            severity := error |}) ;;
  (* VALIDATION 3: Status-specific validations *)
  let hasHours :=
    (0 <? entry.(reportedHours)) || (0 <? entry.(regularHours))
    || (0 <? entry.(overtimeHours)) || (0 <? entry.(holidayHours))
    || (0 <? entry.(leaveHours)) in
  (let status := entry.(timesheetStatus) in
   if String.eqb status "Approved" || String.eqb status "Partially Approved"
   then
     when (negb hasHours)
       (warnings_push {| row := row; field := "timesheetStatus";
                         message := "Approved timesheet should have hours recorded";
                         severity := warning |})
   else if String.eqb status "Not Submitted" then
     when hasHours
       (warnings_push
          {| row := row; field := "timesheetStatus";
             message := "Not submitted timesheet has hours recorded - status may be incorrect";
             severity := warning |})
   else if String.eqb status "Absence/Holiday" then
     when ((0 <? entry.(regularHours)) || (0 <? entry.(overtimeHours)))
       (warnings_push
          {| row := row; field := "timesheetStatus";
             message := "Absence/Holiday status should not have regular or overtime hours";
             severity := warning |})
   else if String.eqb status "Needs Approval"
           || String.eqb status "Partially Submitted" then
     when (negb hasHours)
       (warnings_push {| row := row; field := "timesheetStatus";
                         message := "Submitted timesheet should have hours recorded";
                         severity := warning |})
   else skip) ;;
  (* VALIDATION 4: Additional date range validations *)
  when (truthy_str entry.(startDate) && truthy_str entry.(endDate))
    (let startDate := Date_parse entry.(startDate) in
     let endDate := Date_parse entry.(endDate) in
     new_Date clock (fun currentDate =>
       when (negb (isNaN startDate) && negb (isNaN endDate))
         (when (currentDate <? startDate)
            (warnings_push {| row := row; field := "startDate";
                              message := "Start date is in the future";
                              severity := warning |}) ;;
          new_Date clock (fun yearAgo0 =>
            let yearAgo :=
              Date_setFullYear yearAgo0 (Date_getFullYear currentDate - 1) in
            when (endDate <? yearAgo)
              (warnings_push {| row := row; field := "endDate";
                                message := "End date is more than 1 year ago";
                                severity := warning |}))))) ;;
  (* Additional consistency checks *)
  when ((0 <? entry.(reportedHours)) && (calculatedTotal =? 0))
    (warnings_push
       {| row := row; field := "reportedHours";
          message := "Reported hours exist but no breakdown provided (regular, overtime, holiday, leave)";
          severity := warning |}) ;;
  when ((entry.(reportedHours) =? 0) && (0 <? calculatedTotal))
    (warnings_push
       {| row := row; field := "reportedHours";
          message := "Hour breakdown provided but reported hours is zero";
          severity := warning |}).

Definition initial : VState :=
  {| st_errors := []; st_warnings := []; st_reads := 0 |}.

Definition validateTimesheet (entries : list TimesheetEntry) : ValidationResult :=
  let st := forEach_from validateEntry 0 entries initial in
  {| isValid := Nat.eqb (length (st_errors st)) 0;
     errors := st_errors st;
     warnings := st_warnings st |}.

End WithRuntime.
End ValidatorRules.

(** ** The normalizer ([parseCSV]) *)

(** What [parseCSV] exchanges with the [papaparse] package. *)
Module Papa.

(** An element of [result.errors]. *)
Record ParseError := {
  type : string;
  code : string;
  message : string;
}.

(** The argument of the [complete] callback: [data] holds one object per row,
    from header name to cell text. *)
Record ParseResult := {
  data : list (gmap string string);
  errors : list ParseError;
}.

(** Which callback [Papa.parse] ends with. *)
Inductive Outcome :=
| complete (result : ParseResult)
| error (err : Js.Error).

End Papa.

(** [Papa.parse(file, {header: true, skipEmptyLines: true, transformHeader,
    transform, complete, error})] on a file of the given text. *)
Class CsvReader := {
  Papa_parse :
    string -> (string -> string) -> (string -> string -> string) -> Papa.Outcome;
}.

Module CsvParser.
Import Js.

Definition headerMap : list (string * string) :=
  [("empl id", "employeeId");
   ("employee id", "employeeId");
   ("employee_id", "employeeId");
   ("id", "employeeId");
   ("start date", "startDate");
   ("start_date", "startDate");
   ("startdate", "startDate");
   ("end date", "endDate");
   ("end_date", "endDate");
   ("enddate", "endDate");
   ("timesheet status", "timesheetStatus");
   ("timesheet_status", "timesheetStatus");
   ("status", "timesheetStatus");
   ("schedule hours", "scheduleHours");
   ("schedule_hours", "scheduleHours");
   ("scheduled hours", "scheduleHours");
   ("scheduled_hours", "scheduleHours");
   ("reported hours", "reportedHours");
   ("reported_hours", "reportedHours");
   ("regular hours", "regularHours");
   ("regular_hours", "regularHours");
   ("overtime hours", "overtimeHours");
   ("overtime_hours", "overtimeHours");
   ("holiday hours", "holidayHours");
   ("holiday_hours", "holidayHours");
   ("leave hours", "leaveHours");
   ("leave_hours", "leaveHours");
   ("total hours", "totalHours");
   ("total_hours", "totalHours")].

(** [headerMap[key]], on the properties the literal defines. *)
Fixpoint headerMap_get (m : list (string * string)) (key : string) : option string :=
  match m with
  | [] => None
  | (k, v) :: rest => if String.eqb key k then Some v else headerMap_get rest key
  end.

Definition transformHeader (header : string) : string :=
  let normalizedHeader := trim (toLowerCase header) in
  match headerMap_get headerMap normalizedHeader with
  | Some canonical => if truthy_str canonical then canonical else header
  | None => header
  end.

Definition numericFields : list string :=
  ["scheduleHours"; "reportedHours"; "regularHours"; "overtimeHours";
   "holidayHours"; "leaveHours"; "totalHours"].

Section WithRuntime.
Context `{JsRuntime}.

Definition transform (value field : string) : string :=
  let fieldStr := field in
  if includes numericFields fieldStr then
    if negb (truthy_str value) || String.eqb (trim value) "" then "0"
    else
      let parsed := parseFloat value in
      if isNaN parsed then "0" else trim value
  else trim value.

(** [parseFloat(entry[key])]: a missing property reads as [undefined], which
    [parseFloat] converts to the string "undefined". *)
Definition parseFloat_prop (entry : gmap string string) (key : string) : number :=
  match entry !! key with
  | Some s => parseFloat s
  | None => parseFloat "undefined"
  end.

(** The object built for one row by the post-processing [map]. *)
Definition processEntry (entry : gmap string string) : gmap string Value :=
  <["totalHours" := VNum (or0 (parseFloat_prop entry "totalHours"))]>
  (<["leaveHours" := VNum (or0 (parseFloat_prop entry "leaveHours"))]>
  (<["holidayHours" := VNum (or0 (parseFloat_prop entry "holidayHours"))]>
  (<["overtimeHours" := VNum (or0 (parseFloat_prop entry "overtimeHours"))]>
  (<["regularHours" := VNum (or0 (parseFloat_prop entry "regularHours"))]>
  (<["reportedHours" := VNum (or0 (parseFloat_prop entry "reportedHours"))]>
  (<["scheduleHours" := VNum (or0 (parseFloat_prop entry "scheduleHours"))]>
  (VStr <$> entry))))))).

(** The [complete] callback: [result.errors.length > 0] holds exactly when the
    array has a first element [result.errors[0]]. *)
Definition complete (result : Papa.ParseResult)
  : Settled (list (gmap string Value)) :=
  match Papa.errors result with
  | first :: _ =>
      Rejected {| error_message := "CSV parsing error: " ++ Papa.message first |}
  | [] =>
      let processedData := map processEntry (Papa.data result) in
      Resolved processedData
  end.

(** The [error] callback. *)
Definition error (err : Error) : Settled (list (gmap string Value)) :=
  Rejected err.

Definition parseCSV `{CsvReader} (file : string)
  : Settled (list (gmap string Value)) :=
  match Papa_parse file transformHeader transform with
  | Papa.complete result => complete result
  | Papa.error err => error err
  end.

End WithRuntime.

(** What [parseCSV] relies on from [parseFloat]: leading white space is
    skipped and text after the number is ignored, so trimming changes nothing;
    and the text "0" reads as zero. *)
Class ParseFloatLaws `{JsRuntime} : Prop := {
  parseFloat_trim : forall s, parseFloat (trim s) = parseFloat s;
  parseFloat_zero : parseFloat "0" = 0%float;
}.

(** A row object seen at the type [TimesheetEntry]. *)
Definition toObject (e : TimesheetEntry) : gmap string Value :=
  <["totalHours" := VNum e.(totalHours)]>
  (<["leaveHours" := VNum e.(leaveHours)]>
  (<["holidayHours" := VNum e.(holidayHours)]>
  (<["overtimeHours" := VNum e.(overtimeHours)]>
  (<["regularHours" := VNum e.(regularHours)]>
  (<["reportedHours" := VNum e.(reportedHours)]>
  (<["scheduleHours" := VNum e.(scheduleHours)]>
  (<["timesheetStatus" := VStr e.(timesheetStatus)]>
  (<["endDate" := VStr e.(endDate)]>
  (<["startDate" := VStr e.(startDate)]>
  (<["employeeId" := VStr e.(employeeId)]> ∅)))))))))).

End CsvParser.

(** ** The export serializer ([TimesheetTable]) *)

Module TimesheetTable.
Import Js.

(** [keyof TimesheetEntry] *)
Inductive Key :=
| k_employeeId | k_startDate | k_endDate | k_timesheetStatus
| k_scheduleHours | k_reportedHours | k_regularHours | k_overtimeHours
| k_holidayHours | k_leaveHours | k_totalHours.

Inductive Direction := asc | desc.

(** [a[sortField] < b[sortField]]: strings compare by code units, numbers as
    numbers. *)
Definition field_lt (sortField : Key) (a b : TimesheetEntry) : bool :=
  match sortField with
  | k_employeeId => String.ltb a.(employeeId) b.(employeeId)
  | k_startDate => String.ltb a.(startDate) b.(startDate)
  | k_endDate => String.ltb a.(endDate) b.(endDate)
  | k_timesheetStatus => String.ltb a.(timesheetStatus) b.(timesheetStatus)
  | k_scheduleHours => (a.(scheduleHours) <? b.(scheduleHours))%float
  | k_reportedHours => (a.(reportedHours) <? b.(reportedHours))%float
  | k_regularHours => (a.(regularHours) <? b.(regularHours))%float
  | k_overtimeHours => (a.(overtimeHours) <? b.(overtimeHours))%float
  | k_holidayHours => (a.(holidayHours) <? b.(holidayHours))%float
  | k_leaveHours => (a.(leaveHours) <? b.(leaveHours))%float
  | k_totalHours => (a.(totalHours) <? b.(totalHours))%float
  end.

(** The comparator handed to [sort]. *)
Definition compareEntries (sortField : Key) (sortDirection : Direction)
  (a b : TimesheetEntry) : Z :=
  if field_lt sortField a b then
    match sortDirection with asc => (-1)%Z | desc => 1%Z end
  else if field_lt sortField b a then
    match sortDirection with asc => 1%Z | desc => (-1)%Z end
  else 0%Z.

(** [Array.prototype.sort] is stable; it is modelled by insertion from the
    right, which every stable sort agrees with when the comparator is a total
    preorder. *)
Fixpoint insert_sorted (cmp : TimesheetEntry -> TimesheetEntry -> Z)
  (x : TimesheetEntry) (l : list TimesheetEntry) : list TimesheetEntry :=
  match l with
  | [] => [x]
  | y :: rest => if (0 <? cmp x y)%Z then y :: insert_sorted cmp x rest else x :: l
  end.

Definition sort (cmp : TimesheetEntry -> TimesheetEntry -> Z)
  (l : list TimesheetEntry) : list TimesheetEntry :=
  fold_right (insert_sorted cmp) [] l.

Definition sortedEntries (sortField : Key) (sortDirection : Direction)
  (entries : list TimesheetEntry) : list TimesheetEntry :=
  sort (compareEntries sortField sortDirection) entries.

Definition headers : list string :=
  ["Employee ID"; "Start Date"; "End Date"; "Timesheet Status"; "Schedule Hours";
   "Reported Hours"; "Regular Hours"; "Overtime Hours"; "Holiday Hours";
   "Leave Hours"; "Total Hours"].

Definition newline : string := String "010"%char EmptyString.

Section WithRuntime.
Context `{JsRuntime}.

(** One line of the file: [[...].join(',')], numbers converted by [String]. *)
Definition exportRow (entry : TimesheetEntry) : string :=
  join ","
    [entry.(employeeId);
     entry.(startDate);
     entry.(endDate);
     dquote ++ entry.(timesheetStatus) ++ dquote;
     Number_toString entry.(scheduleHours);
     Number_toString entry.(reportedHours);
     Number_toString entry.(regularHours);
     Number_toString entry.(overtimeHours);
     Number_toString entry.(holidayHours);
     Number_toString entry.(leaveHours);
     Number_toString entry.(totalHours)].

(** The text [exportToCSV] hands to the [Blob]. *)
Definition exportToCSV (sortedEntries : list TimesheetEntry) : string :=
  let csvContent :=
    join newline (join "," headers :: map exportRow sortedEntries) in
  csvContent.

End WithRuntime.
End TimesheetTable.
(** ** A reference reader

    [papaparse] is an npm dependency and not part of the repository.  Facts
    about [parseCSV] alone take the reader as the parameter [CsvReader]; where a
    statement needs to run the reader on a text, it uses this model of
    [Papa.parse] with [header: true] and [skipEmptyLines: true], for
    comma-delimited text whose lines end in LF (what [Papa.parse] detects on the
    text [exportToCSV] writes, whose first line holds commas and no other
    candidate delimiter): a field that starts with a double quote runs to the
    closing quote, with a doubled quote standing for one quote; a quote inside
    an unquoted field is an ordinary character; a row whose number of fields
    differs from the header's is reported as an error; rows made of one empty
    field are skipped.  Two simplifications, both on texts the reader reports
    as erroneous or that the export never writes: white space between a closing
    quote and the delimiter is reported as a malformed quote, and a header name
    that occurs twice keeps the later column. *)

Module PapaRef.

Inductive QState :=
| FieldStart   (* at the first character of a field *)
| Unquoted     (* inside an unquoted field *)
| Quoted       (* inside a quoted field *)
| QuoteSeen.   (* after a quote met inside a quoted field *)

(** What remains to be read: the rest of the current field, the remaining fields
    of the current row, the remaining rows, and the errors met. *)
Record Scan := {
  cell : string;
  cells : list string;
  rows : list (list string);
  errs : list Papa.ParseError;
}.

Definition push (c : ascii) (t : Scan) : Scan :=
  {| cell := String c (cell t); cells := cells t; rows := rows t; errs := errs t |}.

Definition end_cell (t : Scan) : Scan :=
  {| cell := EmptyString; cells := cell t :: cells t; rows := rows t;
     errs := errs t |}.

Definition end_row (t : Scan) : Scan :=
  {| cell := EmptyString; cells := []; rows := (cell t :: cells t) :: rows t;
     errs := errs t |}.

Definition add_error (e : Papa.ParseError) (t : Scan) : Scan :=
  {| cell := cell t; cells := cells t; rows := rows t; errs := e :: errs t |}.

Definition MissingQuotes : Papa.ParseError :=
  {| Papa.type := "Quotes"; Papa.code := "MissingQuotes";
     Papa.message := "Quoted field unterminated" |}.

Definition InvalidQuotes : Papa.ParseError :=
  {| Papa.type := "Quotes"; Papa.code := "InvalidQuotes";
     Papa.message := "Trailing quote on quoted field is malformed" |}.

Definition comma : ascii := ","%char.
Definition LF : ascii := "010"%char.
Definition quote : ascii := "034"%char.

Fixpoint scan (q : QState) (s : string) : Scan :=
  match s with
  | EmptyString =>
      {| cell := EmptyString; cells := []; rows := [];
         errs := match q with Quoted => [MissingQuotes] | _ => [] end |}
  | String c rest =>
      match q with
      | FieldStart =>
          if Ascii.eqb c quote then scan Quoted rest
          else if Ascii.eqb c comma then end_cell (scan FieldStart rest)
          else if Ascii.eqb c LF then end_row (scan FieldStart rest)
          else push c (scan Unquoted rest)
      | Unquoted =>
          if Ascii.eqb c comma then end_cell (scan FieldStart rest)
          else if Ascii.eqb c LF then end_row (scan FieldStart rest)
          else push c (scan Unquoted rest)
      | Quoted =>
          if Ascii.eqb c quote then scan QuoteSeen rest
          else push c (scan Quoted rest)
      | QuoteSeen =>
          if Ascii.eqb c quote then push quote (scan Quoted rest)
          else if Ascii.eqb c comma then end_cell (scan FieldStart rest)
          else if Ascii.eqb c LF then end_row (scan FieldStart rest)
          else add_error InvalidQuotes (push quote (push c (scan Quoted rest)))
      end
  end.

(** The rows of a text, each a list of fields. *)
Definition rows_of (t : Scan) : list (list string) :=
  (cell t :: cells t) :: rows t.

(** [skipEmptyLines: true] drops the rows made of one empty field. *)
Definition isEmptyLine (r : list string) : bool :=
  match r with
  | [c] => String.eqb c EmptyString
  | _ => false
  end.

Definition nat_to_string (n : nat) : string :=
  DecimalString.NilZero.string_of_uint (Nat.to_uint n).

Definition FieldMismatch (expected parsed : nat) : list Papa.ParseError :=
  if (parsed <? expected)%nat then
    [{| Papa.type := "FieldMismatch"; Papa.code := "TooFewFields";
        Papa.message := "Too few fields: expected " ++ nat_to_string expected
                        ++ " fields but parsed " ++ nat_to_string parsed |}]
  else if (expected <? parsed)%nat then
    [{| Papa.type := "FieldMismatch"; Papa.code := "TooManyFields";
        Papa.message := "Too many fields: expected " ++ nat_to_string expected
                        ++ " fields but parsed " ++ nat_to_string parsed |}]
  else [].

(** [row[field] = transform(value, field)] for the fields of one row, in column
    order; fields beyond the header's are left out of the object. *)
Fixpoint fill (transform : string -> string -> string)
  (fields values : list string) (obj : gmap string string) : gmap string string :=
  match fields, values with
  | field :: fields', value :: values' =>
      fill transform fields' values' (<[field := transform value field]> obj)
  | _, _ => obj
  end.

Definition parse (text : string) (transformHeader : string -> string)
  (transform : string -> string -> string) : Papa.Outcome :=
  let t := scan FieldStart text in
  match List.filter (fun r => negb (isEmptyLine r)) (rows_of t) with
  | [] => Papa.complete {| Papa.data := []; Papa.errors := errs t |}
  | header :: body =>
      let fields := map transformHeader header in
      Papa.complete
        {| Papa.data := map (fun r => fill transform fields r ∅) body;
           Papa.errors :=
             errs t
             ++ flat_map (fun r => FieldMismatch (length fields) (length r)) body |}
  end.

End PapaRef.

(** The reference reader as a [CsvReader]. *)
Definition PapaRef_reader : CsvReader := {| Papa_parse := PapaRef.parse |}.
(** ** A reference runtime

    The built-ins of [JsRuntime] as ECMAScript defines them, computed exactly on
    the binary64 values: decimal text is read to the nearest number, [String]
    of a number is the shortest decimal text that reads back to it,
    [toFixed(2)] and [Math.round] round the exact value.  Two limits: the local
    time zone is UTC, and [new Date(s)] accepts the date-only form YYYY-MM-DD
    (the one form whose reading the language fixes; engines accept more). *)

Module RefRuntime.
Import Js.

(** *** Numbers and decimal text *)

(** The number nearest to [(-1)^neg * m * 10^e10], ties to even. *)
Definition of_decimal (neg : bool) (m : Z) (e10 : Z) : number :=
  match m with
  | Zpos _ =>
      if (0 <=? e10)%Z then
        SF2Prim (binary_normalize prec emax
                   (if neg then - (m * 10 ^ e10) else m * 10 ^ e10)%Z 0 false)
      else
        let '(mz, ez, lz) :=
          SFdiv_core_binary prec emax m 0 (10 ^ (- e10))%Z 0 in
        SF2Prim (binary_round_aux prec emax neg mz ez lz)
  | _ => SF2Prim (S754_zero neg)
  end.

Definition of_Z (z : Z) : number := of_decimal (z <? 0)%Z (Z.abs z) 0.

(** A finite non-zero number as sign, numerator and denominator. *)
Definition to_fraction (x : number) : option (bool * Z * Z) :=
  match Prim2SF x with
  | S754_finite s m e =>
      Some (s, if (0 <=? e)%Z then (Zpos m * 2 ^ e)%Z else Zpos m,
               if (0 <=? e)%Z then 1%Z else (2 ^ (- e))%Z)
  | _ => None
  end.

Definition digit_of (c : ascii) : option Z :=
  let n := nat_of_ascii c in
  if ((48 <=? n) && (n <=? 57))%nat then Some (Z.of_nat (n - 48)) else None.

Definition is_e (c : ascii) : bool := Ascii.eqb c "e" || Ascii.eqb c "E".

(** Reading of a StrDecimalLiteral prefix: [m] collects the digits of the
    mantissa, [k] counts those after the point, [e] is the exponent read. *)
Fixpoint pf_exp (neg : bool) (m k : Z) (eneg : bool) (e : Z) (s : string) : number :=
  match s with
  | String c rest =>
      match digit_of c with
      | Some d => pf_exp neg m k eneg (10 * e + d) rest
      | None => of_decimal neg m ((if eneg then - e else e) - k)
      end
  | EmptyString => of_decimal neg m ((if eneg then - e else e) - k)
  end.

(** After [e] or [E]: an exponent needs at least one digit, else the literal
    ends before the [e]. *)
Definition pf_exp_start (neg : bool) (m k : Z) (s : string) : number :=
  match s with
  | String c rest =>
      match digit_of c with
      | Some d => pf_exp neg m k false d rest
      | None =>
          if Ascii.eqb c "+" || Ascii.eqb c "-" then
            match rest with
            | String c' rest' =>
                match digit_of c' with
                | Some d => pf_exp neg m k (Ascii.eqb c "-") d rest'
                | None => of_decimal neg m (- k)
                end
            | EmptyString => of_decimal neg m (- k)
            end
          else of_decimal neg m (- k)
      end
  | EmptyString => of_decimal neg m (- k)
  end.

Fixpoint pf_frac (neg : bool) (m k : Z) (s : string) : number :=
  match s with
  | String c rest =>
      match digit_of c with
      | Some d => pf_frac neg (10 * m + d) (k + 1) rest
      | None => if is_e c then pf_exp_start neg m k rest else of_decimal neg m (- k)
      end
  | EmptyString => of_decimal neg m (- k)
  end.

Fixpoint pf_int (neg : bool) (m : Z) (s : string) : number :=
  match s with
  | String c rest =>
      match digit_of c with
      | Some d => pf_int neg (10 * m + d) rest
      | None =>
          if Ascii.eqb c "." then pf_frac neg m 0 rest
          else if is_e c then pf_exp_start neg m 0 rest
          else of_decimal neg m 0
      end
  | EmptyString => of_decimal neg m 0
  end.

(** After the sign: [Infinity], digits, or a point followed by a digit. *)
Definition pf_unsigned (neg : bool) (s : string) : number :=
  if startsWith s "Infinity" then (if neg then neg_infinity else infinity)
  else
    match s with
    | String c rest =>
        match digit_of c with
        | Some d => pf_int neg d rest
        | None =>
            if Ascii.eqb c "." then
              match rest with
              | String c' rest' =>
                  match digit_of c' with
                  | Some d => pf_frac neg d 1 rest'
                  | None => nan
                  end
              | EmptyString => nan
              end
            else nan
        end
    | EmptyString => nan
    end.

Definition parseFloat (s : string) : number :=
  match trimStart s with
  | String c rest =>
      if Ascii.eqb c "-" then pf_unsigned true rest
      else if Ascii.eqb c "+" then pf_unsigned false rest
      else pf_unsigned false (String c rest)
  | EmptyString => nan
  end.

(** Decimal digits of a non-negative integer. *)
Definition digits (z : Z) : string :=
  NilZero.string_of_uint (N.to_uint (Z.to_N z)).

Fixpoint zeros (n : nat) : string :=
  match n with
  | O => EmptyString
  | S n' => String "0" (zeros n')
  end.

(** [n / d] rounded to the nearest integer, ties to even. *)
Definition div_nearest_even (n d : Z) : Z :=
  let q := (n / d)%Z in
  let r := (n mod d)%Z in
  match (2 * r ?= d)%Z with
  | Lt => q
  | Gt => (q + 1)%Z
  | Eq => if Z.even q then q else (q + 1)%Z
  end.

(** [n / d] rounded to the nearest integer, ties upwards. *)
Definition div_nearest_up (n d : Z) : Z := ((2 * n + d) / (2 * d))%Z.

(** [num / den * 10^e] as a fraction. *)
Definition scale10 (num den e : Z) : Z * Z :=
  if (0 <=? e)%Z then ((num * 10 ^ e)%Z, den) else (num, (den * 10 ^ (- e))%Z).

(** The least [n] from [lo] on with [num / den < 10^n]. *)
Fixpoint magnitude (fuel : nat) (num den lo : Z) : Z :=
  match fuel with
  | O => lo
  | S fuel' =>
      let '(a, b) := scale10 num den (- lo) in
      if (a <? b)%Z then lo else magnitude fuel' num den (lo + 1)%Z
  end.

(** A position below the magnitude, from the bit lengths: [log10 2] is
    0.30103 to five places. *)
Definition magnitude_below (num den : Z) : Z :=
  ((Z.log2 num - Z.log2 den - 1) * 30103 / 100000 - 1)%Z.

(** The digits [s] (as an integer of [k] digits) and the position [n] of the
    shortest decimal [s * 10^(n-k)] that reads back to [x = num / den]: the
    lengths [k] are tried in increasing order. *)
Fixpoint shortest (fuel : nat) (x : number) (num den n k : Z) : Z * Z * Z :=
  let '(a, b) := scale10 num den (k - n) in
  let s := div_nearest_even a b in
  let '(s, n') := if (s =? 10 ^ k)%Z then ((10 ^ (k - 1))%Z, (n + 1)%Z) else (s, n) in
  match fuel with
  | O => (s, n', k)
  | S fuel' =>
      if PrimFloat.Leibniz.eqb (of_decimal false s (n' - k)) x then (s, n', k)
      else shortest fuel' x num den n (k + 1)%Z
  end.

(** The text of a finite positive number from its digits [s], their count [k]
    and the position [n] of the decimal point. *)
Definition layout (s n k : Z) : string :=
  let ds := digits s in
  if ((k <=? n) && (n <=? 21))%Z then ds ++ zeros (Z.to_nat (n - k))
  else if ((0 <? n) && (n <=? 21))%Z then
    substring 0 (Z.to_nat n) ds ++ "."
    ++ substring (Z.to_nat n) (Z.to_nat (k - n)) ds
  else if ((-6 <? n) && (n <=? 0))%Z then "0." ++ zeros (Z.to_nat (- n)) ++ ds
  else
    let e := (n - 1)%Z in
    let etext := (if (e <? 0)%Z then "-" else "+") ++ digits (Z.abs e) in
    if (k =? 1)%Z then ds ++ "e" ++ etext
    else substring 0 1 ds ++ "." ++ substring 1 (Z.to_nat (k - 1)) ds
         ++ "e" ++ etext.

Definition Number_toString (x : number) : string :=
  if PrimFloat.is_nan x then "NaN"
  else if PrimFloat.is_zero x then "0"
  else if PrimFloat.is_infinity x then
    (if (x <? 0)%float then "-Infinity" else "Infinity")
  else
    match to_fraction x with
    | Some (neg, num, den) =>
        let n := magnitude 8 num den (magnitude_below num den) in
        let '(s, n', k) := shortest 17 (abs x) num den n 1 in
        (if neg then "-" else "") ++ layout s n' k
    | None => "NaN"
    end.

(** [x.toFixed(2)] *)
Definition Number_toFixed2 (x : number) : string :=
  if PrimFloat.is_nan x then "NaN"
  else if (1e21 <=? abs x)%float then Number_toString x
  else
    let '(neg, num, den) :=
      match to_fraction x with
      | Some f => f
      | None => (false, 0%Z, 1%Z)
      end in
    let n := div_nearest_up (num * 100) den in
    let m := digits n in
    let m := if (String.length m <=? 2)%nat
             then zeros (3 - String.length m) ++ m else m in
    let k := String.length m in
    (if neg then "-" else "")
    ++ substring 0 (k - 2) m ++ "." ++ substring (k - 2) 2 m.

(** [Math.round(x)]: the integer nearest to [x], ties upwards; a result of zero
    keeps the sign of [x]. *)
Definition Math_round (x : number) : number :=
  match Prim2SF x with
  | S754_finite neg m e =>
      if (0 <=? e)%Z then x
      else
        let den := (2 ^ (- e))%Z in
        let r := if neg then (- ((2 * Zpos m + den - 1) / (2 * den)))%Z
                 else ((2 * Zpos m + den) / (2 * den))%Z in
        if (r =? 0)%Z then SF2Prim (S754_zero neg) else of_Z r
  | _ => x
  end.

(** *** Dates (proleptic Gregorian calendar, UTC) *)

Definition msPerDay : Z := 86400000.

(** Days from 1970-01-01 to the first day of month [m] (1..12) of year [y],
    plus [d - 1]. *)
Definition days_from_civil (y m d : Z) : Z :=
  let y' := (if (m <=? 2)%Z then y - 1 else y)%Z in
  let era := (y' / 400)%Z in
  let yoe := (y' - era * 400)%Z in
  let mp := ((m + 9) mod 12)%Z in
  let doy := ((153 * mp + 2) / 5 + d - 1)%Z in
  let doe := (yoe * 365 + yoe / 4 - yoe / 100 + doy)%Z in
  (era * 146097 + doe - 719468)%Z.

(** Year, month (1..12) and day of the month of a day number. *)
Definition civil_from_days (z : Z) : Z * Z * Z :=
  let z' := (z + 719468)%Z in
  let era := (z' / 146097)%Z in
  let doe := (z' - era * 146097)%Z in
  let yoe := ((doe - doe / 1460 + doe / 36524 - doe / 146096) / 365)%Z in
  let y := (yoe + era * 400)%Z in
  let doy := (doe - (365 * yoe + yoe / 4 - yoe / 100))%Z in
  let mp := ((5 * doy + 2) / 153)%Z in
  let d := (doy - (153 * mp + 2) / 5 + 1)%Z in
  let m := (if (mp <? 10)%Z then mp + 3 else mp - 9)%Z in
  ((if (m <=? 2)%Z then y + 1 else y)%Z, m, d).

Definition isLeapYear (y : Z) : bool :=
  ((y mod 4 =? 0) && (negb (y mod 100 =? 0) || (y mod 400 =? 0)))%Z.

Definition daysInMonth (y m : Z) : Z :=
  if (m =? 2)%Z then (if isLeapYear y then 29 else 28)%Z
  else if ((m =? 4) || (m =? 6) || (m =? 9) || (m =? 11))%Z then 30%Z
  else 31%Z.

(** The value of a string of decimal digits. *)
Fixpoint digits_value (acc : Z) (s : string) : option Z :=
  match s with
  | EmptyString => Some acc
  | String c rest =>
      match digit_of c with
      | Some d => digits_value (10 * acc + d) rest
      | None => None
      end
  end.

(** [new Date(s).getTime()] for the date-only form YYYY-MM-DD. *)
Definition Date_parse (s : string) : number :=
  if ((String.length s =? 10)%nat
      && String.eqb (substring 4 1 s) "-" && String.eqb (substring 7 1 s) "-")
  then
    match digits_value 0 (substring 0 4 s), digits_value 0 (substring 5 2 s),
          digits_value 0 (substring 8 2 s) with
    | Some y, Some m, Some d =>
        if ((1 <=? m) && (m <=? 12) && (1 <=? d) && (d <=? daysInMonth y m))%Z
        then of_Z (days_from_civil y m d * msPerDay)
        else nan
    | _, _, _ => nan
    end
  else nan.

(** The integer a time value holds. *)
Definition time_value (t : number) : option Z :=
  if PrimFloat.is_zero t then Some 0%Z
  else
    match to_fraction t with
    | Some (neg, num, den) =>
        if (num mod den =? 0)%Z
        then Some (if neg then - (num / den) else num / den)%Z else None
    | None => None
    end.

Definition Date_getFullYear (t : number) : number :=
  match time_value t with
  | Some ms => let '(y, _, _) := civil_from_days (ms / msPerDay) in of_Z y
  | None => nan
  end.

(** [d.setFullYear(y)] keeps the month, the day of the month and the time of
    day; 29 February moves to 1 March in a common year. *)
Definition Date_setFullYear (t : number) (year : number) : number :=
  match time_value t, time_value year with
  | Some ms, Some y =>
      let '(_, m, d) := civil_from_days (ms / msPerDay) in
      of_Z ((days_from_civil y m 1 + (d - 1)) * msPerDay + ms mod msPerDay)
  | _, _ => nan
  end.

End RefRuntime.

(** The reference runtime as a [JsRuntime]. *)
Definition RefRuntime_runtime : JsRuntime := {|
  Date_parse := RefRuntime.Date_parse;
  Date_getFullYear := RefRuntime.Date_getFullYear;
  Date_setFullYear := RefRuntime.Date_setFullYear;
  Number_toString := RefRuntime.Number_toString;
  Number_toFixed2 := RefRuntime.Number_toFixed2;
  Math_round := RefRuntime.Math_round;
  parseFloat := RefRuntime.parseFloat;
|}.
(** ** Sample records

    The scenarios of the specification, on the reference runtime, with the
    clock standing at 2025-06-01. *)

Module Samples.

Definition clock : Clock := fun _ => RefRuntime.Date_parse "2025-06-01".

(** Scenario A: a consistent approved week. *)
Definition scenarioA : TimesheetEntry :=
  {| employeeId := "E100"; startDate := "2025-05-05"; endDate := "2025-05-12";
     timesheetStatus := "Approved";
     scheduleHours := 40; reportedHours := 40; regularHours := 40;
     overtimeHours := 0; holidayHours := 0; leaveHours := 0; totalHours := 40 |}.

(** Scenario D: reported hours above schedule hours, status Approved. *)
Definition scenarioD : TimesheetEntry :=
  {| employeeId := "E100"; startDate := "2025-05-05"; endDate := "2025-05-12";
     timesheetStatus := "Approved";
     scheduleHours := 40; reportedHours := 50; regularHours := 40;
     overtimeHours := 10; holidayHours := 0; leaveHours := 0; totalHours := 50 |}.

(** Scenario E: as D, status Needs Approval. *)
Definition scenarioE : TimesheetEntry :=
  {| employeeId := "E100"; startDate := "2025-05-05"; endDate := "2025-05-12";
     timesheetStatus := "Needs Approval";
     scheduleHours := 40; reportedHours := 50; regularHours := 40;
     overtimeHours := 10; holidayHours := 0; leaveHours := 0; totalHours := 50 |}.

(** Reported hours above schedule hours and no breakdown at all. *)
Definition no_breakdown : TimesheetEntry :=
  {| employeeId := "E100"; startDate := "2025-05-05"; endDate := "2025-05-12";
     timesheetStatus := "Approved";
     scheduleHours := 40; reportedHours := 50; regularHours := 0;
     overtimeHours := 0; holidayHours := 0; leaveHours := 0; totalHours := 0 |}.

(** Total hours against a breakdown of 40. *)
Definition with_total (total : number) : TimesheetEntry :=
  {| employeeId := "E100"; startDate := "2025-05-05"; endDate := "2025-05-12";
     timesheetStatus := "Approved";
     scheduleHours := 50; reportedHours := 40; regularHours := 40;
     overtimeHours := 0; holidayHours := 0; leaveHours := 0; totalHours := total |}.

(** A period from 2025-05-01 to the given end date. *)
Definition with_end (endDate : string) : TimesheetEntry :=
  {| employeeId := "E100"; startDate := "2025-05-01"; endDate := endDate;
     timesheetStatus := "Approved";
     scheduleHours := 40; reportedHours := 40; regularHours := 40;
     overtimeHours := 0; holidayHours := 0; leaveHours := 0; totalHours := 40 |}.

(** An absence with the given regular and overtime hours. *)
Definition absence (regular overtime : number) : TimesheetEntry :=
  {| employeeId := "E100"; startDate := "2025-05-05"; endDate := "2025-05-12";
     timesheetStatus := "Absence/Holiday";
     scheduleHours := 40; reportedHours := 0; regularHours := regular;
     overtimeHours := overtime; holidayHours := 0; leaveHours := 0;
     totalHours := 0 |}.

(** A clock that moves on after its first two readings. *)
Definition moving_clock : Clock := fun n =>
  if (n <? 2)%nat then RefRuntime.Date_parse "2025-06-01"
  else RefRuntime.Date_parse "2027-01-01".

(** A file with padded cells, a cell that is no number and missing columns. *)
Definition padded_file : string :=
  "Employee ID,Schedule Hours,Reported Hours,Status" ++ TimesheetTable.newline
  ++ " 7 , 40.5 ,abc,  Approved ".

(** The row object the reader hands over for the one row of [padded_file]. *)
Definition padded_row : gmap string string :=
  PapaRef.fill (CsvParser.transform (H := RefRuntime_runtime))
    ["employeeId"; "scheduleHours"; "reportedHours"; "timesheetStatus"]
    [" 7 "; " 40.5 "; "abc"; "  Approved "] ∅.

(** A file whose quoted field never ends. *)
Definition broken_file : string :=
  "Employee ID,Status" ++ TimesheetTable.newline
  ++ "7," ++ Js.dquote ++ "Approved".

(** A record whose identifier holds a comma, as read from a quoted cell. *)
Definition comma_id : TimesheetEntry :=
  {| employeeId := "Smith, J"; startDate := "2025-05-05"; endDate := "2025-05-12";
     timesheetStatus := "Approved";
     scheduleHours := 40; reportedHours := 40; regularHours := 40;
     overtimeHours := 0; holidayHours := 0; leaveHours := 0; totalHours := 40 |}.

(** A record whose identifier starts with a space. *)
Definition padded_id : TimesheetEntry :=
  {| employeeId := " 7"; startDate := "2025-05-05"; endDate := "2025-05-12";
     timesheetStatus := "Approved";
     scheduleHours := 40; reportedHours := 40; regularHours := 40;
     overtimeHours := 0; holidayHours := 0; leaveHours := 0; totalHours := 40 |}.

End Samples.
(** ** Records that survive the export

    [exportToCSV] writes every cell as it is: only the status is put between
    double quotes, and nothing is escaped.  These are the records whose cells
    the reader gives back. *)

Module Exportable.
Import Js.

Definition CR : ascii := "013"%char.

(** No comma, no line break, no double quote. *)
Definition plain_char (c : ascii) : bool :=
  negb (Ascii.eqb c PapaRef.comma || Ascii.eqb c PapaRef.LF
        || Ascii.eqb c CR || Ascii.eqb c PapaRef.quote).

Fixpoint plain (s : string) : bool :=
  match s with
  | EmptyString => true
  | String c rest => plain_char c && plain rest
  end.

(** No double quote, no carriage return. *)
Definition quotable_char (c : ascii) : bool :=
  negb (Ascii.eqb c PapaRef.quote || Ascii.eqb c CR).

Fixpoint quotable (s : string) : bool :=
  match s with
  | EmptyString => true
  | String c rest => quotable_char c && quotable rest
  end.

Section WithRuntime.
Context `{JsRuntime}.

(** The number is read back from its own text: the text [String(x)] is plain,
    and the normalization of a numeric cell holding it yields [x]. *)
Definition reads_back (x : number) : Prop :=
  plain (Number_toString x) = true
  /\ or0 (parseFloat (CsvParser.transform (Number_toString x) "totalHours")) = x.

Record exportable (e : TimesheetEntry) : Prop := {
  id_plain : plain e.(employeeId) = true;
  id_trimmed : trim e.(employeeId) = e.(employeeId);
  start_plain : plain e.(startDate) = true;
  start_trimmed : trim e.(startDate) = e.(startDate);
  end_plain : plain e.(endDate) = true;
  end_trimmed : trim e.(endDate) = e.(endDate);
  status_quotable : quotable e.(timesheetStatus) = true;
  status_trimmed : trim e.(timesheetStatus) = e.(timesheetStatus);
  schedule_reads_back : reads_back e.(scheduleHours);
  reported_reads_back : reads_back e.(reportedHours);
  regular_reads_back : reads_back e.(regularHours);
  overtime_reads_back : reads_back e.(overtimeHours);
  holiday_reads_back : reads_back e.(holidayHours);
  leave_reads_back : reads_back e.(leaveHours);
  total_reads_back : reads_back e.(totalHours);
}.

End WithRuntime.

(** How a cell is written: as it is, or between double quotes. *)
Inductive Cell :=
| Bare (text : string)
| InQuotes (text : string).

Definition written (c : Cell) : string :=
  match c with
  | Bare text => text
  | InQuotes text => dquote ++ text ++ dquote
  end.

Definition content (c : Cell) : string :=
  match c with
  | Bare text => text
  | InQuotes text => text
  end.

Definition well_written (c : Cell) : Prop :=
  match c with
  | Bare text => plain text = true
  | InQuotes text => quotable text = true
  end.

(** The reading of a row of cells placed before the reading [t] of what
    follows the row. *)
Fixpoint pushs (s : string) (t : PapaRef.Scan) : PapaRef.Scan :=
  match s with
  | EmptyString => t
  | String c rest => PapaRef.push c (pushs rest t)
  end.

Fixpoint with_cells (cs : list string) (t : PapaRef.Scan) : PapaRef.Scan :=
  match cs with
  | [] => t
  | [c] => pushs c t
  | c :: rest => pushs c (PapaRef.end_cell (with_cells rest t))
  end.

(** The reading of the lines after the first. *)
Fixpoint tail_scan (ls : list (list string)) : PapaRef.Scan :=
  match ls with
  | [] => PapaRef.scan PapaRef.Unquoted EmptyString
  | l :: rest => PapaRef.end_row (with_cells l (tail_scan rest))
  end.

(** One line of cells. *)
Definition row_text (cs : list Cell) : string := join "," (map written cs).

(** The lines after the first, each preceded by its line break. *)
Fixpoint more_lines (sep : string) (ls : list string) : string :=
  match ls with
  | [] => EmptyString
  | l :: rest => sep ++ l ++ more_lines sep rest
  end.

Section Rows.
Context `{JsRuntime}.

(** The cells [exportRow] writes for a record. *)
Definition row_cells (e : TimesheetEntry) : list Cell :=
  [Bare e.(employeeId); Bare e.(startDate); Bare e.(endDate);
   InQuotes e.(timesheetStatus);
   Bare (Number_toString e.(scheduleHours));
   Bare (Number_toString e.(reportedHours));
   Bare (Number_toString e.(regularHours));
   Bare (Number_toString e.(overtimeHours));
   Bare (Number_toString e.(holidayHours));
   Bare (Number_toString e.(leaveHours));
   Bare (Number_toString e.(totalHours))].

End Rows.

(** The header names of the export, as [transformHeader] maps them. *)
Definition canonical : list string :=
  ["employeeId"; "startDate"; "endDate"; "timesheetStatus"; "scheduleHours";
   "reportedHours"; "regularHours"; "overtimeHours"; "holidayHours";
   "leaveHours"; "totalHours"].

(** The text after a cell: the end of the text, a comma or a line break. *)
Definition at_sep (r : string) : Prop :=
  r = EmptyString
  \/ exists r', r = String PapaRef.comma r' \/ r = String PapaRef.LF r'.

(** The text after a row: the end of the text or a line break. *)
Definition at_line_end (r : string) : Prop :=
  r = EmptyString \/ exists r', r = String PapaRef.LF r'.

(** A line of at least one cell, each well written. *)
Definition line_ok (cs : list Cell) : Prop := cs <> [] /\ Forall well_written cs.

(** A reading that stands at the start of a row. *)
Definition fresh (t : PapaRef.Scan) : Prop :=
  PapaRef.cell t = EmptyString /\ PapaRef.cells t = [].

(** The object with the eleven properties of a [TimesheetEntry]. *)
Definition mkObject (a1 a2 a3 a4 a5 a6 a7 a8 a9 a10 a11 : Value) : gmap string Value :=
  <["totalHours" := a11]>
  (<["leaveHours" := a10]>
  (<["holidayHours" := a9]>
  (<["overtimeHours" := a8]>
  (<["regularHours" := a7]>
  (<["reportedHours" := a6]>
  (<["scheduleHours" := a5]>
  (<["timesheetStatus" := a4]>
  (<["endDate" := a3]>
  (<["startDate" := a2]>
  (<["employeeId" := a1]> ∅)))))))))).

End Exportable.
(** ** How actions extend the two arrays *)

Module Frame.
Import Validator.

(** The findings an action pushes, started on empty arrays after [r] clock
    readings. *)
Definition run (a : Action) (r : nat) : VState :=
  a {| st_errors := []; st_warnings := []; st_reads := r |}.

(** An action only appends: what it adds depends on the state through the
    number of clock readings alone. *)
Definition framed (a : Action) : Prop :=
  forall st,
    a st = {| st_errors := st_errors st ++ st_errors (run a (st_reads st));
              st_warnings := st_warnings st ++ st_warnings (run a (st_reads st));
              st_reads := st_reads (run a (st_reads st)) |}.

(** Number of elements of [l] that satisfy [p]. *)
Definition count {A} (p : A -> bool) (l : list A) : nat :=
  length (List.filter p l).

Definition countE (p : ValidationError -> bool) (a : Action) (r : nat) : nat :=
  count p (st_errors (run a r)).

Definition countW (p : ValidationError -> bool) (a : Action) (r : nat) : nat :=
  count p (st_warnings (run a r)).

(** Every pushed error satisfies [QE], every pushed warning [QW]. *)
Definition pushes (QE QW : ValidationError -> Prop) (a : Action) : Prop :=
  forall r, Forall QE (st_errors (run a r)) /\ Forall QW (st_warnings (run a r)).

(** The action takes no clock reading. *)
Definition noreads (a : Action) : Prop :=
  forall r, st_reads (run a r) = r.

(** An appending action that takes no clock reading. *)
Definition quiet (a : Action) : Prop := framed a /\ noreads a.

(** The action takes at most [n] clock readings. *)
Definition reads_le (n : nat) (a : Action) : Prop :=
  forall r, r <= st_reads (run a r) <= r + n.

(** Two appending actions that push the same findings whenever the clocks
    [c1] and [c2] agree on the next two readings. *)
Definition same (c1 c2 : Clock) (a1 a2 : Action) : Prop :=
  framed a1 /\ framed a2
  /\ forall r, c1 r = c2 r -> c1 (S r) = c2 (S r) -> run a1 r = run a2 r.

(** An appending action whose findings satisfy [QE] and [QW]. *)
Definition inv (QE QW : ValidationError -> Prop) (a : Action) : Prop :=
  framed a /\ pushes QE QW a.

(** An appending action that pushes exactly [n] errors satisfying [p], whatever
    the clock readings. *)
Definition emitsE (p : ValidationError -> bool) (a : Action) (n : nat) : Prop :=
  framed a /\ forall r, countE p a r = n.

Definition emitsW (p : ValidationError -> bool) (a : Action) (n : nat) : Prop :=
  framed a /\ forall r, countW p a r = n.

(** The findings of row [k] that satisfy [p]. *)
Definition on_row (k : nat) (p : ValidationError -> bool) (f : ValidationError)
  : bool :=
  Nat.eqb (row f) k && p f.

End Frame.

(** ** Recognising the findings of one rule *)

Module Findings.

Definition on_field (name : string) (f : ValidationError) : bool :=
  String.eqb (field f) name.

(** The finding of "VALIDATION 1" (total hours against the breakdown). *)
Definition is_total_mismatch (f : ValidationError) : bool :=
  on_field "totalHours" f && Js.startsWith (message f) "Total hours (".

(** The finding of "VALIDATION 2" (reported hours against schedule hours), in
    either severity. *)
Definition is_reported_exceeds (f : ValidationError) : bool :=
  on_field "reportedHours" f && Js.startsWith (message f) "Reported hours (".

(** The long-period finding of the date range validation. *)
Definition is_long_period (f : ValidationError) : bool :=
  on_field "endDate" f && Js.startsWith (message f) "Long period (".

Definition has_severity (s : Severity) (f : ValidationError) : bool :=
  Severity_eqb (severity f) s.

(** The breakdown sum [calculatedTotal] of an entry. *)
Definition calculatedTotal (e : TimesheetEntry) : number :=
  (e.(regularHours) + e.(overtimeHours) + e.(holidayHours) + e.(leaveHours))%float.

(** The statuses for which reported hours above schedule hours are tolerated. *)
Definition tolerant (status : string) : bool :=
  Js.includes ["Approved"; "Partially Approved"; "Partially Submitted"] status.

(** The number of days between two time values, as the date range validation
    computes it. *)
Definition daysDiff (startDate endDate : number) : number :=
  ((endDate - startDate) / (1000 * 60 * 60 * 24))%float.

End Findings.


(** ** More recognisers of findings *)

Module Rules.
Import Js Findings.
Local Open Scope float_scope.

(** The finding on the field [name] whose message is [msg]. *)
Definition is_finding (name msg : string) (f : ValidationError) : bool :=
  on_field name f && String.eqb (message f) msg.

(** The "Unknown status" warning. *)
Definition is_unknown_status (f : ValidationError) : bool :=
  on_field "timesheetStatus" f && Js.startsWith (message f) "Unknown status ".

(** [hasHours] of "VALIDATION 3". *)
Definition hasHours (e : TimesheetEntry) : bool :=
  (0 <? e.(reportedHours)) || (0 <? e.(regularHours))
  || (0 <? e.(overtimeHours)) || (0 <? e.(holidayHours))
  || (0 <? e.(leaveHours)).

(** One finding when the condition holds, none otherwise. *)
Definition once (c : bool) : nat := if c then 1%nat else 0%nat.

Section WithRuntime.
Context `{JsRuntime}.

(** The conditions under which no rule pushes an error for an entry: the four
    text fields are present, both dates parse and the end is after the start,
    no hour bucket is below zero, a positive total is within 0.01 of the
    breakdown sum, and reported hours above schedule hours come with a tolerant
    status. *)
Definition error_free (e : TimesheetEntry) : bool :=
  truthy_str e.(employeeId)
  && truthy_str e.(startDate)
  && truthy_str e.(endDate)
  && truthy_str e.(timesheetStatus)
  && negb (isNaN (Date_parse e.(startDate)))
  && negb (isNaN (Date_parse e.(endDate)))
  && negb (Date_parse e.(endDate) <=? Date_parse e.(startDate))
  && negb (e.(scheduleHours) <? 0)
  && negb (e.(reportedHours) <? 0)
  && negb (e.(regularHours) <? 0)
  && negb (e.(overtimeHours) <? 0)
  && negb (e.(holidayHours) <? 0)
  && negb (e.(leaveHours) <? 0)
  && negb (e.(totalHours) <? 0)
  && negb ((0 <? e.(totalHours))
           && (0.01 <? abs (e.(totalHours) - calculatedTotal e)))
  && negb ((e.(scheduleHours) <? e.(reportedHours))
           && negb (tolerant e.(timesheetStatus))).

End WithRuntime.
End Rules.

(** ** How the findings of a batch relate to its records *)

Module Batch.
Import Validator Frame.

(** The finding [f] renumbered [k] rows further down. *)
Definition shift_row (k : nat) (f : ValidationError) : ValidationError :=
  {| row := k + row f; field := field f; message := message f;
     severity := severity f |}.

(** The rows of [l] do not decrease. *)
Definition in_row_order (l : list ValidationError) : Prop :=
  StronglySorted (fun a b => row a <= row b) l.

(** An appending action that pushes no error. *)
Definition noerr (a : Action) : Prop :=
  framed a /\ forall r, st_errors (run a r) = [].

(** Two appending actions that push the same errors, whatever the clock
    readings taken before. *)
Definition errs_same (a b : Action) : Prop :=
  framed a /\ framed b /\ forall r1 r2, st_errors (run a r1) = st_errors (run b r2).

(** An appending action whose findings do not depend on the number of clock
    readings taken before. *)
Definition steady (a : Action) : Prop :=
  framed a
  /\ forall r1 r2, st_errors (run a r1) = st_errors (run a r2)
                   /\ st_warnings (run a r1) = st_warnings (run a r2).

(** [b] pushes the findings of [a], renumbered [k] rows further down, and
    reads the clock as often. *)
Definition shifted (k : nat) (a b : Action) : Prop :=
  framed a /\ framed b
  /\ forall r,
       st_errors (run b r) = map (shift_row k) (st_errors (run a r))
       /\ st_warnings (run b r) = map (shift_row k) (st_warnings (run a r))
       /\ st_reads (run b r) = st_reads (run a r).

End Batch.

(** ** The order of numbers *)

Module NumberOrder.
Local Open Scope Z_scope.

(** A position on the line for each number that is not [NaN]: the sign class,
    then exponent and mantissa, both negated for negative numbers. *)
Definition rank (f : spec_float) : Z * Z * Z :=
  match f with
  | S754_zero _ => (0, 0, 0)
  | S754_infinity true => (-2, 0, 0)
  | S754_infinity false => (2, 0, 0)
  | S754_nan => (0, 0, 0)
  | S754_finite true m e => (-1, - e, - Z.pos m)
  | S754_finite false m e => (1, e, Z.pos m)
  end.

Definition lex3 (a b : Z * Z * Z) : comparison :=
  let '(a1, a2, a3) := a in
  let '(b1, b2, b3) := b in
  match a1 ?= b1 with
  | Eq => match a2 ?= b2 with Eq => a3 ?= b3 | c => c end
  | c => c
  end.

Definition lex3_lt (a b : Z * Z * Z) : Prop :=
  let '(a1, a2, a3) := a in
  let '(b1, b2, b3) := b in
  a1 < b1 \/ (a1 = b1 /\ (a2 < b2 \/ (a2 = b2 /\ a3 < b3))).

End NumberOrder.

(** ** More of JavaScript: objects, sets and arrays of strings *)

Module JsObject.

(** The property names every object literal inherits from [Object.prototype]:
    reading one of them from an object that does not define it yields the
    inherited value, not [undefined]. *)
Definition inherited_names : list string :=
  ["constructor"; "__proto__"; "hasOwnProperty"; "isPrototypeOf";
   "propertyIsEnumerable"; "toLocaleString"; "toString"; "valueOf";
   "__defineGetter__"; "__defineSetter__"; "__lookupGetter__";
   "__lookupSetter__"].

End JsObject.

Module JsArray.
Import Js.

(** [s.includes(sub)] on strings: [sub] occurs somewhere in [s]. *)
Fixpoint String_includes (s sub : string) : bool :=
  startsWith s sub
  || match s with
     | EmptyString => false
     | String _ rest => String_includes rest sub
     end.

(** [[...new Set(xs)]]: the distinct elements in the order they first occur. *)
Fixpoint distinct_from (seen xs : list string) : list string :=
  match xs with
  | [] => []
  | x :: rest =>
      if includes seen x then distinct_from seen rest
      else x :: distinct_from (x :: seen) rest
  end.

Definition distinct (xs : list string) : list string := distinct_from [] xs.

(** [xs.sort()] on an array of distinct strings: ascending by code units.  The
    result is built by insertion from the right. *)
Fixpoint insert_string (x : string) (l : list string) : list string :=
  match l with
  | [] => [x]
  | y :: rest => if String.ltb y x then y :: insert_string x rest else x :: l
  end.

Definition sort_strings (l : list string) : list string :=
  fold_right insert_string [] l.

(** [xs.filter((x, index) => p x index)], counting from [index]. *)
Fixpoint filter_from {A} (p : A -> nat -> bool) (index : nat) (xs : list A)
  : list A :=
  match xs with
  | [] => []
  | x :: rest =>
      if p x index then x :: filter_from p (S index) rest
      else filter_from p (S index) rest
  end.

End JsArray.

(** ** The columns of the normalizer *)

Module Columns.

(** The field names of [TimesheetEntry], the values of [headerMap]. *)
Definition canonical : list string :=
  ["employeeId"; "startDate"; "endDate"; "timesheetStatus"; "scheduleHours";
   "reportedHours"; "regularHours"; "overtimeHours"; "holidayHours";
   "leaveHours"; "totalHours"].

End Columns.

(** ** The table ([TimesheetTable]): findings by row, keys that sort *)

Module TableView.
Import TimesheetTable.

(** [getRowErrors(index)], for the [errors] the table was given. *)
Definition getRowErrors (errors : list ValidationError) (index : nat)
  : list ValidationError :=
  List.filter (fun error => Nat.eqb (row error) (index + 1)) errors.

(** [getRowWarnings(index)] *)
Definition getRowWarnings (warnings : list ValidationError) (index : nat)
  : list ValidationError :=
  List.filter (fun warning => Nat.eqb (row warning) (index + 1)) warnings.

(** The key of the entry in column [k] can be ordered: in a numeric column it
    is not [NaN].  On such entries the comparator of [sortedEntries] is
    consistent. *)
Definition sortable (k : Key) (e : TimesheetEntry) : bool :=
  match k with
  | k_employeeId | k_startDate | k_endDate | k_timesheetStatus => true
  | k_scheduleHours => negb (PrimFloat.is_nan e.(scheduleHours))
  | k_reportedHours => negb (PrimFloat.is_nan e.(reportedHours))
  | k_regularHours => negb (PrimFloat.is_nan e.(regularHours))
  | k_overtimeHours => negb (PrimFloat.is_nan e.(overtimeHours))
  | k_holidayHours => negb (PrimFloat.is_nan e.(holidayHours))
  | k_leaveHours => negb (PrimFloat.is_nan e.(leaveHours))
  | k_totalHours => negb (PrimFloat.is_nan e.(totalHours))
  end.

End TableView.

(** ** The bulk panel ([BulkOperations]) *)

Module BulkOperations.
Import Js JsArray.

(** [`${entry.employeeId}-${index}`]: an array index converts to its decimal
    numeral. *)
Definition entryId (entry : TimesheetEntry) (index : nat) : string :=
  entry.(employeeId) ++ "-"
  ++ DecimalString.NilZero.string_of_uint (Nat.to_uint index).

(** The string holds no hyphen, as the numeral of an index does. *)
Fixpoint no_hyphen (s : string) : bool :=
  match s with
  | EmptyString => true
  | String c rest => negb (Ascii.eqb c "-") && no_hyphen rest
  end.

(** [entries.map((entry, index) => `${entry.employeeId}-${index}`)] *)
Definition allIds (entries : list TimesheetEntry) : list string :=
  imap (fun index entry => entryId entry index) entries.

Section Component.
Variable entries : list TimesheetEntry.
(** The state [selectedIds], a [Set] of strings. *)
Variable selectedIds : gset string.

Definition isAllSelected : bool :=
  (0 <? size selectedIds)%nat && (size selectedIds =? length entries)%nat.

Definition isSomeSelected : bool :=
  (0 <? size selectedIds)%nat && (size selectedIds <? length entries)%nat.

(** The selection [toggleSelectAll] sets. *)
Definition toggleSelectAll : gset string :=
  if isAllSelected then ∅ else list_to_set (allIds entries).

(** The selection [toggleSelectEntry(id)] sets. *)
Definition toggleSelectEntry (id : string) : gset string :=
  let newSelected := selectedIds in
  if bool_decide (id ∈ newSelected) then newSelected ∖ {[ id ]}
  else newSelected ∪ {[ id ]}.

(** [getSelectedEntries()]; [entries[index]] is the element the callback is
    called with. *)
Definition getSelectedEntries : list TimesheetEntry :=
  filter_from (fun entry index => bool_decide (entryId entry index ∈ selectedIds))
              0 entries.

End Component.

(** The identifiers of the records at the given positions, as the buttons of
    the panel hand them to [toggleSelectEntry]. *)
Definition idsAt (entries : list TimesheetEntry) (positions : list nat)
  : list string :=
  omap (fun index => (fun entry => entryId entry index) <$> entries !! index)
       positions.

End BulkOperations.

(** ** The application ([App]) *)

Module App.
Import Js ValidatorRules.

(** [{ ...entry, timesheetStatus: newStatus }] *)
Definition with_status (newStatus : string) (entry : TimesheetEntry)
  : TimesheetEntry :=
  {| employeeId := entry.(employeeId);
     startDate := entry.(startDate);
     endDate := entry.(endDate);
     timesheetStatus := newStatus;
     scheduleHours := entry.(scheduleHours);
     reportedHours := entry.(reportedHours);
     regularHours := entry.(regularHours);
     overtimeHours := entry.(overtimeHours);
     holidayHours := entry.(holidayHours);
     leaveHours := entry.(leaveHours);
     totalHours := entry.(totalHours) |}.

(** [updatedEntries] of [handleBulkStatusUpdate]. *)
Definition updatedEntries (selectedIds : list string) (newStatus : string)
  (entries : list TimesheetEntry) : list TimesheetEntry :=
  imap (fun index entry =>
          let entryId := BulkOperations.entryId entry index in
          if includes selectedIds entryId then with_status newStatus entry
          else entry)
       entries.

Inductive Tab := overview | analytics | filters | bulk.

(** The state of the component. *)
Record State := {
  entries : list TimesheetEntry;
  filteredEntries : list TimesheetEntry;
  validation : option ValidationResult;
  isProcessing : bool;
  error : option string;
  hasProcessed : bool;
  activeTab : Tab;
}.

Section WithRuntime.
Context `{JsRuntime}.

(** [handleBulkStatusUpdate(selectedIds, newStatus)]; the revalidation reads
    the clock anew. *)
Definition handleBulkStatusUpdate (clock : Clock)
  (selectedIds : list string) (newStatus : string) (st : State) : State :=
  let updatedEntries := updatedEntries selectedIds newStatus st.(entries) in
  let newValidation := validateTimesheet clock updatedEntries in
  {| entries := updatedEntries;
     filteredEntries := updatedEntries;
     validation := Some newValidation;
     isProcessing := st.(isProcessing);
     error := st.(error);
     hasProcessed := st.(hasProcessed);
     activeTab := st.(activeTab) |}.

End WithRuntime.

Definition resetApp (st : State) : State :=
  {| entries := [];
     filteredEntries := [];
     validation := None;
     isProcessing := st.(isProcessing);
     error := None;
     hasProcessed := false;
     activeTab := overview |}.

Definition handleFilterChange (filtered : list TimesheetEntry) (st : State)
  : State :=
  {| entries := st.(entries);
     filteredEntries := filtered;
     validation := st.(validation);
     isProcessing := st.(isProcessing);
     error := st.(error);
     hasProcessed := st.(hasProcessed);
     activeTab := st.(activeTab) |}.

End App.

(** ** The filter panel ([AdvancedFilters]) *)

Module AdvancedFilters.
Import Js JsArray.

(** The state [filters]; its properties [employeeId] and [status] are named
    [filterEmployeeId] and [filterStatus] here. *)
Record FilterState := {
  filterEmployeeId : string;
  filterStatus : string;
  startDateFrom : string;
  startDateTo : string;
  minHours : string;
  maxHours : string;
  searchTerm : string;
}.

(** [Object.values(filters)] *)
Definition values (filters : FilterState) : list string :=
  [filters.(filterEmployeeId); filters.(filterStatus); filters.(startDateFrom);
   filters.(startDateTo); filters.(minHours); filters.(maxHours);
   filters.(searchTerm)].

Definition hasActiveFilters (filters : FilterState) : bool :=
  existsb (fun value => negb (String.eqb value "")) (values filters).

Definition activeFilterCount (filters : FilterState) : nat :=
  length (List.filter (fun value => negb (String.eqb value "")) (values filters)).

(** The state [clearFilters] sets. *)
Definition clearFilters : FilterState :=
  {| filterEmployeeId := ""; filterStatus := ""; startDateFrom := "";
     startDateTo := ""; minHours := ""; maxHours := ""; searchTerm := "" |}.

Definition uniqueEmployees (entries : list TimesheetEntry) : list string :=
  sort_strings (distinct (map employeeId entries)).

Definition uniqueStatuses (entries : list TimesheetEntry) : list string :=
  sort_strings (distinct (map timesheetStatus entries)).

Section WithRuntime.
Context `{JsRuntime}.
Local Open Scope float_scope.

(** The list the effect hands to [onFilterChange].  Two [Date] objects compare
    by their time values, and a comparison with [NaN] is false. *)
Definition applyFilters (filters : FilterState) (entries : list TimesheetEntry)
  : list TimesheetEntry :=
  let filtered := entries in
  (* Search term filter *)
  let filtered :=
    if truthy_str filters.(searchTerm) then
      let searchLower := toLowerCase filters.(searchTerm) in
      List.filter
        (fun entry =>
           String_includes (toLowerCase entry.(employeeId)) searchLower
           || String_includes (toLowerCase entry.(timesheetStatus)) searchLower
           || String_includes (toLowerCase entry.(startDate)) searchLower
           || String_includes (toLowerCase entry.(endDate)) searchLower)
        filtered
    else filtered in
  (* Employee ID filter *)
  let filtered :=
    if truthy_str filters.(filterEmployeeId) then
      List.filter
        (fun entry => String.eqb entry.(employeeId) filters.(filterEmployeeId))
        filtered
    else filtered in
  (* Status filter *)
  let filtered :=
    if truthy_str filters.(filterStatus) then
      List.filter
        (fun entry => String.eqb entry.(timesheetStatus) filters.(filterStatus))
        filtered
    else filtered in
  (* Date range filters *)
  let filtered :=
    if truthy_str filters.(startDateFrom) then
      List.filter
        (fun entry =>
           let entryDate := Date_parse entry.(startDate) in
           let filterDate := Date_parse filters.(startDateFrom) in
           filterDate <=? entryDate)
        filtered
    else filtered in
  let filtered :=
    if truthy_str filters.(startDateTo) then
      List.filter
        (fun entry =>
           let entryDate := Date_parse entry.(startDate) in
           let filterDate := Date_parse filters.(startDateTo) in
           entryDate <=? filterDate)
        filtered
    else filtered in
  (* Hours range filters *)
  let filtered :=
    if truthy_str filters.(minHours) then
      let minHours := parseFloat filters.(minHours) in
      List.filter (fun entry => minHours <=? entry.(totalHours)) filtered
    else filtered in
  let filtered :=
    if truthy_str filters.(maxHours) then
      let maxHours := parseFloat filters.(maxHours) in
      List.filter (fun entry => entry.(totalHours) <=? maxHours) filtered
    else filtered in
  filtered.

(** An entry passes every filter that is set. *)
Definition passes (filters : FilterState) (entry : TimesheetEntry) : bool :=
  (negb (truthy_str filters.(searchTerm))
   || (let searchLower := toLowerCase filters.(searchTerm) in
       String_includes (toLowerCase entry.(employeeId)) searchLower
       || String_includes (toLowerCase entry.(timesheetStatus)) searchLower
       || String_includes (toLowerCase entry.(startDate)) searchLower
       || String_includes (toLowerCase entry.(endDate)) searchLower))
  && (negb (truthy_str filters.(filterEmployeeId))
      || String.eqb entry.(employeeId) filters.(filterEmployeeId))
  && (negb (truthy_str filters.(filterStatus))
      || String.eqb entry.(timesheetStatus) filters.(filterStatus))
  && (negb (truthy_str filters.(startDateFrom))
      || (Date_parse filters.(startDateFrom) <=? Date_parse entry.(startDate)))
  && (negb (truthy_str filters.(startDateTo))
      || (Date_parse entry.(startDate) <=? Date_parse filters.(startDateTo)))
  && (negb (truthy_str filters.(minHours))
      || (parseFloat filters.(minHours) <=? entry.(totalHours)))
  && (negb (truthy_str filters.(maxHours))
      || (entry.(totalHours) <=? parseFloat filters.(maxHours))).

End WithRuntime.
End AdvancedFilters.

(** ** The handlers of [App], one after another *)

Module Session.
Import Js ValidatorRules App.

(** The state [App] starts from. *)
Definition initial : State :=
  {| entries := [];
     filteredEntries := [];
     validation := None;
     isProcessing := false;
     error := None;
     hasProcessed := false;
     activeTab := overview |}.

(** [handleFileSelect] up to its [await]. *)
Definition handleFileSelect_start (st : State) : State :=
  {| entries := st.(entries);
     filteredEntries := st.(filteredEntries);
     validation := st.(validation);
     isProcessing := true;
     error := None;
     hasProcessed := st.(hasProcessed);
     activeTab := st.(activeTab) |}.

(** [setActiveTab(tab.id)] *)
Definition setActiveTab (tab : Tab) (st : State) : State :=
  {| entries := st.(entries);
     filteredEntries := st.(filteredEntries);
     validation := st.(validation);
     isProcessing := st.(isProcessing);
     error := st.(error);
     hasProcessed := st.(hasProcessed);
     activeTab := tab |}.

Section WithRuntime.
Context `{JsRuntime}.

(** [handleFileSelect] from its [await] on.  [parsed] is how the promise of
    [parseCSV] settled, its value taken at the type the signature declares
    ([TimesheetEntry[]]); a rejection carries an [Error], as both [reject]
    calls of [parseCSV] hand one over.  The handler reads no state: what it
    does not set is left as it finds it. *)
Definition handleFileSelect_settle (clock : Clock)
  (parsed : Settled (list TimesheetEntry)) (st : State) : State :=
  match parsed with
  | Resolved parsedEntries =>
      let validationResult := validateTimesheet clock parsedEntries in
      {| entries := parsedEntries;
         filteredEntries := parsedEntries;
         validation := Some validationResult;
         isProcessing := false;
         error := st.(error);
         hasProcessed := true;
         activeTab := overview |}
  | Rejected err =>
      {| entries := [];
         filteredEntries := [];
         validation := None;
         isProcessing := false;
         error := Some err.(error_message);
         hasProcessed := false;
         activeTab := st.(activeTab) |}
  end.

(** What can happen to the component: a file is chosen, its parse settles
    (under the clock the validation then reads), a reset button or a tab is
    clicked, the filter panel calls [onFilterChange] with a list (whichever
    list: [handleFilterChange] stores what it is handed), the bulk panel asks
    for a status update. *)
Inductive Event :=
| FileSelected
| FileSettled (clock : Clock) (parsed : Settled (list TimesheetEntry))
| ResetClicked
| TabClicked (tab : Tab)
| FilterChanged (filtered : list TimesheetEntry)
| StatusUpdated (clock : Clock) (selectedIds : list string) (newStatus : string).

Definition handle (st : State) (event : Event) : State :=
  match event with
  | FileSelected => handleFileSelect_start st
  | FileSettled clock parsed => handleFileSelect_settle clock parsed st
  | ResetClicked => resetApp st
  | TabClicked tab => setActiveTab tab st
  | FilterChanged filtered => handleFilterChange filtered st
  | StatusUpdated clock selectedIds newStatus =>
      handleBulkStatusUpdate clock selectedIds newStatus st
  end.

(** The state after the events, from the first to the last. *)
Definition after (events : list Event) : State :=
  fold_left handle events initial.

(** The validation held is the validation of the entries held, and neither
    the processed flag nor entries are held without a validation. *)
Definition consistent (st : State) : Prop :=
  (forall result, st.(validation) = Some result ->
     exists clock, result = validateTimesheet clock st.(entries))
  /\ (st.(hasProcessed) = true -> st.(validation) <> None)
  /\ (st.(validation) = None -> st.(entries) = []).

End WithRuntime.
End Session.

(** ** The status counts ([Analytics], [BulkOperations]) *)

Module Analytics.
Import Js JsArray JsObject.

(** [new Set(entries.map(e => e.employeeId)).size] *)
Definition totalEmployees (entries : list TimesheetEntry) : nat :=
  length (distinct (map employeeId entries)).

(** One step of the [reduce] that counts statuses:
    [acc[status] = (acc[status] || 0) + 1].  The counts are whole numbers far
    below 2^53, where numbers are exact: they are natural numbers here. *)
Definition count_status (acc : gmap string nat) (entry : TimesheetEntry)
  : gmap string nat :=
  <[entry.(timesheetStatus) :=
      (default 0 (acc !! entry.(timesheetStatus)) + 1)%nat]> acc.

(** [statusData] (and [statusCounts] of the bulk panel).  On the accumulator
    [{}], a status that is a property name inherited from [Object.prototype]
    reads the inherited value instead of a count: such a batch has no result
    here. *)
Definition statusData (entries : list TimesheetEntry) : option (gmap string nat) :=
  if existsb (fun entry => includes inherited_names entry.(timesheetStatus)) entries
  then None
  else Some (fold_left count_status entries ∅).

(** The number of entries with the given status. *)
Definition with_status_count (status : string) (entries : list TimesheetEntry)
  : nat :=
  length (List.filter (fun entry => String.eqb entry.(timesheetStatus) status)
                      entries).

End Analytics.

(** ** More sample records *)

Module MoreSamples.

(** A row with nothing filled in. *)
Definition blank : TimesheetEntry :=
  {| employeeId := ""; startDate := ""; endDate := ""; timesheetStatus := "";
     scheduleHours := 0; reportedHours := 0; regularHours := 0;
     overtimeHours := 0; holidayHours := 0; leaveHours := 0; totalHours := 0 |}.

(** Scenario A under a status the engine does not know. *)
Definition on_hold : TimesheetEntry := App.with_status "On hold" Samples.scenarioA.

(** Scenario A, not submitted. *)
Definition not_submitted : TimesheetEntry :=
  App.with_status "Not Submitted" Samples.scenarioA.

(** A period between the given dates. *)
Definition period (startDate endDate : string) : TimesheetEntry :=
  {| employeeId := "E100"; startDate := startDate; endDate := endDate;
     timesheetStatus := "Approved";
     scheduleHours := 40; reportedHours := 40; regularHours := 40;
     overtimeHours := 0; holidayHours := 0; leaveHours := 0; totalHours := 40 |}.

(** A week with the given schedule hours. *)
Definition scheduled (hours : number) : TimesheetEntry :=
  {| employeeId := "E100"; startDate := "2025-05-05"; endDate := "2025-05-12";
     timesheetStatus := "Approved";
     scheduleHours := hours; reportedHours := 0; regularHours := 0;
     overtimeHours := 0; holidayHours := 0; leaveHours := 0; totalHours := 0 |}.

(** A week of the given employee with the given total. *)
Definition week_of (employeeId : string) (total : number) : TimesheetEntry :=
  {| employeeId := employeeId; startDate := "2025-05-05"; endDate := "2025-05-12";
     timesheetStatus := "Approved";
     scheduleHours := 40; reportedHours := total; regularHours := total;
     overtimeHours := 0; holidayHours := 0; leaveHours := 0; totalHours := total |}.

(** Three weeks, two of them of the same employee. *)
Definition three_weeks : list TimesheetEntry :=
  [week_of "E200" 40; week_of "E100" 32; week_of "E200" 24].

(** The application after the three weeks were loaded. *)
Definition loaded : App.State :=
  {| App.entries := three_weeks;
     App.filteredEntries := three_weeks;
     App.validation :=
       Some (ValidatorRules.validateTimesheet (H := RefRuntime_runtime)
               Samples.clock three_weeks);
     App.isProcessing := false;
     App.error := None;
     App.hasProcessed := true;
     App.activeTab := App.bulk |}.

(** A reader that hands over the one row of [Samples.padded_file]. *)
Definition one_row_reader : CsvReader :=
  {| Papa_parse := fun _ _ _ =>
       Papa.complete {| Papa.data := [Samples.padded_row]; Papa.errors := [] |} |}.

(** Filters with a minimum of hours that is no number. *)
Definition unreadable_minimum : AdvancedFilters.FilterState :=
  {| AdvancedFilters.filterEmployeeId := "";
     AdvancedFilters.filterStatus := "";
     AdvancedFilters.startDateFrom := "";
     AdvancedFilters.startDateTo := "";
     AdvancedFilters.minHours := "many";
     AdvancedFilters.maxHours := "";
     AdvancedFilters.searchTerm := "" |}.

End MoreSamples.
(** * Facts *)

(** ** Comparisons of numbers *)

Module NumberFacts.
Local Open Scope float_scope.

Lemma SFcompare_antisym a b c :
  SFcompare a b = Some c -> SFcompare b a = Some (CompOpp c).
Proof.
  destruct a as [sa|sa| |sa ma ea], b as [sb|sb| |sb mb eb]; simpl;
    try discriminate;
    try (destruct sa); try (destruct sb); simpl;
    try (intros [= <-]; reflexivity).
  - intros [= <-]. f_equal. rewrite (Z.compare_antisym ea eb).
    destruct (ea ?= eb)%Z; simpl; try reflexivity.
    now rewrite (Pos.compare_cont_antisym ma mb Eq).
  - intros [= <-]. f_equal. rewrite (Z.compare_antisym ea eb).
    destruct (ea ?= eb)%Z; simpl; try reflexivity.
    now rewrite (Pos.compare_cont_antisym ma mb Eq).
Qed.

(** [x <= y] excludes [y < x]. *)
Lemma leb_not_ltb x y : (x <=? y) = true -> (y <? x) = false.
Proof.
  rewrite FloatAxioms.leb_spec, FloatAxioms.ltb_spec. unfold SFleb, SFltb.
  destruct (SFcompare (Prim2SF x) (Prim2SF y)) as [c|] eqn:E; [|discriminate].
  rewrite (SFcompare_antisym _ _ _ E). now destruct c.
Qed.

(** [x === y] excludes [y < x] and [x < y]. *)
Lemma eqb_not_ltb x y : (x =? y) = true -> (y <? x) = false /\ (x <? y) = false.
Proof.
  rewrite FloatAxioms.eqb_spec, !FloatAxioms.ltb_spec. unfold SFeqb, SFltb.
  destruct (SFcompare (Prim2SF x) (Prim2SF y)) as [c|] eqn:E; [|discriminate].
  rewrite (SFcompare_antisym _ _ _ E). now destruct c.
Qed.

End NumberFacts.

(** ** Concatenation of strings *)

Module StringFacts.

Lemma append_cons (x : ascii) (a b : string) :
  (String x a ++ b)%string = String x (a ++ b).
Proof. reflexivity. Qed.

Lemma append_nil_l (a : string) : (EmptyString ++ a)%string = a.
Proof. reflexivity. Qed.

Lemma append_nil_r (s : string) : (s ++ EmptyString)%string = s.
Proof.
  induction s as [|c s IH]; [reflexivity|]. rewrite append_cons. now rewrite IH.
Qed.

Lemma append_assoc (a b c : string) :
  ((a ++ b) ++ c)%string = (a ++ (b ++ c))%string.
Proof.
  induction a as [|x a IH]; [reflexivity|]. rewrite !append_cons. now rewrite IH.
Qed.

End StringFacts.

(** ** Appending actions *)

Module FrameFacts.
Import Validator Frame.
Local Open Scope action_scope.

Lemma VState_eq (s t : VState) :
  st_errors s = st_errors t -> st_warnings s = st_warnings t ->
  st_reads s = st_reads t -> s = t.
Proof. destruct s, t; simpl; intros; subst; reflexivity. Qed.

Lemma framed_skip : framed skip.
Proof. intros st. unfold run, skip. simpl. rewrite !app_nil_r. now destruct st. Qed.

Lemma framed_errors_push f : framed (errors_push f).
Proof. intros st. unfold run, errors_push. simpl. now rewrite app_nil_r. Qed.

Lemma framed_warnings_push f : framed (warnings_push f).
Proof. intros st. unfold run, warnings_push. simpl. now rewrite app_nil_r. Qed.

Lemma run_seq a b r :
  framed b ->
  run (a ;; b) r =
    {| st_errors := st_errors (run a r) ++ st_errors (run b (st_reads (run a r)));
       st_warnings := st_warnings (run a r) ++ st_warnings (run b (st_reads (run a r)));
       st_reads := st_reads (run b (st_reads (run a r))) |}.
Proof. intros Hb. unfold run at 1. unfold seq. rewrite Hb. reflexivity. Qed.

Lemma framed_seq a b : framed a -> framed b -> framed (a ;; b).
Proof.
  intros Ha Hb st. rewrite run_seq by assumption. simpl.
  unfold seq. rewrite Hb, Ha. simpl. now rewrite !app_assoc.
Qed.

Lemma framed_if (c : bool) a b : framed a -> framed b -> framed (if c then a else b).
Proof. now destruct c. Qed.

Lemma framed_when c a : framed a -> framed (when c a).
Proof. intros Ha. unfold when. apply framed_if; [assumption | apply framed_skip]. Qed.

Lemma run_new_Date clock k r :
  run (new_Date clock k) r = run (k (clock r)) (S r).
Proof. reflexivity. Qed.

Lemma framed_new_Date clock k : (forall d, framed (k d)) -> framed (new_Date clock k).
Proof.
  intros Hk st. rewrite run_new_Date. unfold new_Date. now rewrite Hk.
Qed.

Lemma framed_forEach {A} (f : A -> Action) xs :
  (forall x, framed (f x)) -> framed (forEach f xs).
Proof.
  intros Hf. induction xs as [|x xs IH]; simpl.
  - apply framed_skip.
  - apply framed_seq; auto.
Qed.

Lemma framed_forEach_from {A} (f : A -> nat -> Action) xs :
  (forall x i, framed (f x i)) -> forall i, framed (forEach_from f i xs).
Proof.
  intros Hf. induction xs as [|x xs IH]; intros i; simpl.
  - apply framed_skip.
  - apply framed_seq; auto.
Qed.

Lemma count_app {A} (p : A -> bool) l1 l2 :
  count p (l1 ++ l2) = count p l1 + count p l2.
Proof. unfold count. now rewrite List.filter_app, length_app. Qed.

Lemma count_Forall_false {A} (p : A -> bool) l :
  Forall (fun x => p x = false) l -> count p l = 0.
Proof.
  unfold count. induction 1 as [|x l Hx _ IH]; simpl; [reflexivity|].
  now rewrite Hx.
Qed.

Lemma count_ext_Forall {A} (p q : A -> bool) l :
  Forall (fun x => p x = q x) l -> count p l = count q l.
Proof.
  unfold count. induction 1 as [|x l Hx _ IH]; simpl; [reflexivity|].
  rewrite Hx. destruct (q x); simpl; congruence.
Qed.

(** *** Invariants of the pushed findings *)

Section Inv.
Variables QE QW : ValidationError -> Prop.

Lemma inv_skip : inv QE QW skip.
Proof. split; [apply framed_skip|]. intros r. split; constructor. Qed.

Lemma inv_errors_push f : QE f -> inv QE QW (errors_push f).
Proof.
  intros Hf. split; [apply framed_errors_push|]. intros r.
  split; simpl; repeat constructor; assumption.
Qed.

Lemma inv_warnings_push f : QW f -> inv QE QW (warnings_push f).
Proof.
  intros Hf. split; [apply framed_warnings_push|]. intros r.
  split; simpl; repeat constructor; assumption.
Qed.

Lemma inv_seq a b : inv QE QW a -> inv QE QW b -> inv QE QW (a ;; b).
Proof.
  intros [Fa Pa] [Fb Pb]. split; [now apply framed_seq|]. intros r.
  rewrite run_seq by assumption. simpl.
  destruct (Pa r), (Pb (st_reads (run a r))).
  split; apply Forall_app; split; assumption.
Qed.

Lemma inv_if (c : bool) a b : inv QE QW a -> inv QE QW b -> inv QE QW (if c then a else b).
Proof. now destruct c. Qed.

Lemma inv_when c a : inv QE QW a -> inv QE QW (when c a).
Proof. intros. unfold when. apply inv_if; [assumption | apply inv_skip]. Qed.

Lemma inv_new_Date clock k : (forall d, inv QE QW (k d)) -> inv QE QW (new_Date clock k).
Proof.
  intros Hk. split.
  - apply framed_new_Date. intros d. apply Hk.
  - intros r. rewrite run_new_Date. apply Hk.
Qed.

Lemma inv_forEach {A} (f : A -> Action) xs :
  (forall x, inv QE QW (f x)) -> inv QE QW (forEach f xs).
Proof.
  intros Hf. induction xs as [|x xs IH]; simpl.
  - apply inv_skip.
  - apply inv_seq; auto.
Qed.

End Inv.

(** *** Counting the pushed findings *)

Section Emits.
Variable p : ValidationError -> bool.

Lemma emitsE_skip : emitsE p skip 0.
Proof. split; [apply framed_skip | reflexivity]. Qed.

Lemma emitsE_errors_push f : emitsE p (errors_push f) (if p f then 1 else 0).
Proof.
  split; [apply framed_errors_push|]. intros r.
  unfold countE, count. simpl. now destruct (p f).
Qed.

Lemma emitsE_errors_push_0 f : p f = false -> emitsE p (errors_push f) 0.
Proof. intros Hf. generalize (emitsE_errors_push f). now rewrite Hf. Qed.

Lemma emitsE_errors_push_1 f : p f = true -> emitsE p (errors_push f) 1.
Proof. intros Hf. generalize (emitsE_errors_push f). now rewrite Hf. Qed.

Lemma emitsE_warnings_push f : emitsE p (warnings_push f) 0.
Proof. split; [apply framed_warnings_push | reflexivity]. Qed.

Lemma emitsE_seq a b n m : emitsE p a n -> emitsE p b m -> emitsE p (a ;; b) (n + m).
Proof.
  intros [Fa Ca] [Fb Cb]. split; [now apply framed_seq|]. intros r.
  unfold countE. rewrite run_seq by assumption. simpl.
  rewrite count_app. f_equal; [apply Ca | apply Cb].
Qed.

Lemma emitsE_if (c : bool) a b n m :
  emitsE p a n -> emitsE p b m -> emitsE p (if c then a else b) (if c then n else m).
Proof. now destruct c. Qed.

Lemma emitsE_if_0 (c : bool) a b :
  emitsE p a 0 -> emitsE p b 0 -> emitsE p (if c then a else b) 0.
Proof. now destruct c. Qed.

Lemma emitsE_when c a n : emitsE p a n -> emitsE p (when c a) (if c then n else 0).
Proof. intros. unfold when. apply emitsE_if; [assumption | apply emitsE_skip]. Qed.

Lemma emitsE_when_0 c a : emitsE p a 0 -> emitsE p (when c a) 0.
Proof. intros. unfold when. apply emitsE_if_0; [assumption | apply emitsE_skip]. Qed.

Lemma emitsE_new_Date clock k n :
  (forall d, emitsE p (k d) n) -> emitsE p (new_Date clock k) n.
Proof.
  intros Hk. split.
  - apply framed_new_Date. intros d. apply Hk.
  - intros r. unfold countE. rewrite run_new_Date. apply Hk.
Qed.

Lemma emitsE_forEach_0 {A} (f : A -> Action) xs :
  (forall x, In x xs -> emitsE p (f x) 0) -> emitsE p (forEach f xs) 0.
Proof.
  induction xs as [|x xs IH]; simpl; intros Hf.
  - apply emitsE_skip.
  - apply (emitsE_seq _ _ 0 0); auto.
Qed.

Lemma emitsW_skip : emitsW p skip 0.
Proof. split; [apply framed_skip | reflexivity]. Qed.

Lemma emitsW_warnings_push f : emitsW p (warnings_push f) (if p f then 1 else 0).
Proof.
  split; [apply framed_warnings_push|]. intros r.
  unfold countW, count. simpl. now destruct (p f).
Qed.

Lemma emitsW_warnings_push_0 f : p f = false -> emitsW p (warnings_push f) 0.
Proof. intros Hf. generalize (emitsW_warnings_push f). now rewrite Hf. Qed.

Lemma emitsW_warnings_push_1 f : p f = true -> emitsW p (warnings_push f) 1.
Proof. intros Hf. generalize (emitsW_warnings_push f). now rewrite Hf. Qed.

Lemma emitsW_errors_push f : emitsW p (errors_push f) 0.
Proof. split; [apply framed_errors_push | reflexivity]. Qed.

Lemma emitsW_seq a b n m : emitsW p a n -> emitsW p b m -> emitsW p (a ;; b) (n + m).
Proof.
  intros [Fa Ca] [Fb Cb]. split; [now apply framed_seq|]. intros r.
  unfold countW. rewrite run_seq by assumption. simpl.
  rewrite count_app. f_equal; [apply Ca | apply Cb].
Qed.

Lemma emitsW_if (c : bool) a b n m :
  emitsW p a n -> emitsW p b m -> emitsW p (if c then a else b) (if c then n else m).
Proof. now destruct c. Qed.

Lemma emitsW_if_0 (c : bool) a b :
  emitsW p a 0 -> emitsW p b 0 -> emitsW p (if c then a else b) 0.
Proof. now destruct c. Qed.

Lemma emitsW_when c a n : emitsW p a n -> emitsW p (when c a) (if c then n else 0).
Proof. intros. unfold when. apply emitsW_if; [assumption | apply emitsW_skip]. Qed.

Lemma emitsW_when_0 c a : emitsW p a 0 -> emitsW p (when c a) 0.
Proof. intros. unfold when. apply emitsW_if_0; [assumption | apply emitsW_skip]. Qed.

Lemma emitsW_new_Date clock k n :
  (forall d, emitsW p (k d) n) -> emitsW p (new_Date clock k) n.
Proof.
  intros Hk. split.
  - apply framed_new_Date. intros d. apply Hk.
  - intros r. unfold countW. rewrite run_new_Date. apply Hk.
Qed.

Lemma emitsW_forEach_0 {A} (f : A -> Action) xs :
  (forall x, In x xs -> emitsW p (f x) 0) -> emitsW p (forEach f xs) 0.
Proof.
  induction xs as [|x xs IH]; simpl; intros Hf.
  - apply emitsW_skip.
  - apply (emitsW_seq _ _ 0 0); auto.
Qed.

End Emits.

(** *** Clock readings *)

Lemma quiet_skip : quiet skip.
Proof. split; [apply framed_skip | intros r; reflexivity]. Qed.

Lemma quiet_errors_push f : quiet (errors_push f).
Proof. split; [apply framed_errors_push | intros r; reflexivity]. Qed.

Lemma quiet_warnings_push f : quiet (warnings_push f).
Proof. split; [apply framed_warnings_push | intros r; reflexivity]. Qed.

Lemma quiet_seq a b : quiet a -> quiet b -> quiet (a ;; b).
Proof.
  intros [Fa Na] [Fb Nb]. split; [now apply framed_seq|]. intros r.
  rewrite run_seq by assumption. simpl. now rewrite Na, Nb.
Qed.

Lemma quiet_if (c : bool) a b : quiet a -> quiet b -> quiet (if c then a else b).
Proof. now destruct c. Qed.

Lemma quiet_when c a : quiet a -> quiet (when c a).
Proof. intros. unfold when. apply quiet_if; [assumption | apply quiet_skip]. Qed.

Lemma quiet_forEach {A} (f : A -> Action) xs :
  (forall x, quiet (f x)) -> quiet (forEach f xs).
Proof.
  intros Hf. induction xs as [|x xs IH]; simpl.
  - apply quiet_skip.
  - apply quiet_seq; auto.
Qed.

Lemma reads_le_quiet a : quiet a -> reads_le 0 a.
Proof. intros [_ Na] r. rewrite Na. lia. Qed.

Lemma reads_le_seq a b n m :
  reads_le n a -> framed b -> reads_le m b -> reads_le (n + m) (a ;; b).
Proof.
  intros Ha Fb Hb r. rewrite run_seq by assumption. simpl.
  specialize (Ha r). specialize (Hb (st_reads (run a r))). lia.
Qed.

Section Same.
Variables c1 c2 : Clock.

Lemma same_quiet a : framed a -> same c1 c2 a a.
Proof. intros Fa. repeat split; assumption || reflexivity. Qed.

Lemma same_seq_quiet a b1 b2 :
  quiet a -> same c1 c2 b1 b2 -> same c1 c2 (a ;; b1) (a ;; b2).
Proof.
  intros [Fa Na] (F1 & F2 & Hb). repeat split; try now apply framed_seq.
  intros r Hr HSr. rewrite !run_seq by assumption. rewrite Na.
  now rewrite (Hb r Hr HSr).
Qed.

Lemma same_seq_rest a1 a2 b :
  same c1 c2 a1 a2 -> framed b -> same c1 c2 (a1 ;; b) (a2 ;; b).
Proof.
  intros (F1 & F2 & Ha) Fb. repeat split; try now apply framed_seq.
  intros r Hr HSr. rewrite !run_seq by assumption.
  now rewrite (Ha r Hr HSr).
Qed.

End Same.

(** *** Indexed loops *)

Lemma inv_forEach_from {A} QE QW (f : A -> nat -> Action) xs :
  (forall x i, inv QE QW (f x i)) -> forall i, inv QE QW (forEach_from f i xs).
Proof.
  intros Hf. induction xs as [|x xs IH]; intros i; simpl.
  - apply inv_skip.
  - apply inv_seq; auto.
Qed.

Section Rows.
Context {A : Type}.
Variable f : A -> nat -> Action.
Hypothesis f_row :
  forall x i, inv (fun v => row v = i + 1) (fun v => row v = i + 1) (f x i).

Lemma on_row_false k p (l : list ValidationError) i :
  k <> i + 1 -> Forall (fun v => row v = i + 1) l -> count (on_row k p) l = 0.
Proof.
  intros Hk Hl. apply count_Forall_false.
  induction Hl as [|v l Hv _ IH]; constructor; [|assumption].
  unfold on_row. rewrite Hv.
  destruct (Nat.eqb_spec (i + 1) k); [congruence | reflexivity].
Qed.

Lemma on_row_true p (l : list ValidationError) i :
  Forall (fun v => row v = i + 1) l -> count (on_row (i + 1) p) l = count p l.
Proof.
  intros Hl. apply count_ext_Forall.
  induction Hl as [|v l Hv _ IH]; constructor; [|assumption].
  unfold on_row. rewrite Hv. now rewrite Nat.eqb_refl.
Qed.

Lemma on_row_other k p x i :
  k <> i + 1 ->
  emitsE (on_row k p) (f x i) 0 /\ emitsW (on_row k p) (f x i) 0.
Proof.
  intros Hk. destruct (f_row x i) as [Ff Pf].
  split; (split; [assumption|]); intros r; destruct (Pf r) as [PE PW].
  - now apply on_row_false with (i := i).
  - now apply on_row_false with (i := i).
Qed.

Lemma on_row_same p x i n :
  emitsE p (f x i) n -> emitsE (on_row (i + 1) p) (f x i) n.
Proof.
  intros [Ff Cf]. split; [assumption|]. intros r. rewrite <- (Cf r).
  destruct (f_row x i) as [_ Pf]. destruct (Pf r) as [PE _].
  now apply on_row_true.
Qed.

Lemma on_row_same_W p x i n :
  emitsW p (f x i) n -> emitsW (on_row (i + 1) p) (f x i) n.
Proof.
  intros [Ff Cf]. split; [assumption|]. intros r. rewrite <- (Cf r).
  destruct (f_row x i) as [_ Pf]. destruct (Pf r) as [_ PW].
  now apply on_row_true.
Qed.

Lemma on_row_later k p xs :
  forall i, k <= i ->
  emitsE (on_row k p) (forEach_from f i xs) 0
  /\ emitsW (on_row k p) (forEach_from f i xs) 0.
Proof.
  induction xs as [|x xs IH]; intros i Hk; simpl.
  - split; [apply emitsE_skip | apply emitsW_skip].
  - destruct (on_row_other k p x i) as [E W]; [lia|].
    destruct (IH (S i)) as [E' W']; [lia|].
    split; [apply (emitsE_seq _ _ _ 0 0) | apply (emitsW_seq _ _ _ 0 0)]; assumption.
Qed.

(** In the output of the loop, the findings of row [i0 + i + 1] are those of the
    [i]-th element. *)
Lemma forEach_from_on_row_E p (xs : list A) :
  forall i0 i x n,
    xs !! i = Some x ->
    emitsE p (f x (i0 + i)) n ->
    emitsE (on_row (i0 + i + 1) p) (forEach_from f i0 xs) n.
Proof.
  induction xs as [|y xs IH]; intros i0 i x n Hx Hn; [discriminate|].
  destruct i as [|i]; simpl in *.
  - injection Hx as ->. rewrite Nat.add_0_r in *.
    replace n with (n + 0) by lia. apply emitsE_seq.
    + now apply on_row_same.
    + apply on_row_later. lia.
  - replace n with (0 + n) by lia. apply emitsE_seq.
    + apply on_row_other. lia.
    + replace (i0 + S i) with (S i0 + i) in * by lia. now apply (IH _ _ x).
Qed.

Lemma forEach_from_on_row_W p (xs : list A) :
  forall i0 i x n,
    xs !! i = Some x ->
    emitsW p (f x (i0 + i)) n ->
    emitsW (on_row (i0 + i + 1) p) (forEach_from f i0 xs) n.
Proof.
  induction xs as [|y xs IH]; intros i0 i x n Hx Hn; [discriminate|].
  destruct i as [|i]; simpl in *.
  - injection Hx as ->. rewrite Nat.add_0_r in *.
    replace n with (n + 0) by lia. apply emitsW_seq.
    + now apply on_row_same_W.
    + apply on_row_later. lia.
  - replace n with (0 + n) by lia. apply emitsW_seq.
    + apply on_row_other. lia.
    + replace (i0 + S i) with (S i0 + i) in * by lia. now apply (IH _ _ x).
Qed.

End Rows.

End FrameFacts.

(** ** The rule engine *)

Module ValidatorFacts.
Import Validator Frame FrameFacts ValidatorRules Js.
Local Open Scope action_scope.

Ltac inv_step :=
  lazymatch goal with
  | |- inv _ _ (seq _ _) => apply inv_seq
  | |- inv _ _ (when _ _) => apply inv_when
  | |- inv _ _ (if _ then _ else _) => apply inv_if
  | |- inv _ _ skip => apply inv_skip
  | |- inv _ _ (new_Date _ _) => apply inv_new_Date; intro
  | |- inv _ _ (forEach _ _) => apply inv_forEach; intros [? ?]
  | |- inv _ _ (errors_push _) => apply inv_errors_push; reflexivity
  | |- inv _ _ (warnings_push _) => apply inv_warnings_push; reflexivity
  end.

Ltac inv_tac := repeat inv_step.

Ltac quiet_step :=
  lazymatch goal with
  | |- quiet (seq _ _) => apply quiet_seq
  | |- quiet (when _ _) => apply quiet_when
  | |- quiet (if _ then _ else _) => apply quiet_if
  | |- quiet skip => apply quiet_skip
  | |- quiet (errors_push _) => apply quiet_errors_push
  | |- quiet (warnings_push _) => apply quiet_warnings_push
  end.

Ltac quiet_tac := repeat quiet_step.

Ltac framed_step :=
  lazymatch goal with
  | |- framed (seq _ _) => apply framed_seq
  | |- framed (when _ _) => apply framed_when
  | |- framed (if _ then _ else _) => apply framed_if
  | |- framed skip => apply framed_skip
  | |- framed (new_Date _ _) => apply framed_new_Date; intro
  | |- framed (errors_push _) => apply framed_errors_push
  | |- framed (warnings_push _) => apply framed_warnings_push
  end.

Ltac framed_tac := repeat framed_step.

Ltac emitsE_zero :=
  repeat lazymatch goal with
  | |- emitsE _ (seq _ _) _ => apply (emitsE_seq _ _ _ 0 0)
  | |- emitsE _ (when _ _) _ => apply emitsE_when_0
  | |- emitsE _ (if _ then _ else _) _ => apply emitsE_if_0
  | |- emitsE _ skip _ => apply emitsE_skip
  | |- emitsE _ (new_Date _ _) _ => apply emitsE_new_Date; intro
  | |- emitsE _ (errors_push _) _ => apply emitsE_errors_push_0; reflexivity
  | |- emitsE _ (warnings_push _) _ => apply emitsE_warnings_push
  end.

Ltac emitsE_exact :=
  repeat lazymatch goal with
  | |- emitsE _ (seq _ _) _ => eapply emitsE_seq
  | |- emitsE _ (when _ _) _ => eapply emitsE_when
  | |- emitsE _ (if _ then _ else _) _ => eapply emitsE_if
  | |- emitsE _ skip _ => apply emitsE_skip
  | |- emitsE _ (errors_push _) _ =>
      first [ apply emitsE_errors_push_1; reflexivity
            | apply emitsE_errors_push_0; reflexivity ]
  | |- emitsE _ (warnings_push _) _ => apply emitsE_warnings_push
  end.

Ltac emitsE_spine :=
  lazymatch goal with
  | |- emitsE _ (seq _ _) _ =>
      first [ eapply (emitsE_seq _ _ _ 0 _); [ solve [emitsE_zero] | ]
            | eapply emitsE_seq; [ solve [emitsE_exact] | ] ];
      emitsE_spine
  | |- _ => first [ solve [emitsE_zero] | solve [emitsE_exact] ]
  end.

Ltac emitsW_zero :=
  repeat lazymatch goal with
  | |- emitsW _ (seq _ _) _ => apply (emitsW_seq _ _ _ 0 0)
  | |- emitsW _ (when _ _) _ => apply emitsW_when_0
  | |- emitsW _ (if _ then _ else _) _ => apply emitsW_if_0
  | |- emitsW _ skip _ => apply emitsW_skip
  | |- emitsW _ (new_Date _ _) _ => apply emitsW_new_Date; intro
  | |- emitsW _ (warnings_push _) _ => apply emitsW_warnings_push_0; reflexivity
  | |- emitsW _ (errors_push _) _ => apply emitsW_errors_push
  end.

Ltac emitsW_exact :=
  repeat lazymatch goal with
  | |- emitsW _ (seq _ _) _ => eapply emitsW_seq
  | |- emitsW _ (when _ _) _ => eapply emitsW_when
  | |- emitsW _ (if _ then _ else _) _ => eapply emitsW_if
  | |- emitsW _ skip _ => apply emitsW_skip
  | |- emitsW _ (warnings_push _) _ =>
      first [ apply emitsW_warnings_push_1; reflexivity
            | apply emitsW_warnings_push_0; reflexivity ]
  | |- emitsW _ (errors_push _) _ => apply emitsW_errors_push
  end.

Ltac emitsW_spine :=
  lazymatch goal with
  | |- emitsW _ (seq _ _) _ =>
      first [ eapply (emitsW_seq _ _ _ 0 _); [ solve [emitsW_zero] | ]
            | eapply emitsW_seq; [ solve [emitsW_exact] | ] ];
      emitsW_spine
  | |- _ => first [ solve [emitsW_zero] | solve [emitsW_exact] ]
  end.

Ltac open_entry := unfold validateEntry; cbv zeta; cbn [forEach]; cbn beta iota.

Section WithRuntime.
Context `{JsRuntime}.
Variable clock : Clock.

(** Every push site of [validateEntry] states the severity of the array it
    pushes to. *)
Lemma validateEntry_severity entry index :
  inv (fun f => severity f = error) (fun f => severity f = warning)
      (validateEntry clock entry index).
Proof. unfold validateEntry. cbv zeta. inv_tac. Qed.

(** Every finding of [validateEntry] carries the row [index + 1]. *)
Lemma validateEntry_row entry index :
  inv (fun f => row f = index + 1) (fun f => row f = index + 1)
      (validateEntry clock entry index).
Proof. unfold validateEntry. cbv zeta. inv_tac. Qed.

Lemma emitsE_eq p a n m : emitsE p a n -> n = m -> emitsE p a m.
Proof. now intros ? <-. Qed.

Lemma emitsW_eq p a n m : emitsW p a n -> n = m -> emitsW p a m.
Proof. now intros ? <-. Qed.

(** *** The clock *)

(** The date range validation of "VALIDATION 4", the one place that reads the
    clock. *)
Lemma same_date_range c1 c2 (c v : bool)
  (A : number -> Action) (B : number -> number -> Action) :
  (forall d, quiet (A d)) -> (forall d d', quiet (B d d')) ->
  same c1 c2
    (when c (new_Date c1 (fun d =>
       when v (A d ;; new_Date c1 (fun d' => B d d')))))
    (when c (new_Date c2 (fun d =>
       when v (A d ;; new_Date c2 (fun d' => B d d'))))).
Proof.
  intros HA HB.
  assert (Hf2 : forall cl d, framed (new_Date cl (fun d' => B d d'))).
  { intros cl d. apply framed_new_Date. intros d'. apply HB. }
  assert (Hf : forall cl, framed
            (when c (new_Date cl (fun d =>
               when v (A d ;; new_Date cl (fun d' => B d d')))))).
  { intros cl. apply framed_when, framed_new_Date. intros d.
    apply framed_when, framed_seq; [apply HA | apply Hf2]. }
  repeat split; [apply Hf | apply Hf |].
  intros r Hr HSr. unfold when. destruct c; [|reflexivity].
  rewrite !run_new_Date. rewrite Hr.
  destruct v; [|reflexivity].
  rewrite !run_seq by apply Hf2.
  destruct (HA (c2 r)) as [_ NA]. rewrite NA.
  rewrite !run_new_Date. now rewrite HSr.
Qed.

(** [validateEntry] reads the clock at most twice, and depends on the clock
    through these readings alone. *)
Lemma validateEntry_same c1 c2 entry index :
  same c1 c2 (validateEntry c1 entry index) (validateEntry c2 entry index).
Proof.
  open_entry.
  do 11 (apply same_seq_quiet; [solve [quiet_tac] | ]).
  apply same_seq_rest; [|solve [framed_tac]].
  apply same_date_range; intros; quiet_tac.
Qed.

Lemma reads_le_date_range cl (c v : bool)
  (A : number -> Action) (B : number -> number -> Action) :
  (forall d, quiet (A d)) -> (forall d d', quiet (B d d')) ->
  reads_le 2
    (when c (new_Date cl (fun d =>
       when v (A d ;; new_Date cl (fun d' => B d d'))))).
Proof.
  intros HA HB r. unfold when.
  destruct c; [|unfold run, skip; simpl; lia].
  rewrite run_new_Date. destruct v; [|unfold run, skip; simpl; lia].
  rewrite run_seq by (apply framed_new_Date; intros d'; apply HB).
  simpl. destruct (HA (cl r)) as [_ NA]. rewrite NA.
  rewrite run_new_Date. destruct (HB (cl r) (cl (S r))) as [_ NB].
  rewrite NB. lia.
Qed.

Lemma validateEntry_reads cl entry index :
  reads_le 2 (validateEntry cl entry index).
Proof.
  open_entry.
  do 11 (apply (reads_le_seq _ _ 0);
         [apply reads_le_quiet; solve [quiet_tac] | solve [framed_tac] | ]).
  apply (reads_le_seq _ _ 2 0).
  - apply reads_le_date_range; intros; quiet_tac.
  - framed_tac.
  - apply reads_le_quiet. quiet_tac.
Qed.

Lemma validateEntry_framed entry index :
  framed (validateEntry clock entry index).
Proof. apply validateEntry_severity. Qed.

(** *** From one entry to the whole batch *)

Lemma validateTimesheet_errors entries :
  errors (validateTimesheet clock entries)
  = st_errors (run (forEach_from (validateEntry clock) 0 entries) 0).
Proof. reflexivity. Qed.

Lemma validateTimesheet_warnings entries :
  warnings (validateTimesheet clock entries)
  = st_warnings (run (forEach_from (validateEntry clock) 0 entries) 0).
Proof. reflexivity. Qed.

(** The errors of row [i + 1] are those pushed for the [i]-th entry. *)
Lemma count_row_errors p entries i entry n :
  entries !! i = Some entry ->
  emitsE p (validateEntry clock entry i) n ->
  count (on_row (i + 1) p) (errors (validateTimesheet clock entries)) = n.
Proof.
  intros Hi Hn. rewrite validateTimesheet_errors.
  apply (forEach_from_on_row_E (validateEntry clock) (validateEntry_row) p
           entries 0 i entry n Hi Hn).
Qed.

Lemma count_row_warnings p entries i entry n :
  entries !! i = Some entry ->
  emitsW p (validateEntry clock entry i) n ->
  count (on_row (i + 1) p) (warnings (validateTimesheet clock entries)) = n.
Proof.
  intros Hi Hn. rewrite validateTimesheet_warnings.
  apply (forEach_from_on_row_W (validateEntry clock) (validateEntry_row) p
           entries 0 i entry n Hi Hn).
Qed.

Lemma validateTimesheet_severity entries :
  Forall (fun f => severity f = error) (errors (validateTimesheet clock entries))
  /\ Forall (fun f => severity f = warning)
            (warnings (validateTimesheet clock entries)).
Proof.
  rewrite validateTimesheet_errors, validateTimesheet_warnings.
  apply (inv_forEach_from _ _ (validateEntry clock) entries).
  intros x i. apply validateEntry_severity.
Qed.

Lemma forEach_from_same c1 c2 (entries : list TimesheetEntry) :
  forall index r,
    (forall n, r <= n < r + 2 * length entries -> c1 n = c2 n) ->
    run (forEach_from (validateEntry c1) index entries) r
    = run (forEach_from (validateEntry c2) index entries) r.
Proof.
  induction entries as [|entry entries IH]; intros index r Hc; [reflexivity|].
  cbn [forEach_from length] in *.
  assert (Fr : forall cl, framed (forEach_from (validateEntry cl) (S index) entries)).
  { intros cl. apply framed_forEach_from. intros x j.
    destruct (validateEntry_same cl cl x j) as [F _]. exact F. }
  rewrite !run_seq by apply Fr.
  destruct (validateEntry_same c1 c2 entry index) as (_ & _ & Hsame).
  rewrite (Hsame r) by (apply Hc; lia).
  rewrite IH; [reflexivity|].
  intros n Hn. apply Hc.
  pose proof (validateEntry_reads c2 entry index r) as Hr. lia.
Qed.

End WithRuntime.
End ValidatorFacts.

(** ** The reference runtime reads numbers as [parseCSV] expects *)

Module RefRuntimeFacts.
Import Js RefRuntime StringFacts.

Lemma ws_char (c : ascii) :
  isWhiteSpace c = true ->
  digit_of c = None /\ is_e c = false /\ Ascii.eqb c "." = false
  /\ Ascii.eqb c "+" = false /\ Ascii.eqb c "-" = false
  /\ Ascii.eqb "I" c = false.
Proof.
  destruct c as [[] [] [] [] [] [] [] []]; intros Hc;
    try discriminate Hc; repeat split; reflexivity.
Qed.

Lemma ws_not_letter (a c : ascii) :
  isWhiteSpace a = false -> isWhiteSpace c = true -> Ascii.eqb a c = false.
Proof.
  intros Ha Hc. destruct (Ascii.eqb_spec a c); [congruence | reflexivity].
Qed.

Ltac norm_append := rewrite ?append_nil_l, ?append_cons.

Lemma trimEnd_split (s : string) :
  exists w, all_ws w = true /\ s = trimEnd s ++ w.
Proof.
  induction s as [|c r (w & Hw & Hr)]; [exists EmptyString; split; reflexivity|].
  simpl. destruct (trimEnd r) as [|c' r'] eqn:E.
  - rewrite append_nil_l in Hr. subst r. destruct (isWhiteSpace c) eqn:Hc.
    + exists (String c w). simpl. rewrite Hc, Hw. split; reflexivity.
    + exists w. split; [assumption | reflexivity].
  - exists w. split; [assumption|]. rewrite append_cons. f_equal. exact Hr.
Qed.

Lemma trimStart_head (s : string) :
  trimStart s = EmptyString
  \/ exists c r, trimStart s = String c r /\ isWhiteSpace c = false.
Proof.
  induction s as [|c r IH]; [now left|]. simpl.
  destruct (isWhiteSpace c) eqn:Hc; [assumption|]. right. now exists c, r.
Qed.

Lemma trimStart_trim (s : string) : trimStart (trim s) = trim s.
Proof.
  unfold trim. destruct (trimStart_head s) as [-> | (c & r & -> & Hc)];
    [reflexivity|].
  simpl. destruct (trimEnd r); rewrite ?Hc; simpl; rewrite ?Hc; reflexivity.
Qed.

Section AppWs.
Variable w : string.
Hypothesis Hw : all_ws w = true.

Lemma pf_exp_app_ws neg m k eneg (u : string) :
  forall e, pf_exp neg m k eneg e (u ++ w) = pf_exp neg m k eneg e u.
Proof.
  induction u as [|c u IH]; intros e; norm_append; simpl.
  - destruct w as [|c w']; [reflexivity|]. simpl in *.
    apply andb_prop in Hw as [Hc _].
    now rewrite (proj1 (ws_char c Hc)).
  - destruct (digit_of c); [apply IH | reflexivity].
Qed.

Lemma pf_exp_start_app_ws neg m k (u : string) :
  pf_exp_start neg m k (u ++ w) = pf_exp_start neg m k u.
Proof.
  destruct u as [|c u]; norm_append; simpl.
  - destruct w as [|c w']; [reflexivity|]. simpl in *.
    apply andb_prop in Hw as [Hc _].
    destruct (ws_char c Hc) as (-> & _ & _ & -> & -> & _). reflexivity.
  - destruct (digit_of c); [apply pf_exp_app_ws|].
    destruct (Ascii.eqb c "+" || Ascii.eqb c "-"); [|reflexivity].
    destruct u as [|c' u]; norm_append; simpl.
    + destruct w as [|c' w']; [reflexivity|]. simpl in *.
      apply andb_prop in Hw as [Hc _].
      now rewrite (proj1 (ws_char c' Hc)).
    + destruct (digit_of c'); [apply pf_exp_app_ws | reflexivity].
Qed.

Lemma pf_frac_app_ws neg (u : string) :
  forall m k, pf_frac neg m k (u ++ w) = pf_frac neg m k u.
Proof.
  induction u as [|c u IH]; intros m k; norm_append; simpl.
  - destruct w as [|c w']; [reflexivity|]. simpl in *.
    apply andb_prop in Hw as [Hc _].
    destruct (ws_char c Hc) as (-> & -> & _). reflexivity.
  - destruct (digit_of c); [apply IH|].
    destruct (is_e c); [apply pf_exp_start_app_ws | reflexivity].
Qed.

Lemma pf_int_app_ws neg (u : string) :
  forall m, pf_int neg m (u ++ w) = pf_int neg m u.
Proof.
  induction u as [|c u IH]; intros m; norm_append; simpl.
  - destruct w as [|c w']; [reflexivity|]. simpl in *.
    apply andb_prop in Hw as [Hc _].
    destruct (ws_char c Hc) as (-> & -> & -> & _). reflexivity.
  - destruct (digit_of c); [apply IH|].
    destruct (Ascii.eqb c "."); [apply pf_frac_app_ws|].
    destruct (is_e c); [apply pf_exp_start_app_ws | reflexivity].
Qed.

Lemma startsWith_app_ws (pre : string) :
  forall u, all_nonws pre = true ->
            startsWith (u ++ w) pre = startsWith u pre.
Proof.
  induction pre as [|a pre IH]; intros u Hpre; [reflexivity|].
  simpl in Hpre. apply andb_prop in Hpre as [Ha Hpre].
  destruct u as [|c u]; norm_append; simpl.
  - destruct w as [|c w']; [reflexivity|]. simpl in Hw.
    apply andb_prop in Hw as [Hc _].
    apply negb_true_iff in Ha. now rewrite (ws_not_letter a c Ha Hc).
  - now rewrite IH.
Qed.

Lemma pf_unsigned_app_ws neg (u : string) :
  pf_unsigned neg (u ++ w) = pf_unsigned neg u.
Proof.
  unfold pf_unsigned. rewrite startsWith_app_ws by reflexivity.
  destruct (startsWith u "Infinity"); [reflexivity|].
  destruct u as [|c u]; norm_append; simpl.
  - destruct w as [|c w']; [reflexivity|]. simpl in *.
    apply andb_prop in Hw as [Hc _].
    destruct (ws_char c Hc) as (-> & _ & -> & _). reflexivity.
  - destruct (digit_of c); [apply pf_int_app_ws|].
    destruct (Ascii.eqb c "."); [|reflexivity].
    destruct u as [|c' u]; norm_append; simpl.
    + destruct w as [|c' w']; [reflexivity|]. simpl in *.
      apply andb_prop in Hw as [Hc _].
      now rewrite (proj1 (ws_char c' Hc)).
    + destruct (digit_of c'); [apply pf_frac_app_ws | reflexivity].
Qed.

End AppWs.

Lemma parseFloat_trim_ref (s : string) : parseFloat (trim s) = parseFloat s.
Proof.
  unfold parseFloat. rewrite trimStart_trim. unfold trim.
  destruct (trimEnd_split (trimStart s)) as (w & Hw & Hs).
  rewrite Hs at 2.
  destruct (trimEnd (trimStart s)) as [|c r] eqn:E; norm_append; simpl.
  - destruct w as [|c w']; [reflexivity|]. simpl in *.
    (* a string that starts with white space is not the result of [trimStart] *)
    apply andb_prop in Hw as [Hc _].
    destruct (trimStart_head s) as [E' | (c0 & r0 & E' & Hc0)];
      rewrite E' in Hs; [discriminate|].
    injection Hs as -> ->. congruence.
  - destruct (Ascii.eqb c "-"); [symmetry; now apply pf_unsigned_app_ws|].
    destruct (Ascii.eqb c "+"); [symmetry; now apply pf_unsigned_app_ws|].
    symmetry. now apply (pf_unsigned_app_ws w Hw false (String c r)).
Qed.

End RefRuntimeFacts.

Lemma RefRuntime_parseFloat_laws :
  CsvParser.ParseFloatLaws (H := RefRuntime_runtime).
Proof.
  split.
  - exact RefRuntimeFacts.parseFloat_trim_ref.
  - vm_compute. reflexivity.
Qed.

(** ** The reference reader on text written cell by cell *)

Module ReaderFacts.
Import Js PapaRef Exportable StringFacts.

Lemma scan_at_sep (r : string) :
  at_sep r ->
  scan FieldStart r = scan Unquoted r /\ scan QuoteSeen r = scan Unquoted r.
Proof. intros [-> | (r' & [-> | ->])]; split; reflexivity. Qed.

Lemma plain_char_spec (c : ascii) :
  plain_char c = true ->
  Ascii.eqb c comma = false /\ Ascii.eqb c LF = false /\ Ascii.eqb c quote = false.
Proof.
  unfold plain_char. rewrite negb_true_iff, !orb_false_iff. tauto.
Qed.

Lemma scan_plain (p r : string) :
  plain p = true -> scan Unquoted (p ++ r) = pushs p (scan Unquoted r).
Proof.
  induction p as [|c p IH]; intros Hp; [reflexivity|].
  simpl in Hp. apply andb_prop in Hp as [Hc Hp].
  destruct (plain_char_spec c Hc) as (E1 & E2 & _).
  rewrite append_cons. cbn [scan pushs]. rewrite E1, E2. now rewrite IH.
Qed.

Lemma scan_bare (p r : string) :
  plain p = true -> at_sep r ->
  scan FieldStart (p ++ r) = pushs p (scan Unquoted r).
Proof.
  intros Hp Hr. destruct p as [|c p].
  - apply (scan_at_sep r Hr).
  - simpl in Hp. apply andb_prop in Hp as [Hc Hp].
    destruct (plain_char_spec c Hc) as (E1 & E2 & E3).
    rewrite append_cons. cbn [scan pushs]. rewrite E1, E2, E3.
    now rewrite scan_plain.
Qed.

Lemma scan_quoted_body (s r : string) :
  quotable s = true ->
  scan Quoted (s ++ String quote r) = pushs s (scan QuoteSeen r).
Proof.
  induction s as [|c s IH]; intros Hs; [reflexivity|].
  simpl in Hs. apply andb_prop in Hs as [Hc Hs].
  unfold quotable_char in Hc. rewrite negb_true_iff, orb_false_iff in Hc.
  rewrite append_cons. cbn [scan pushs]. rewrite (proj1 Hc). now rewrite IH.
Qed.

Lemma scan_in_quotes (s r : string) :
  quotable s = true -> at_sep r ->
  scan FieldStart ((dquote ++ s ++ dquote) ++ r) = pushs s (scan Unquoted r).
Proof.
  intros Hs Hr. unfold dquote.
  repeat (rewrite append_cons || rewrite append_nil_l || rewrite append_assoc).
  cbn [scan]. change (Ascii.eqb "034" quote) with true. cbv iota.
  change (String "034" r) with (String quote r).
  rewrite scan_quoted_body by assumption.
  now rewrite (proj2 (scan_at_sep r Hr)).
Qed.

Lemma scan_written (c : Cell) (r : string) :
  well_written c -> at_sep r ->
  scan FieldStart (written c ++ r) = pushs (content c) (scan Unquoted r).
Proof.
  destruct c as [p | s]; simpl; intros Hc Hr.
  - now apply scan_bare.
  - now apply scan_in_quotes.
Qed.

(** *** Rows *)

Lemma at_line_end_sep (r : string) : at_line_end r -> at_sep r.
Proof. intros [-> | (r' & ->)]; [now left | right; exists r'; now right]. Qed.

Lemma scan_row (cs : list Cell) (r : string) :
  cs <> [] -> Forall well_written cs -> at_line_end r ->
  scan FieldStart (row_text cs ++ r)
  = with_cells (map content cs) (scan Unquoted r).
Proof.
  unfold row_text. intros Hne Hcs Hr.
  induction cs as [|c cs IH]; [contradiction|].
  apply Forall_cons in Hcs as [Hc Hcs].
  destruct cs as [|c' cs].
  - cbn [map join with_cells]. apply scan_written; [assumption|].
    now apply at_line_end_sep.
  - change (join "," (map written (c :: c' :: cs)))
      with (written c ++ "," ++ join "," (map written (c' :: cs)))%string.
    rewrite !append_assoc, append_cons, append_nil_l.
    rewrite scan_written; [|assumption|right; eexists; left; reflexivity].
    change (map content (c :: c' :: cs))
      with (content c :: content c' :: map content cs).
    cbn [with_cells]. f_equal.
    change (scan Unquoted (String "," ?x)) with (end_cell (scan FieldStart x)).
    cbn [scan]. change (Ascii.eqb "," comma) with true. cbv iota. f_equal.
    apply IH; [discriminate | assumption].
Qed.

(** *** Lines *)

Lemma more_lines_at_line_end (ls : list string) :
  at_line_end (more_lines TimesheetTable.newline ls).
Proof.
  destruct ls as [|l ls]; [now left|]. right.
  eexists. cbn [more_lines]. unfold TimesheetTable.newline.
  rewrite append_cons, append_nil_l. reflexivity.
Qed.

Lemma join_more_lines (sep : string) (l : string) (ls : list string) :
  join sep (l :: ls) = (l ++ more_lines sep ls)%string.
Proof.
  revert l. induction ls as [|l' ls IH]; intros l.
  - cbn [join more_lines]. now rewrite append_nil_r.
  - change (join sep (l :: l' :: ls)) with (l ++ sep ++ join sep (l' :: ls))%string.
    rewrite IH. reflexivity.
Qed.

Lemma scan_more_lines (ls : list (list Cell)) :
  Forall line_ok ls ->
  scan Unquoted (more_lines TimesheetTable.newline (map row_text ls))
  = tail_scan (map (map content) ls).
Proof.
  induction 1 as [|l ls [Hne Hl] _ IH]; [reflexivity|].
  cbn [map more_lines tail_scan]. unfold TimesheetTable.newline at 1.
  rewrite append_cons, append_nil_l. cbn [scan].
  change (Ascii.eqb "010" comma) with false.
  change (Ascii.eqb "010" LF) with true. cbv iota. f_equal.
  rewrite scan_row by (assumption || apply more_lines_at_line_end).
  now rewrite IH.
Qed.

(** The text of a first line and further lines, as the reader scans it. *)
Lemma scan_lines (l : list Cell) (ls : list (list Cell)) :
  line_ok l -> Forall line_ok ls ->
  scan FieldStart (join TimesheetTable.newline (map row_text (l :: ls)))
  = with_cells (map content l) (tail_scan (map (map content) ls)).
Proof.
  intros [Hne Hl] Hls. cbn [map]. rewrite join_more_lines.
  rewrite scan_row by (assumption || apply more_lines_at_line_end).
  now rewrite scan_more_lines.
Qed.

(** *** What the scan holds *)

Lemma pushs_spec (s : string) (t : Scan) :
  cell (pushs s t) = (s ++ cell t)%string /\ cells (pushs s t) = cells t
  /\ rows (pushs s t) = rows t /\ errs (pushs s t) = errs t.
Proof.
  induction s as [|c s (E1 & E2 & E3 & E4)]; [repeat split|].
  cbn [pushs push cell cells rows errs]. rewrite append_cons, E1, E2, E3, E4.
  repeat split.
Qed.

Lemma with_cells_spec (cs : list string) (t : Scan) :
  cs <> [] -> fresh t ->
  cell (with_cells cs t) :: cells (with_cells cs t) = cs
  /\ rows (with_cells cs t) = rows t /\ errs (with_cells cs t) = errs t.
Proof.
  intros Hne [Ht1 Ht2]. induction cs as [|c cs IH]; [contradiction|].
  destruct cs as [|c' cs].
  - cbn [with_cells]. destruct (pushs_spec c t) as (E1 & E2 & E3 & E4).
    rewrite E1, E2, E3, E4, Ht1, Ht2, append_nil_r. repeat split.
  - change (with_cells (c :: c' :: cs) t)
      with (pushs c (end_cell (with_cells (c' :: cs) t))).
    destruct (pushs_spec c (end_cell (with_cells (c' :: cs) t)))
      as (E1 & E2 & E3 & E4).
    rewrite E1, E2, E3, E4. cbn [end_cell cell cells rows errs].
    destruct (IH ltac:(discriminate)) as (I1 & I2 & I3).
    rewrite I1, I2, I3, append_nil_r. repeat split.
Qed.

Lemma tail_scan_spec (ls : list (list string)) :
  Forall (fun l => l <> []) ls ->
  fresh (tail_scan ls) /\ rows (tail_scan ls) = ls /\ errs (tail_scan ls) = [].
Proof.
  induction 1 as [|l ls Hl _ (F & R & E)]; [repeat split|].
  cbn [tail_scan end_row cell cells rows errs].
  destruct (with_cells_spec l (tail_scan ls) Hl F) as (W1 & W2 & W3).
  rewrite W1, W2, W3, R, E. repeat split.
Qed.

(** The rows and the errors the reader finds in a text of well written
    lines. *)
Lemma rows_of_lines (l : list Cell) (ls : list (list Cell)) :
  line_ok l -> Forall line_ok ls ->
  let t := scan FieldStart (join TimesheetTable.newline (map row_text (l :: ls))) in
  rows_of t = map content l :: map (map content) ls /\ errs t = [].
Proof.
  intros Hl Hls t. unfold t. rewrite scan_lines by assumption.
  assert (Hne : Forall (fun l => l <> []) (map (map content) ls)).
  { apply Forall_map. eapply Forall_impl; [exact Hls|].
    intros x [Hx _]. destruct x; [contradiction | discriminate]. }
  destruct (tail_scan_spec _ Hne) as (F & R & E).
  destruct (with_cells_spec (map content l) _
              ltac:(destruct Hl as [Hl _]; destruct l; [contradiction|discriminate]) F)
    as (W1 & W2 & W3).
  unfold rows_of. rewrite W1, W2, W3, R, E. split; reflexivity.
Qed.

End ReaderFacts.

(** * Specified properties of the rule engine *)

Section ValidatorClaims.
Import Validator Frame FrameFacts ValidatorRules ValidatorFacts Findings Js.
Context `{JsRuntime}.
Variable clock : Clock.

Lemma count_severity_all s (l : list ValidationError) :
  Forall (fun f => severity f = s) l -> count (has_severity s) l = length l.
Proof.
  unfold count. induction 1 as [|f l Hf _ IH]; simpl; [reflexivity|].
  unfold has_severity at 1. rewrite Hf.
  replace (Severity_eqb s s) with true by now destruct s.
  simpl. now rewrite IH.
Qed.

Lemma count_severity_none s s' (l : list ValidationError) :
  s <> s' -> Forall (fun f => severity f = s') l -> count (has_severity s) l = 0.
Proof.
  intros Hs Hl. apply count_Forall_false.
  eapply Forall_impl; [exact Hl|]. intros f Hf. unfold has_severity.
  rewrite Hf. destruct s, s'; reflexivity || congruence.
Qed.

(** C1.  [isValid] is true exactly when the returned [errors] sequence is
    empty, which is exactly when no finding of severity [error] exists among
    all returned findings; findings of severity [warning] do not enter. *)
Theorem C1_isValid_iff_no_error_findings (entries : list TimesheetEntry) :
  let result := validateTimesheet clock entries in
  (isValid result = true <-> errors result = [])
  /\ (isValid result = true
      <-> count (has_severity error) (errors result ++ warnings result) = 0)
  /\ count (has_severity error) (warnings result) = 0.
Proof.
  intros result.
  destruct (validateTimesheet_severity clock entries) as [HE HW].
  fold result in HE, HW.
  assert (Hvalid : isValid result = true <-> errors result = []).
  { unfold result, validateTimesheet. simpl.
    destruct (st_errors _) as [|f l]; simpl; split; congruence. }
  assert (HcW : count (has_severity error) (warnings result) = 0).
  { apply count_severity_none with (s' := warning); [discriminate | assumption]. }
  split; [assumption|]. split; [|assumption].
  rewrite count_app, HcW, Nat.add_0_r, (count_severity_all error) by assumption.
  rewrite Hvalid. destruct (errors result); simpl; split; congruence.
Qed.

Local Open Scope float_scope.

(** C2 (amended).  For the record of row [i + 1]: when reported hours are
    strictly greater than schedule hours, the reported-against-schedule rule
    pushes exactly one finding, on the reportedHours field: a warning when the
    status is Approved, Partially Approved or Partially Submitted, an error for
    any other status; when reported hours do not exceed schedule hours the rule
    pushes nothing. *)
Theorem C2_reported_exceeds_schedule
  (entries : list TimesheetEntry) (i : nat) (e : TimesheetEntry)
  (Hi : entries !! i = Some e) :
  let result := validateTimesheet clock entries in
  let nE := count (on_row (i + 1) is_reported_exceeds) (errors result) in
  let nW := count (on_row (i + 1) is_reported_exceeds) (warnings result) in
  ((e.(scheduleHours) <? e.(reportedHours)) = true ->
     (tolerant e.(timesheetStatus) = true -> nW = 1%nat /\ nE = 0%nat)
     /\ (tolerant e.(timesheetStatus) = false -> nW = 0%nat /\ nE = 1%nat))
  /\ ((e.(scheduleHours) <? e.(reportedHours)) = false ->
      nW = 0%nat /\ nE = 0%nat).
Proof.
  intros result nE nW.
  assert (HE : nE = if e.(scheduleHours) <? e.(reportedHours)
                    then (if tolerant e.(timesheetStatus) then 0%nat else 1%nat)
                    else 0%nat).
  { unfold nE, result. apply count_row_errors with (entry := e); [assumption|].
    eapply emitsE_eq; [open_entry; emitsE_spine|].
    unfold tolerant. cbn [Nat.add].
    destruct (scheduleHours e <? reportedHours e); [|reflexivity].
    now destruct (includes
      ["Approved"; "Partially Approved"; "Partially Submitted"]%string
      (timesheetStatus e)). }
  assert (HW : nW = if e.(scheduleHours) <? e.(reportedHours)
                    then (if tolerant e.(timesheetStatus) then 1%nat else 0%nat)
                    else 0%nat).
  { unfold nW, result. apply count_row_warnings with (entry := e); [assumption|].
    eapply emitsW_eq; [open_entry; emitsW_spine|].
    unfold tolerant. cbn [Nat.add].
    destruct (scheduleHours e <? reportedHours e); [|reflexivity].
    now destruct (includes
      ["Approved"; "Partially Approved"; "Partially Submitted"]%string
      (timesheetStatus e)). }
  rewrite HE, HW. split.
  - intros ->. split; intros ->; split; reflexivity.
  - intros ->. split; reflexivity.
Qed.

(** C3.  For the record of row [i + 1], the total-hours mismatch finding is
    pushed (once, as an error) exactly when total hours > 0 and
    |total - (regular + overtime + holiday + leave)| > 0.01, the comparisons
    and the sum being those of numbers.  In particular there is none when the
    difference is at most 0.01, one when the difference is 0.02 and the total
    positive, and none when the total is 0. *)
Theorem C3_total_mismatch_iff
  (entries : list TimesheetEntry) (i : nat) (e : TimesheetEntry)
  (Hi : entries !! i = Some e) :
  let result := validateTimesheet clock entries in
  let n := count (on_row (i + 1) is_total_mismatch) (errors result) in
  let diff := abs (e.(totalHours) - calculatedTotal e) in
  n = (if (0 <? e.(totalHours)) && (0.01 <? diff) then 1%nat else 0%nat)
  /\ (n = 1%nat <-> (0 <? e.(totalHours)) = true /\ (0.01 <? diff) = true)
  /\ ((diff <=? 0.01) = true -> n = 0%nat)
  /\ ((0 <? e.(totalHours)) = true -> diff = 0.02 -> n = 1%nat)
  /\ ((e.(totalHours) =? 0) = true -> n = 0%nat)
  /\ count (on_row (i + 1) is_total_mismatch) (warnings result) = 0%nat.
Proof.
  intros result n diff.
  assert (Hn : n = (if (0 <? e.(totalHours)) && (0.01 <? diff) then 1%nat else 0%nat)).
  { unfold n, result. apply count_row_errors with (entry := e); [assumption|].
    eapply emitsE_eq.
    - open_entry. emitsE_spine.
    - simpl. fold (calculatedTotal e). fold diff.
      destruct (0 <? totalHours e); simpl; [|reflexivity].
      now destruct (0.01 <? diff). }
  split; [assumption|]. rewrite Hn. repeat split.
  - destruct (0 <? totalHours e); [reflexivity | discriminate].
  - destruct (0 <? totalHours e), (0.01 <? diff); simpl in *; congruence.
  - intros [-> ->]. reflexivity.
  - intros Hd. rewrite (NumberFacts.leb_not_ltb _ _ Hd).
    now rewrite andb_false_r.
  - intros -> ->. reflexivity.
  - intros Hz. destruct (NumberFacts.eqb_not_ltb _ _ Hz) as [-> _]. reflexivity.
  - unfold result. apply count_row_warnings with (entry := e); [assumption|].
    open_entry. emitsW_spine.
Qed.

(** C4.  For the record of row [i + 1] whose start and end dates are both
    present and parseable, with the end after the start: the long-period
    warning is pushed (once) exactly when the span in days, computed from the
    two time values, exceeds 14.  In particular a span of 14 days gives no
    long-period warning and a span of 15 days gives one. *)
Theorem C4_long_period_iff
  (entries : list TimesheetEntry) (i : nat) (e : TimesheetEntry)
  (Hi : entries !! i = Some e)
  (Hstart : e.(startDate) <> EmptyString)
  (Hend : e.(endDate) <> EmptyString)
  (Hstart_ok : isNaN (Date_parse e.(startDate)) = false)
  (Hend_ok : isNaN (Date_parse e.(endDate)) = false)
  (Hafter : (Date_parse e.(startDate) <? Date_parse e.(endDate)) = true) :
  let result := validateTimesheet clock entries in
  let n := count (on_row (i + 1) is_long_period) (warnings result) in
  let span := daysDiff (Date_parse e.(startDate)) (Date_parse e.(endDate)) in
  n = (if 14 <? span then 1%nat else 0%nat)
  /\ (n = 1%nat <-> (14 <? span) = true)
  /\ (Date_parse e.(endDate) - Date_parse e.(startDate) = 14 * 86400000 ->
      n = 0%nat)
  /\ (Date_parse e.(endDate) - Date_parse e.(startDate) = 15 * 86400000 ->
      n = 1%nat)
  /\ count (on_row (i + 1) is_long_period) (errors result) = 0%nat.
Proof.
  intros result n span.
  assert (Hs : truthy_str e.(startDate) = true).
  { unfold truthy_str. destruct (String.eqb_spec (startDate e) ""); [contradiction | reflexivity]. }
  assert (He : truthy_str e.(endDate) = true).
  { unfold truthy_str. destruct (String.eqb_spec (endDate e) ""); [contradiction | reflexivity]. }
  assert (Hn : n = if 14 <? span then 1%nat else 0%nat).
  { unfold n, result. apply count_row_warnings with (entry := e); [assumption|].
    eapply emitsW_eq; [open_entry; emitsW_spine|].
    unfold isNaN in *. rewrite Hs, He, Hstart_ok, Hend_ok.
    cbn [Nat.add andb negb].
    fold (daysDiff (Date_parse (startDate e)) (Date_parse (endDate e))).
    fold span.
    destruct (Date_parse (endDate e) <=? Date_parse (startDate e));
      now destruct (14 <? span). }
  split; [assumption|]. rewrite Hn. repeat split.
  - destruct (14 <? span); [reflexivity | discriminate].
  - intros ->. reflexivity.
  - intros Hd. unfold span, daysDiff. rewrite Hd. reflexivity.
  - intros Hd. unfold span, daysDiff. rewrite Hd. reflexivity.
  - unfold result. apply count_row_errors with (entry := e); [assumption|].
    open_entry. emitsE_spine.
Qed.

(** C5 (amended).  For the record of row [i + 1] with status Absence/Holiday:
    exactly one warning is pushed on the timesheetStatus field when regular
    hours or overtime hours are strictly positive, and none otherwise; no error
    is pushed on that field. *)
Theorem C5_absence_holiday_positive_hours
  (entries : list TimesheetEntry) (i : nat) (e : TimesheetEntry)
  (Hi : entries !! i = Some e)
  (Hstatus : e.(timesheetStatus) = "Absence/Holiday"%string) :
  let result := validateTimesheet clock entries in
  count (on_row (i + 1) (on_field "timesheetStatus")) (warnings result)
  = (if (0 <? e.(regularHours)) || (0 <? e.(overtimeHours)) then 1%nat else 0%nat)
  /\ count (on_row (i + 1) (on_field "timesheetStatus")) (errors result) = 0%nat.
Proof.
  intros result. split.
  - unfold result. apply count_row_warnings with (entry := e); [assumption|].
    eapply emitsW_eq; [open_entry; emitsW_spine|].
    rewrite Hstatus. simpl.
    now destruct ((0 <? regularHours e) || (0 <? overtimeHours e)).
  - unfold result. apply count_row_errors with (entry := e); [assumption|].
    eapply emitsE_eq; [open_entry; emitsE_spine|].
    rewrite Hstatus. reflexivity.
Qed.

(** C8.  Two runs of [validateTimesheet] on the same record sequence return
    the same result (validity flag, errors and warnings, finding for finding
    and in the same order) when the clock gives both runs the same readings:
    at most two readings are taken per record. *)
Theorem C8_validate_twice_same_findings
  (clock1 clock2 : Clock) (entries : list TimesheetEntry)
  (Hclock : forall n, n < 2 * length entries -> clock1 n = clock2 n) :
  validateTimesheet clock1 entries = validateTimesheet clock2 entries.
Proof.
  unfold validateTimesheet, initial.
  pose proof (forEach_from_same clock1 clock2 entries 0 0) as Hrun.
  unfold run in Hrun. rewrite Hrun; [reflexivity|].
  intros n Hn. apply Hclock. lia.
Qed.

(** C10.  Every finding of the returned [errors] sequence has severity
    [error] and every finding of the returned [warnings] sequence has severity
    [warning]. *)
Theorem C10_severity_agrees_with_sequence (entries : list TimesheetEntry) :
  Forall (fun f => severity f = error) (errors (validateTimesheet clock entries))
  /\ Forall (fun f => severity f = warning)
            (warnings (validateTimesheet clock entries)).
Proof.
  rewrite validateTimesheet_errors, validateTimesheet_warnings.
  apply (inv_forEach_from _ _ (validateEntry clock) entries).
  intros entry index. unfold validateEntry. cbv zeta. inv_tac.
Qed.

End ValidatorClaims.

(** ** The properties at sample records *)

Section ValidatorSamples.
#[local] Existing Instance RefRuntime_runtime.
#[local] Existing Instance PapaRef_reader.
#[local] Existing Instance RefRuntime_parseFloat_laws.
Import ValidatorRules Findings Frame Js.
Local Open Scope float_scope.

(** Scenarios A, D and E of the specification. *)
Example scenario_A :
  validateTimesheet Samples.clock [Samples.scenarioA]
  = {| isValid := true; errors := []; warnings := [] |}.
Proof. vm_compute. reflexivity. Qed.

Example scenario_D :
  validateTimesheet Samples.clock [Samples.scenarioD]
  = {| isValid := true; errors := [];
       warnings :=
         [{| row := 1; field := "reportedHours";
             message := "Reported hours (50) exceed schedule hours (40)";
             severity := warning |}] |}.
Proof. vm_compute. reflexivity. Qed.

Example scenario_E :
  validateTimesheet Samples.clock [Samples.scenarioE]
  = {| isValid := false;
       errors :=
         [{| row := 1; field := "reportedHours";
             message := "Reported hours (50) cannot exceed schedule hours (40)";
             severity := error |}];
       warnings := [] |}.
Proof. vm_compute. reflexivity. Qed.

(** C3 at samples: against a breakdown of 40, a total of 40.01 is within the
    tolerance and a total of 40.02 is not. *)
Lemma C3_witness :
  ([Samples.with_total 40.01; Samples.with_total 40.02] !! 0%nat
   = Some (Samples.with_total 40.01)
   /\ count (on_row 1 is_total_mismatch)
        (errors (validateTimesheet Samples.clock
                   [Samples.with_total 40.01; Samples.with_total 40.02]))
      = 0%nat)
  /\ ([Samples.with_total 40.01; Samples.with_total 40.02] !! 1%nat
      = Some (Samples.with_total 40.02)
      /\ count (on_row 2 is_total_mismatch)
           (errors (validateTimesheet Samples.clock
                      [Samples.with_total 40.01; Samples.with_total 40.02]))
         = 1%nat).
Proof.
  split; (split; [reflexivity|]).
  - exact (proj1 (C3_total_mismatch_iff Samples.clock
                    [Samples.with_total 40.01; Samples.with_total 40.02] 0%nat
                    (Samples.with_total 40.01) eq_refl)).
  - exact (proj1 (C3_total_mismatch_iff Samples.clock
                    [Samples.with_total 40.01; Samples.with_total 40.02] 1%nat
                    (Samples.with_total 40.02) eq_refl)).
Defined.

(** C2, as stated, fails at a record with reported hours above schedule hours
    and no breakdown: two findings are pushed on the reportedHours field of
    its row, the one of the reported-against-schedule rule and the one of the
    missing-breakdown check. *)
Lemma C2_counterexample :
  [Samples.no_breakdown] !! 0%nat = Some Samples.no_breakdown
  /\ (Samples.no_breakdown.(scheduleHours)
      <? Samples.no_breakdown.(reportedHours)) = true
  /\ count (on_row 1 (on_field "reportedHours"))
        (errors (validateTimesheet Samples.clock [Samples.no_breakdown])
         ++ warnings (validateTimesheet Samples.clock [Samples.no_breakdown]))
      = 2%nat
  /\ warnings (validateTimesheet Samples.clock [Samples.no_breakdown])
      = [{| row := 1; field := "reportedHours";
            message := "Reported hours (50) exceed schedule hours (40)";
            severity := warning |};
         {| row := 1; field := "reportedHours";
            message := "Reported hours exist but no breakdown provided (regular, overtime, holiday, leave)";
            severity := warning |}].
Proof. repeat split; vm_compute; reflexivity. Qed.

(** C2 (amended) at scenarios D and E. *)
Lemma C2_witness :
  ([Samples.scenarioD; Samples.scenarioE] !! 0%nat = Some Samples.scenarioD
   /\ count (on_row 1 is_reported_exceeds)
        (warnings (validateTimesheet Samples.clock
                     [Samples.scenarioD; Samples.scenarioE])) = 1%nat
   /\ count (on_row 1 is_reported_exceeds)
        (errors (validateTimesheet Samples.clock
                   [Samples.scenarioD; Samples.scenarioE])) = 0%nat)
  /\ ([Samples.scenarioD; Samples.scenarioE] !! 1%nat = Some Samples.scenarioE
      /\ count (on_row 2 is_reported_exceeds)
           (warnings (validateTimesheet Samples.clock
                        [Samples.scenarioD; Samples.scenarioE])) = 0%nat
      /\ count (on_row 2 is_reported_exceeds)
           (errors (validateTimesheet Samples.clock
                      [Samples.scenarioD; Samples.scenarioE])) = 1%nat).
Proof.
  split; (split; [reflexivity|]).
  - exact (proj1 (proj1 (C2_reported_exceeds_schedule Samples.clock
                           [Samples.scenarioD; Samples.scenarioE] 0%nat
                           Samples.scenarioD eq_refl) eq_refl) eq_refl).
  - exact (proj2 (proj1 (C2_reported_exceeds_schedule Samples.clock
                           [Samples.scenarioD; Samples.scenarioE] 1%nat
                           Samples.scenarioE eq_refl) eq_refl) eq_refl).
Defined.

(** C5, as stated, fails at an absence with negative regular hours: the hours
    are nonzero and no warning is pushed on the timesheetStatus field. *)
Lemma C5_counterexample :
  [Samples.absence (-5) 0] !! 0%nat = Some (Samples.absence (-5) 0)
  /\ (Samples.absence (-5) 0).(timesheetStatus) = "Absence/Holiday"%string
  /\ ((Samples.absence (-5) 0).(regularHours) =? 0) = false
  /\ count (on_row 1 (on_field "timesheetStatus"))
        (warnings (validateTimesheet Samples.clock [Samples.absence (-5) 0]))
      = 0%nat
  /\ warnings (validateTimesheet Samples.clock [Samples.absence (-5) 0]) = [].
Proof. repeat split; vm_compute; reflexivity. Qed.

(** C5 (amended) at absences with positive, zero and negative hours. *)
Lemma C5_witness :
  ([Samples.absence 8 0; Samples.absence 0 0; Samples.absence (-5) 0] !! 0%nat
   = Some (Samples.absence 8 0)
   /\ (Samples.absence 8 0).(timesheetStatus) = "Absence/Holiday"%string
   /\ count (on_row 1 (on_field "timesheetStatus"))
        (warnings (validateTimesheet Samples.clock
           [Samples.absence 8 0; Samples.absence 0 0; Samples.absence (-5) 0]))
      = 1%nat)
  /\ count (on_row 2 (on_field "timesheetStatus"))
       (warnings (validateTimesheet Samples.clock
          [Samples.absence 8 0; Samples.absence 0 0; Samples.absence (-5) 0]))
     = 0%nat
  /\ count (on_row 3 (on_field "timesheetStatus"))
       (warnings (validateTimesheet Samples.clock
          [Samples.absence 8 0; Samples.absence 0 0; Samples.absence (-5) 0]))
     = 0%nat.
Proof.
  split; [split; [reflexivity | split; [reflexivity|]] | split].
  - exact (proj1 (C5_absence_holiday_positive_hours Samples.clock
                    [Samples.absence 8 0; Samples.absence 0 0; Samples.absence (-5) 0]
                    0%nat (Samples.absence 8 0) eq_refl eq_refl)).
  - exact (proj1 (C5_absence_holiday_positive_hours Samples.clock
                    [Samples.absence 8 0; Samples.absence 0 0; Samples.absence (-5) 0]
                    1%nat (Samples.absence 0 0) eq_refl eq_refl)).
  - exact (proj1 (C5_absence_holiday_positive_hours Samples.clock
                    [Samples.absence 8 0; Samples.absence 0 0; Samples.absence (-5) 0]
                    2%nat (Samples.absence (-5) 0) eq_refl eq_refl)).
Defined.

Lemma nonempty_literal (c : ascii) (s : string) : String c s <> EmptyString.
Proof. discriminate. Qed.

(** C4 at samples: from 2025-05-01, a period ending 2025-05-15 spans 14 days
    and one ending 2025-05-16 spans 15 days. *)
Lemma C4_witness :
  (Date_parse "2025-05-15" - Date_parse "2025-05-01" = 14 * 86400000
   /\ count (on_row 1 is_long_period)
        (warnings (validateTimesheet Samples.clock
           [Samples.with_end "2025-05-15"; Samples.with_end "2025-05-16"]))
      = 0%nat)
  /\ (Date_parse "2025-05-16" - Date_parse "2025-05-01" = 15 * 86400000
      /\ count (on_row 2 is_long_period)
           (warnings (validateTimesheet Samples.clock
              [Samples.with_end "2025-05-15"; Samples.with_end "2025-05-16"]))
         = 1%nat).
Proof.
  split; (split; [vm_compute; reflexivity|]).
  - exact (proj1 (C4_long_period_iff Samples.clock
                    [Samples.with_end "2025-05-15"; Samples.with_end "2025-05-16"]
                    0%nat (Samples.with_end "2025-05-15") eq_refl
                    (nonempty_literal _ _) (nonempty_literal _ _)
                    eq_refl eq_refl eq_refl)).
  - exact (proj1 (C4_long_period_iff Samples.clock
                    [Samples.with_end "2025-05-15"; Samples.with_end "2025-05-16"]
                    1%nat (Samples.with_end "2025-05-16") eq_refl
                    (nonempty_literal _ _) (nonempty_literal _ _)
                    eq_refl eq_refl eq_refl)).
Defined.

(** C8 at samples: a clock that stands still and one that moves on after the
    two readings the single record takes. *)
Lemma C8_witness :
  (forall n, n < 2 * length [Samples.scenarioA] ->
             Samples.clock n = Samples.moving_clock n)
  /\ validateTimesheet Samples.clock [Samples.scenarioA]
     = validateTimesheet Samples.moving_clock [Samples.scenarioA].
Proof.
  assert (Hc : forall n, n < 2 * length [Samples.scenarioA] ->
                         Samples.clock n = Samples.moving_clock n).
  { intros [|[|n]] Hn; [reflexivity | reflexivity | simpl in Hn; lia]. }
  split; [exact Hc|].
  exact (C8_validate_twice_same_findings Samples.clock Samples.moving_clock
           [Samples.scenarioA] Hc).
Defined.

(** The readings matter: with two records, the moved clock changes the
    findings of the second. *)
Example clock_readings_matter :
  validateTimesheet Samples.clock [Samples.scenarioA; Samples.scenarioA]
  <> validateTimesheet Samples.moving_clock [Samples.scenarioA; Samples.scenarioA].
Proof. vm_compute. discriminate. Qed.

End ValidatorSamples.

(** * Specified properties of the normalizer *)

Section ParserClaims.
Import Js CsvParser.
Context `{JsRuntime}.

Lemma lookup_processEntry_other (entry : gmap string string) (key : string) :
  ~ In key numericFields ->
  processEntry entry !! key = VStr <$> (entry !! key).
Proof.
  intros Hk. unfold processEntry.
  rewrite !lookup_insert_ne, lookup_fmap; [reflexivity|..];
    intros <-; apply Hk; unfold numericFields; simpl; tauto.
Qed.

Lemma lookup_processEntry_numeric (entry : gmap string string) (key : string) :
  In key numericFields ->
  processEntry entry !! key = Some (VNum (or0 (parseFloat_prop entry key))).
Proof.
  unfold numericFields, processEntry. simpl.
  intros [<-|[<-|[<-|[<-|[<-|[<-|[<-|[]]]]]]]];
    repeat (rewrite lookup_insert_ne by discriminate);
    apply lookup_insert_eq.
Qed.

Lemma includes_In (xs : list string) (s : string) :
  includes xs s = true <-> In s xs.
Proof.
  unfold includes. rewrite existsb_exists. split.
  - intros (x & Hx & Heq). apply String.eqb_eq in Heq. now subst.
  - intros Hs. exists s. split; [assumption | apply String.eqb_refl].
Qed.

Lemma or0_not_zero (y : number) :
  PrimFloat.is_nan y = false -> PrimFloat.is_zero y = false -> or0 y = y.
Proof. unfold or0, truthy_num. now intros -> ->. Qed.

Lemma or0_falsy (y : number) :
  PrimFloat.is_nan y = true \/ PrimFloat.is_zero y = true -> or0 y = 0%float.
Proof.
  unfold or0, truthy_num. intros [-> | ->]; [reflexivity|].
  now rewrite orb_true_r.
Qed.

Context `{CsvReader}.

(** C6.  The reader completes without error, and the [i]-th row object it
    hands over holds under [field] the cell text [value] as the [transform]
    callback returned it.  Then [parseCSV] resolves, and its [i]-th record
    holds under [field]: for a numeric hour bucket a number, which is 0 when
    the cell is blank or non-numeric and otherwise the number read from it (a
    zero of either sign is stored as 0); for any other field the trimmed cell
    text, as a string.  A cell is non-numeric when [parseFloat] gives [NaN] for
    it: a cell that only starts with a number reads as that number. *)
Theorem C6_value_normalization `{!ParseFloatLaws}
  (file : string) (result : Papa.ParseResult)
  (i : nat) (row : gmap string string) (value field : string)
  (Hread : Papa_parse file transformHeader transform = Papa.complete result)
  (Hok : Papa.errors result = [])
  (Hrow : Papa.data result !! i = Some row)
  (Hcell : row !! field = Some (transform value field)) :
  exists records record,
    parseCSV file = Resolved records
    /\ records !! i = Some record
    /\ (In field numericFields ->
        exists x : number,
          record !! field = Some (VNum x)
          /\ (String.eqb (trim value) "" = true
              \/ isNaN (parseFloat value) = true ->
              x = 0%float)
          /\ (String.eqb (trim value) "" = false ->
              isNaN (parseFloat value) = false ->
              (PrimFloat.is_zero (parseFloat value) = false ->
               x = parseFloat value)
              /\ (PrimFloat.is_zero (parseFloat value) = true -> x = 0%float)))
    /\ (~ In field numericFields ->
        record !! field = Some (VStr (trim value))).
Proof.
  exists (map processEntry (Papa.data result)), (processEntry row).
  split; [|split].
  { unfold parseCSV. rewrite Hread. unfold complete. rewrite Hok. reflexivity. }
  { rewrite list_lookup_fmap, Hrow. reflexivity. }
  split.
  - intros Hf. eexists. split; [now apply lookup_processEntry_numeric|].
    unfold parseFloat_prop. rewrite Hcell. unfold transform.
    rewrite (proj2 (includes_In _ _) Hf).
    assert (Hempty : truthy_str value = false -> String.eqb (trim value) "" = true).
    { unfold truthy_str. destruct (String.eqb_spec value ""); [|discriminate].
      subst. reflexivity. }
    split.
    + intros [Hb | Hn].
      * rewrite Hb, orb_true_r, parseFloat_zero. reflexivity.
      * destruct (negb (truthy_str value) || String.eqb (trim value) "");
          [rewrite parseFloat_zero; reflexivity|].
        rewrite Hn, parseFloat_zero. reflexivity.
    + intros Hb Hn.
      assert (Ht : truthy_str value = true).
      { destruct (truthy_str value); [reflexivity|]. rewrite Hempty in Hb; congruence. }
      rewrite Ht, Hb, Hn. simpl. rewrite parseFloat_trim. split; intros Hz.
      * now apply or0_not_zero.
      * apply or0_falsy. now right.
  - intros Hf. rewrite lookup_processEntry_other by assumption.
    rewrite Hcell. unfold transform.
    destruct (includes numericFields field) eqn:E; [|reflexivity].
    apply includes_In in E. contradiction.
Qed.

(** C7.  When the reader completes with one or more errors, [parseCSV] rejects
    with one error built from the first of them, and resolves to no record
    sequence at all; when the reader completes without error, [parseCSV]
    resolves to one record per row of the reader's data, in the same order. *)
Theorem C7_reader_errors_abort_the_parse
  (file : string) (result : Papa.ParseResult)
  (Hread : Papa_parse file transformHeader transform = Papa.complete result) :
  (Papa.errors result <> [] ->
   (exists e, head (Papa.errors result) = Some e
      /\ parseCSV file
         = Rejected {| error_message := "CSV parsing error: " ++ Papa.message e |})
   /\ forall records, parseCSV file <> Resolved records)
  /\ (Papa.errors result = [] ->
      exists records,
        parseCSV file = Resolved records
        /\ length records = length (Papa.data result)
        /\ forall i row, Papa.data result !! i = Some row ->
                         records !! i = Some (processEntry row)).
Proof.
  unfold parseCSV. rewrite Hread. unfold complete. split.
  - intros Hne. destruct (Papa.errors result) as [|e es]; [contradiction|].
    split; [|discriminate]. exists e. split; reflexivity.
  - intros ->. cbv zeta. eexists. split; [reflexivity|]. split.
    + apply length_map.
    + intros i row Hrow. rewrite list_lookup_fmap, Hrow. reflexivity.
Qed.

End ParserClaims.

(** ** The properties at sample files *)

Section ParserSamples.
#[local] Existing Instance RefRuntime_runtime.
#[local] Existing Instance PapaRef_reader.
#[local] Existing Instance RefRuntime_parseFloat_laws.
Import Js CsvParser.
Local Open Scope float_scope.

Example padded_file_read :
  Papa_parse Samples.padded_file transformHeader transform
  = Papa.complete {| Papa.data := [Samples.padded_row]; Papa.errors := [] |}.
Proof. vm_compute. reflexivity. Qed.

Example broken_file_read :
  Papa_parse Samples.broken_file transformHeader transform
  = Papa.complete
      {| Papa.data :=
           [PapaRef.fill transform ["employeeId"; "timesheetStatus"]
              ["7"; "Approved"] ∅];
         Papa.errors := [PapaRef.MissingQuotes] |}.
Proof. vm_compute. reflexivity. Qed.

(** C6 at the cells of [padded_file], which the reader reads without error
    into one row: a padded number, a cell that is no number, and a padded
    text, as the first record of [parseCSV] holds them. *)
Lemma C6_witness :
  (Papa_parse Samples.padded_file transformHeader transform
   = Papa.complete {| Papa.data := [Samples.padded_row]; Papa.errors := [] |}
   /\ Samples.padded_row !! "scheduleHours"
      = Some (transform " 40.5 " "scheduleHours")
   /\ Samples.padded_row !! "reportedHours"
      = Some (transform "abc" "reportedHours")
   /\ Samples.padded_row !! "timesheetStatus"
      = Some (transform "  Approved " "timesheetStatus"))
  /\ (exists records record,
        parseCSV Samples.padded_file = Resolved records
        /\ records !! 0%nat = Some record
        /\ record !! "scheduleHours" = Some (VNum 40.5))
  /\ (exists records record,
        parseCSV Samples.padded_file = Resolved records
        /\ records !! 0%nat = Some record
        /\ record !! "reportedHours" = Some (VNum 0))
  /\ (exists records record,
        parseCSV Samples.padded_file = Resolved records
        /\ records !! 0%nat = Some record
        /\ record !! "timesheetStatus" = Some (VStr "Approved")).
Proof.
  assert (H1 : Samples.padded_row !! "scheduleHours"
               = Some (transform " 40.5 " "scheduleHours"))
    by (vm_compute; reflexivity).
  assert (H2 : Samples.padded_row !! "reportedHours"
               = Some (transform "abc" "reportedHours"))
    by (vm_compute; reflexivity).
  assert (H3 : Samples.padded_row !! "timesheetStatus"
               = Some (transform "  Approved " "timesheetStatus"))
    by (vm_compute; reflexivity).
  assert (N1 : In "scheduleHours"%string numericFields) by (simpl; tauto).
  assert (N2 : In "reportedHours"%string numericFields) by (simpl; tauto).
  assert (N3 : ~ In "timesheetStatus"%string numericFields).
  { simpl. intros [E|[E|[E|[E|[E|[E|[E|[]]]]]]]]; discriminate E. }
  split; [|split; [|split]].
  - split; [exact padded_file_read|]. split; [exact H1|].
    split; [exact H2 | exact H3].
  - destruct (C6_value_normalization Samples.padded_file _ 0%nat
                Samples.padded_row " 40.5 " "scheduleHours"
                padded_file_read eq_refl eq_refl H1)
      as (records & record & Hres & Hrec & Hnum & _).
    exists records, record. split; [exact Hres|]. split; [exact Hrec|].
    destruct (Hnum N1) as (x & Hx & _ & Hread).
    rewrite Hx. do 2 f_equal.
    exact (proj1 (Hread eq_refl eq_refl) eq_refl).
  - destruct (C6_value_normalization Samples.padded_file _ 0%nat
                Samples.padded_row "abc" "reportedHours"
                padded_file_read eq_refl eq_refl H2)
      as (records & record & Hres & Hrec & Hnum & _).
    exists records, record. split; [exact Hres|]. split; [exact Hrec|].
    destruct (Hnum N2) as (x & Hx & Hzero & _).
    rewrite Hx. do 2 f_equal. apply Hzero. right. reflexivity.
  - destruct (C6_value_normalization Samples.padded_file _ 0%nat
                Samples.padded_row "  Approved " "timesheetStatus"
                padded_file_read eq_refl eq_refl H3)
      as (records & record & Hres & Hrec & _ & Hstr).
    exists records, record. split; [exact Hres|]. split; [exact Hrec|].
    exact (Hstr N3).
Defined.

(** A cell that starts with a number is not non-numeric: [parseFloat] reads
    the number it starts with. *)
Example cell_starting_with_a_number :
  transform "12abc" "totalHours" = "12abc"%string
  /\ processEntry {[ "totalHours"%string := transform "12abc" "totalHours" ]}
       !! "totalHours"
     = Some (VNum 12).
Proof. split; vm_compute; reflexivity. Qed.

(** The whole of [padded_file] as [parseCSV] returns it: the columns that are
    missing read as 0. *)
Example padded_file_parsed :
  match parseCSV Samples.padded_file with
  | Resolved [record] =>
      map (fun key => record !! key)
        ["employeeId"; "startDate"; "timesheetStatus"; "scheduleHours";
         "reportedHours"; "totalHours"]%string
      = [Some (VStr "7"); None; Some (VStr "Approved"); Some (VNum 40.5);
         Some (VNum 0); Some (VNum 0)]
  | _ => False
  end.
Proof. vm_compute. reflexivity. Qed.

(** C7 at sample files: [padded_file] is read without error and resolves to its
    one record; [broken_file] is read with an error and is rejected. *)
Lemma C7_witness :
  (Papa_parse Samples.padded_file transformHeader transform
   = Papa.complete {| Papa.data := [Samples.padded_row]; Papa.errors := [] |}
   /\ exists records,
        parseCSV Samples.padded_file = Resolved records
        /\ length records = 1%nat
        /\ records !! 0%nat = Some (processEntry Samples.padded_row))
  /\ (exists result,
        Papa_parse Samples.broken_file transformHeader transform
        = Papa.complete result
        /\ Papa.errors result <> []
        /\ parseCSV Samples.broken_file
           = Rejected {| error_message :=
                           "CSV parsing error: Quoted field unterminated" |}).
Proof.
  split.
  - split; [exact padded_file_read|].
    destruct (proj2 (C7_reader_errors_abort_the_parse Samples.padded_file _
                       padded_file_read) eq_refl)
      as (records & Hres & Hlen & Hnth).
    exists records. split; [exact Hres|]. split; [exact Hlen|].
    apply Hnth. reflexivity.
  - eexists. split; [exact broken_file_read|]. split; [discriminate|].
    destruct (proj1 (C7_reader_errors_abort_the_parse Samples.broken_file _
                       broken_file_read) ltac:(discriminate))
      as [(e & He & Hrej) _].
    simpl in He. injection He as <-. exact Hrej.
Defined.

End ParserSamples.

(** * Export followed by re-import *)

Section RoundTrip.
Import Js CsvParser TimesheetTable Exportable StringFacts ReaderFacts.
Context `{JsRuntime}.

Lemma headers_canonical : map transformHeader headers = canonical.
Proof. vm_compute. reflexivity. Qed.

Lemma exportToCSV_lines (es : list TimesheetEntry) :
  exportToCSV es
  = join newline (map row_text (map Bare headers :: map row_cells es)).
Proof.
  unfold exportToCSV. cbv zeta. cbn [map]. f_equal. f_equal.
  rewrite map_map. reflexivity.
Qed.

Lemma header_ok : line_ok (map Bare headers).
Proof.
  split; [discriminate|]. repeat constructor.
Qed.

Lemma row_cells_ok (e : TimesheetEntry) : exportable e -> line_ok (row_cells e).
Proof.
  intros He. split; [discriminate|].
  destruct He. unfold reads_back in *.
  repeat constructor; simpl; tauto.
Qed.

Lemma filter_keeps_rows (rs : list (list string)) :
  Forall (fun r => (2 <= length r)%nat) rs ->
  List.filter (fun r => negb (PapaRef.isEmptyLine r)) rs = rs.
Proof.
  induction 1 as [|r rs Hr _ IH]; [reflexivity|]. simpl.
  destruct r as [|c [|c' r]]; simpl in Hr; try lia. simpl. now rewrite IH.
Qed.

Lemma no_mismatch (rs : list (list string)) (n : nat) :
  Forall (fun r => length r = n) rs ->
  flat_map (fun r => PapaRef.FieldMismatch n (length r)) rs = [].
Proof.
  induction 1 as [|r rs Hr _ IH]; [reflexivity|]. simpl.
  rewrite Hr, IH. unfold PapaRef.FieldMismatch. now rewrite Nat.ltb_irrefl.
Qed.

(** The reader gives back the cells of an exported text. *)
Lemma parse_export (es : list TimesheetEntry) :
  Forall exportable es ->
  PapaRef.parse (exportToCSV es) transformHeader transform
  = Papa.complete
      {| Papa.data :=
           map (fun e => PapaRef.fill transform canonical
                           (map content (row_cells e)) ∅) es;
         Papa.errors := [] |}.
Proof.
  intros Hes. unfold PapaRef.parse. cbv zeta. rewrite exportToCSV_lines.
  assert (Hls : Forall line_ok (map row_cells es)).
  { apply Forall_map. eapply Forall_impl; [exact Hes|]. apply row_cells_ok. }
  destruct (rows_of_lines (map Bare headers) (map row_cells es) header_ok Hls)
    as [Hrows Herrs].
  rewrite Hrows, Herrs.
  assert (Hlen : Forall (fun r => length r = 11%nat)
                   (map (map content) (map row_cells es))).
  { apply Forall_map, Forall_map, Forall_forall. intros e _. reflexivity. }
  rewrite filter_keeps_rows.
  - change (map transformHeader (map content (map Bare headers)))
      with (map transformHeader headers).
    rewrite headers_canonical. change (length canonical) with 11%nat.
    rewrite (no_mismatch _ 11 Hlen). rewrite !map_map. reflexivity.
  - constructor; [simpl; lia|].
    eapply Forall_impl; [exact Hlen|]. intros r ->. lia.
Qed.

Ltac lookup_step k :=
  match goal with
  | |- context [ <[?i := _]> _ !! k ] =>
      destruct (decide (i = k)) as [<- | ?];
      [ repeat first [ rewrite lookup_insert_eq
                     | rewrite lookup_insert_ne by discriminate
                     | rewrite lookup_fmap ]
      | rewrite !(lookup_insert_ne _ i k) by assumption ]
  end.

(** The processed object of a row with the eleven canonical columns. *)
Lemma processEntry_columns (c1 c2 c3 c4 c5 c6 c7 c8 c9 c10 c11 : string) :
  processEntry
    (<["totalHours" := c11]>
    (<["leaveHours" := c10]>
    (<["holidayHours" := c9]>
    (<["overtimeHours" := c8]>
    (<["regularHours" := c7]>
    (<["reportedHours" := c6]>
    (<["scheduleHours" := c5]>
    (<["timesheetStatus" := c4]>
    (<["endDate" := c3]>
    (<["startDate" := c2]>
    (<["employeeId" := c1]> ∅)))))))))))
  = mkObject (VStr c1) (VStr c2) (VStr c3) (VStr c4)
      (VNum (or0 (parseFloat c5))) (VNum (or0 (parseFloat c6)))
      (VNum (or0 (parseFloat c7))) (VNum (or0 (parseFloat c8)))
      (VNum (or0 (parseFloat c9))) (VNum (or0 (parseFloat c10)))
      (VNum (or0 (parseFloat c11))).
Proof.
  apply map_eq. intros k. unfold processEntry, mkObject, parseFloat_prop.
  repeat (rewrite lookup_insert_eq || rewrite lookup_insert_ne by discriminate).
  do 7 (lookup_step k; [try reflexivity|]).
  rewrite lookup_fmap.
  repeat (lookup_step k; [first [congruence | reflexivity]|]).
  rewrite lookup_empty. reflexivity.
Qed.

Lemma transform_text (value field : string) :
  includes numericFields field = false -> trim value = value ->
  transform value field = value.
Proof. intros Hf Hv. unfold transform. now rewrite Hf. Qed.

(** The row the reader builds for an exportable record is processed into the
    record. *)
Lemma processEntry_row_cells (e : TimesheetEntry) :
  exportable e ->
  processEntry (PapaRef.fill transform canonical (map content (row_cells e)) ∅)
  = toObject e.
Proof.
  intros He. cbn [canonical row_cells map content PapaRef.fill].
  rewrite processEntry_columns. destruct He.
  rewrite !transform_text by (reflexivity || assumption).
  unfold reads_back in *.
  change (transform ?v "scheduleHours") with (transform v "totalHours").
  change (transform ?v "reportedHours") with (transform v "totalHours").
  change (transform ?v "regularHours") with (transform v "totalHours").
  change (transform ?v "overtimeHours") with (transform v "totalHours").
  change (transform ?v "holidayHours") with (transform v "totalHours").
  change (transform ?v "leaveHours") with (transform v "totalHours").
  unfold toObject, mkObject.
  repeat match goal with
         | Hx : _ /\ or0 _ = _ |- _ => destruct Hx as [_ ->]
         end.
  reflexivity.
Qed.

Lemma sort_Forall (P : TimesheetEntry -> Prop) cmp (l : list TimesheetEntry) :
  Forall P l -> Forall P (sort cmp l).
Proof.
  assert (Hins : forall x l', P x -> Forall P l' -> Forall P (insert_sorted cmp x l')).
  { intros x l' Hx Hl'. induction Hl' as [|y l' Hy Hl' IH]; simpl.
    - now repeat constructor.
    - destruct (0 <? cmp x y)%Z; repeat constructor; assumption. }
  induction 1 as [|x l Hx _ IH]; simpl; [constructor | now apply Hins].
Qed.

(** C9 (amended).  For every record sequence whose text fields carry no
    surrounding white space, no comma, line break or double quote (the status
    may hold commas and line feeds), and whose numbers are read back from their
    own text: the text [exportToCSV] writes for the sorted copy of the sequence
    that the table shows is parsed by [parseCSV], with the reference reader,
    into exactly the records of that sorted copy, in its order. *)
Theorem C9_export_then_parse
  (sortField : Key) (sortDirection : Direction) (entries : list TimesheetEntry)
  (Hentries : Forall exportable entries) :
  parseCSV (H0 := PapaRef_reader)
    (exportToCSV (sortedEntries sortField sortDirection entries))
  = Resolved (map toObject (sortedEntries sortField sortDirection entries)).
Proof.
  assert (Hs : Forall exportable (sortedEntries sortField sortDirection entries))
    by now apply sort_Forall.
  revert Hs. generalize (sortedEntries sortField sortDirection entries).
  intros es Hes. unfold parseCSV.
  change (Papa_parse (exportToCSV es) transformHeader transform)
    with (PapaRef.parse (exportToCSV es) transformHeader transform).
  rewrite parse_export by assumption.
  unfold complete. cbn [Papa.errors Papa.data]. cbv zeta.
  f_equal. rewrite map_map.
  apply Forall_fmap_ext_1. eapply Forall_impl; [exact Hes|].
  intros e He. now apply processEntry_row_cells.
Qed.

End RoundTrip.

(** ** The property at sample records *)

Section RoundTripSamples.
#[local] Existing Instance RefRuntime_runtime.
#[local] Existing Instance PapaRef_reader.
#[local] Existing Instance RefRuntime_parseFloat_laws.
Import Js CsvParser TimesheetTable Exportable.

Example scenario_A_exported :
  exportToCSV [Samples.scenarioA]
  = ("Employee ID,Start Date,End Date,Timesheet Status,Schedule Hours,"
     ++ "Reported Hours,Regular Hours,Overtime Hours,Holiday Hours,"
     ++ "Leave Hours,Total Hours" ++ newline
     ++ "E100,2025-05-05,2025-05-12," ++ dquote ++ "Approved" ++ dquote
     ++ ",40,40,40,0,0,0,40")%string.
Proof. vm_compute. reflexivity. Qed.

(** C9, as stated, fails at a record whose identifier holds a comma (as the
    parser reads it from a quoted cell): the export writes the identifier as it
    is, the reader finds twelve fields in the row, and [parseCSV] rejects.  It
    also fails at a record whose identifier starts with a space: the parsed
    record holds the trimmed identifier. *)
Lemma C9_counterexample :
  (sortedEntries k_startDate asc [Samples.comma_id] = [Samples.comma_id]
   /\ exportToCSV [Samples.comma_id]
      = ("Employee ID,Start Date,End Date,Timesheet Status,Schedule Hours,"
         ++ "Reported Hours,Regular Hours,Overtime Hours,Holiday Hours,"
         ++ "Leave Hours,Total Hours" ++ newline
         ++ "Smith, J,2025-05-05,2025-05-12," ++ dquote ++ "Approved" ++ dquote
         ++ ",40,40,40,0,0,0,40")%string
   /\ parseCSV (exportToCSV [Samples.comma_id])
      = Rejected
          {| error_message :=
               "CSV parsing error: Too many fields: expected 11 fields but parsed 12" |})
  /\ (toObject Samples.padded_id !! "employeeId" = Some (VStr " 7")
      /\ match parseCSV (exportToCSV [Samples.padded_id]) with
         | Resolved [record] => record !! "employeeId" = Some (VStr "7")
         | _ => False
         end).
Proof.
  split; [split; [|split] | split]; vm_compute; reflexivity.
Qed.

Lemma reads_back_sample (x : number) :
  plain (Number_toString x) = true ->
  or0 (parseFloat (transform (Number_toString x) "totalHours")) = x ->
  reads_back x.
Proof. intros; split; assumption. Qed.

Lemma scenarioA_exportable : exportable Samples.scenarioA.
Proof. constructor; try apply reads_back_sample; vm_compute; reflexivity. Qed.

Lemma early_period_exportable : exportable (Samples.with_end "2025-05-15").
Proof. constructor; try apply reads_back_sample; vm_compute; reflexivity. Qed.

(** C9 (amended) at two records given out of the table's order. *)
Lemma C9_witness :
  Forall exportable [Samples.scenarioA; Samples.with_end "2025-05-15"]
  /\ sortedEntries k_startDate asc
       [Samples.scenarioA; Samples.with_end "2025-05-15"]
     = [Samples.with_end "2025-05-15"; Samples.scenarioA]
  /\ parseCSV
       (exportToCSV
          (sortedEntries k_startDate asc
             [Samples.scenarioA; Samples.with_end "2025-05-15"]))
     = Resolved
         (map toObject
            (sortedEntries k_startDate asc
               [Samples.scenarioA; Samples.with_end "2025-05-15"])).
Proof.
  assert (Hall : Forall exportable
                   [Samples.scenarioA; Samples.with_end "2025-05-15"]).
  { apply Forall_cons; split; [apply scenarioA_exportable|].
    apply Forall_cons; split; [apply early_period_exportable | constructor]. }
  split; [exact Hall|]. split; [vm_compute; reflexivity|].
  exact (C9_export_then_parse k_startDate asc
           [Samples.scenarioA; Samples.with_end "2025-05-15"] Hall).
Defined.

(** Numbers that are not read back from their text: [NaN] and the negative
    zero. *)
Example nan_not_read_back :
  or0 (parseFloat (transform (Number_toString nan) "totalHours")) = 0%float
  /\ or0 (parseFloat (transform (Number_toString (-0)%float) "totalHours"))
     = 0%float.
Proof. split; vm_compute; reflexivity. Qed.

End RoundTripSamples.

(** * Further facts *)

(** ** Numbers in order *)
Module NumberOrderFacts.
Import NumberOrder.
Local Open Scope Z_scope.

Lemma lex3_Lt a b : lex3 a b = Lt <-> lex3_lt a b.
Proof.
  destruct a as [[a1 a2] a3], b as [[b1 b2] b3]. unfold lex3, lex3_lt.
  destruct (Z.compare_spec a1 b1), (Z.compare_spec a2 b2), (Z.compare_spec a3 b3);
    split; intros; try discriminate; try reflexivity; lia.
Qed.

Lemma SFcompare_rank f1 f2 :
  f1 <> S754_nan -> f2 <> S754_nan ->
  SFcompare f1 f2 = Some (lex3 (rank f1) (rank f2)).
Proof.
  intros N1 N2.
  destruct f1 as [s1|s1| |s1 m1 e1], f2 as [s2|s2| |s2 m2 e2];
    try contradiction; try (destruct s1); try (destruct s2);
    try reflexivity; cbn [SFcompare rank lex3]; f_equal.
  change (-1 ?= -1)%Z with Eq. cbv iota.
  rewrite Z.compare_opp, (Z.compare_antisym e1 e2).
  destruct (e1 ?= e2)%Z; reflexivity.
Qed.

Local Open Scope float_scope.

Lemma is_nan_Prim2SF x : PrimFloat.is_nan x = false -> Prim2SF x <> S754_nan.
Proof.
  intros Hx E. unfold PrimFloat.is_nan in Hx.
  rewrite FloatAxioms.eqb_spec, E in Hx. discriminate.
Qed.

Lemma ltb_rank x y :
  PrimFloat.is_nan x = false -> PrimFloat.is_nan y = false ->
  ((x <? y) = true <-> lex3_lt (rank (Prim2SF x)) (rank (Prim2SF y))).
Proof.
  intros Hx Hy. rewrite FloatAxioms.ltb_spec. unfold SFltb.
  rewrite SFcompare_rank by now apply is_nan_Prim2SF.
  rewrite <- lex3_Lt. destruct (lex3 _ _); split; congruence.
Qed.

(** [NaN] is below nothing and nothing is below it. *)
Lemma is_nan_spec x : PrimFloat.is_nan x = true -> Prim2SF x = S754_nan.
Proof.
  unfold PrimFloat.is_nan. rewrite FloatAxioms.eqb_spec. unfold SFeqb.
  destruct (Prim2SF x) as [s|s| |s m e]; try reflexivity; simpl; intros Hx;
    exfalso; destruct s;
    rewrite ?Z.compare_refl, ?Pos.compare_cont_refl in Hx; simpl in Hx;
    discriminate.
Qed.

Lemma leb_nan_l x y : PrimFloat.is_nan x = true -> (x <=? y) = false.
Proof.
  intros Hx. rewrite FloatAxioms.leb_spec, (is_nan_spec x Hx). reflexivity.
Qed.

Lemma leb_nan_r x y : PrimFloat.is_nan y = true -> (x <=? y) = false.
Proof.
  intros Hy. rewrite FloatAxioms.leb_spec, (is_nan_spec y Hy).
  unfold SFleb. now destruct (Prim2SF x).
Qed.

(** Below is asymmetric, on all numbers. *)
Lemma number_ltb_asym x y : (x <? y) = true -> (y <? x) = false.
Proof.
  rewrite !FloatAxioms.ltb_spec. unfold SFltb.
  destruct (SFcompare (Prim2SF x) (Prim2SF y)) as [c|] eqn:E; [|discriminate].
  rewrite (NumberFacts.SFcompare_antisym _ _ _ E). now destruct c.
Qed.

(** "Not below" is transitive through a number that is not [NaN]. *)
Lemma number_not_ltb_trans x y z :
  PrimFloat.is_nan y = false ->
  (y <? x) = false -> (z <? y) = false -> (z <? x) = false.
Proof.
  intros Hy Hyx Hzy.
  destruct (PrimFloat.is_nan x) eqn:Hx.
  { rewrite FloatAxioms.ltb_spec. unfold SFltb.
    unfold PrimFloat.is_nan in Hx. rewrite FloatAxioms.eqb_spec in Hx.
    unfold SFeqb in Hx.
    destruct (Prim2SF x) as [s|s| |s m e]; try (now destruct (Prim2SF z));
      exfalso; simpl in Hx; destruct s;
      rewrite ?Z.compare_refl, ?Pos.compare_cont_refl in Hx; simpl in Hx;
      discriminate. }
  destruct (PrimFloat.is_nan z) eqn:Hz.
  { rewrite FloatAxioms.ltb_spec. unfold SFltb.
    unfold PrimFloat.is_nan in Hz. rewrite FloatAxioms.eqb_spec in Hz.
    unfold SFeqb in Hz.
    destruct (Prim2SF z) as [s|s| |s m e]; try reflexivity;
      exfalso; simpl in Hz; destruct s;
      rewrite ?Z.compare_refl, ?Pos.compare_cont_refl in Hz; simpl in Hz;
      discriminate. }
  destruct (z <? x) eqn:Hzx; [|reflexivity].
  apply ltb_rank in Hzx; [|assumption..].
  assert (Nyx : ~ lex3_lt (rank (Prim2SF y)) (rank (Prim2SF x))).
  { intros L. apply ltb_rank in L; [congruence | assumption..]. }
  assert (Nzy : ~ lex3_lt (rank (Prim2SF z)) (rank (Prim2SF y))).
  { intros L. apply ltb_rank in L; [congruence | assumption..]. }
  exfalso.
  destruct (rank (Prim2SF x)) as [[x1 x2] x3], (rank (Prim2SF y)) as [[y1 y2] y3],
    (rank (Prim2SF z)) as [[z1 z2] z3].
  unfold lex3_lt in *. lia.
Qed.

End NumberOrderFacts.

(** ** Strings in order, and the sort of the table *)

Module SortFacts.
Import TimesheetTable TableView.

Lemma insert_sorted_Permutation cmp x l : Permutation (insert_sorted cmp x l) (x :: l).
Proof.
  induction l as [|y l IH]; simpl; [reflexivity|].
  destruct (0 <? cmp x y)%Z; [|reflexivity].
  rewrite IH. apply perm_swap.
Qed.

Lemma sort_Permutation cmp l : Permutation (sort cmp l) l.
Proof.
  induction l as [|x l IH]; simpl; [reflexivity|].
  rewrite insert_sorted_Permutation. now constructor.
Qed.

Section Order.
Variable cmp : TimesheetEntry -> TimesheetEntry -> Z.
Variable ok : TimesheetEntry -> Prop.
Let R a b := (cmp a b <=? 0)%Z = true.
Hypothesis cmp_total : forall a b, (0 < cmp a b)%Z -> R b a.
Hypothesis cmp_trans : forall a b c, ok b -> R a b -> R b c -> R a c.

Lemma insert_sorted_StronglySorted x l :
  Forall ok l -> StronglySorted R l -> StronglySorted R (insert_sorted cmp x l).
Proof.
  intros Hok. induction 1 as [|y l Sl IH Hy]; simpl.
  - repeat constructor.
  - apply Forall_cons in Hok. destruct Hok as [Oy Ol].
    destruct (Z.ltb_spec 0 (cmp x y)) as [Hlt|Hge].
    + constructor; [now apply IH|].
      rewrite insert_sorted_Permutation. constructor; [|assumption].
      now apply cmp_total.
    + assert (Rxy : R x y) by (unfold R; apply Z.leb_le; lia).
      constructor; [now constructor|].
      constructor; [assumption|].
      eapply Forall_impl; [exact Hy|]. intros z. now apply cmp_trans.
Qed.

Lemma sort_StronglySorted l : Forall ok l -> StronglySorted R (sort cmp l).
Proof.
  induction 1 as [|x l Ox Ol IH]; simpl; [constructor|].
  apply insert_sorted_StronglySorted; [|assumption].
  fold (sort cmp l). now rewrite sort_Permutation.
Qed.

End Order.

(** Records the comparator does not tell apart keep their order. *)
Lemma insert_sorted_filter cmp (P : TimesheetEntry -> bool) x l :
  (forall a b, P a = true -> P b = true -> (cmp a b <=? 0)%Z = true) ->
  List.filter P (insert_sorted cmp x l) = List.filter P (x :: l).
Proof.
  intros HP. induction l as [|y l IH]; [reflexivity|].
  cbn [insert_sorted]. destruct (Z.ltb_spec 0 (cmp x y)) as [Hlt|Hge]; [|reflexivity].
  cbn [List.filter] in *. rewrite IH.
  destruct (P x) eqn:Px, (P y) eqn:Py; try reflexivity.
  specialize (HP x y Px Py). apply Z.leb_le in HP. lia.
Qed.

Lemma sort_filter cmp (P : TimesheetEntry -> bool) l :
  (forall a b, P a = true -> P b = true -> (cmp a b <=? 0)%Z = true) ->
  List.filter P (sort cmp l) = List.filter P l.
Proof.
  intros HP. induction l as [|x l IH]; [reflexivity|].
  cbn [sort fold_right]. fold (sort cmp l).
  rewrite insert_sorted_filter by assumption.
  cbn [List.filter]. now rewrite IH.
Qed.

(** The order of strings. *)
Lemma string_ltb_irrefl s : String.ltb s s = false.
Proof.
  unfold String.ltb.
  pose proof (proj2 (OrderedTypeEx.String_as_OT.cmp_eq s s) eq_refl) as E.
  unfold OrderedTypeEx.String_as_OT.cmp in E. now rewrite E.
Qed.

Lemma string_ltb_asym a b : String.ltb a b = true -> String.ltb b a = false.
Proof.
  unfold String.ltb. pose proof (OrderedTypeEx.String_as_OT.cmp_antisym b a) as E.
  unfold OrderedTypeEx.String_as_OT.cmp in E. rewrite E.
  now destruct (String.compare a b).
Qed.

Lemma string_ltb_total a b : String.ltb a b = false -> String.ltb b a = false -> a = b.
Proof.
  unfold String.ltb. pose proof (OrderedTypeEx.String_as_OT.cmp_antisym b a) as E'.
  unfold OrderedTypeEx.String_as_OT.cmp in E'. rewrite E'.
  destruct (String.compare a b) eqn:E; try discriminate.
  intros _ _. now apply OrderedTypeEx.String_as_OT.cmp_eq.
Qed.

Lemma string_ltb_trans a b c :
  String.ltb a b = true -> String.ltb b c = true -> String.ltb a c = true.
Proof.
  unfold String.ltb.
  destruct (String.compare a b) eqn:E1; try discriminate.
  destruct (String.compare b c) eqn:E2; try discriminate.
  intros _ _.
  apply OrderedTypeEx.String_as_OT.cmp_lt in E1, E2.
  pose proof (OrderedTypeEx.String_as_OT.lt_trans _ _ _ E1 E2) as E3.
  apply OrderedTypeEx.String_as_OT.cmp_lt in E3. unfold OrderedTypeEx.String_as_OT.cmp in E3. now rewrite E3.
Qed.

(** "Not after" on strings is transitive. *)
Lemma string_not_ltb_trans a b c :
  String.ltb b a = false -> String.ltb c b = false -> String.ltb c a = false.
Proof.
  intros Hba Hcb. destruct (String.ltb c a) eqn:Hca; [|reflexivity].
  destruct (String.ltb a b) eqn:Hab.
  - pose proof (string_ltb_trans _ _ _ Hca Hab). congruence.
  - pose proof (string_ltb_total _ _ Hab Hba). subst. congruence.
Qed.

Lemma field_lt_asym k a b : field_lt k a b = true -> field_lt k b a = false.
Proof.
  destruct k; cbn [field_lt];
    first [apply string_ltb_asym | apply NumberOrderFacts.number_ltb_asym].
Qed.

Lemma field_not_lt_trans k a b c :
  sortable k b = true ->
  field_lt k b a = false -> field_lt k c b = false -> field_lt k c a = false.
Proof.
  destruct k; cbn [field_lt sortable]; intros Hb;
    first [ apply string_not_ltb_trans
          | apply NumberOrderFacts.number_not_ltb_trans;
            now apply negb_true_iff in Hb ].
Qed.

Lemma compareEntries_asc k a b :
  (compareEntries k asc a b <=? 0)%Z = true <-> field_lt k b a = false.
Proof.
  unfold compareEntries.
  destruct (field_lt k a b) eqn:Hab.
  - rewrite (field_lt_asym _ _ _ Hab). split; reflexivity.
  - destruct (field_lt k b a); split; (reflexivity || discriminate).
Qed.

Lemma compareEntries_desc k a b :
  (compareEntries k desc a b <=? 0)%Z = true <-> field_lt k a b = false.
Proof.
  unfold compareEntries.
  destruct (field_lt k a b) eqn:Hab.
  - split; discriminate.
  - destruct (field_lt k b a); split; reflexivity.
Qed.

Lemma compareEntries_total k d a b :
  (0 < compareEntries k d a b)%Z -> (compareEntries k d b a <=? 0)%Z = true.
Proof.
  destruct d; [rewrite compareEntries_asc | rewrite compareEntries_desc];
    unfold compareEntries;
    destruct (field_lt k a b) eqn:Hab; try lia;
    try (intros _; now apply field_lt_asym);
    destruct (field_lt k b a) eqn:Hba; try lia; intros _; assumption.
Qed.

Lemma compareEntries_trans k d a b c :
  sortable k b = true ->
  (compareEntries k d a b <=? 0)%Z = true ->
  (compareEntries k d b c <=? 0)%Z = true ->
  (compareEntries k d a c <=? 0)%Z = true.
Proof.
  intros Hb. destruct d.
  - rewrite !compareEntries_asc. intros Hab Hbc.
    now apply (field_not_lt_trans k a b c).
  - rewrite !compareEntries_desc. intros Hab Hbc.
    now apply (field_not_lt_trans k c b a).
Qed.

Lemma StronglySorted_impl {A} (R R' : A -> A -> Prop) l :
  (forall a b, R a b -> R' a b) -> StronglySorted R l -> StronglySorted R' l.
Proof.
  intros HR. induction 1 as [|x l Sl IH Hx]; constructor; [assumption|].
  eapply Forall_impl; [exact Hx | auto].
Qed.

End SortFacts.

(** ** Findings by row *)

Module RowFacts.
Import Validator Frame FrameFacts Batch.
Local Open Scope action_scope.

Lemma filter_row_all k (l : list ValidationError) :
  Forall (fun v => row v = k) l -> List.filter (fun v => Nat.eqb (row v) k) l = l.
Proof.
  induction 1 as [|v l Hv _ IH]; simpl; [reflexivity|].
  rewrite Hv, Nat.eqb_refl. now rewrite IH.
Qed.

Lemma filter_row_none k (l : list ValidationError) :
  Forall (fun v => row v <> k) l -> List.filter (fun v => Nat.eqb (row v) k) l = [].
Proof.
  induction 1 as [|v l Hv _ IH]; simpl; [reflexivity|].
  destruct (Nat.eqb_spec (row v) k); [contradiction | assumption].
Qed.

Section Rows.
Context {A : Type}.
Variable f : A -> nat -> Action.
Hypothesis f_row :
  forall x i, inv (fun v => row v = i + 1) (fun v => row v = i + 1) (f x i).

Lemma forEach_from_rows (xs : list A) :
  forall i r,
    let st := run (forEach_from f i xs) r in
    (Forall (fun v => i + 1 <= row v <= i + length xs) (st_errors st)
     /\ in_row_order (st_errors st))
    /\ (Forall (fun v => i + 1 <= row v <= i + length xs) (st_warnings st)
        /\ in_row_order (st_warnings st)).
Proof.
  induction xs as [|x xs IH]; intros i r; cbn [forEach_from length].
  - unfold run, skip; simpl. repeat split; constructor.
  - assert (Fr : framed (forEach_from f (S i) xs)).
    { apply framed_forEach_from. intros y j. apply f_row. }
    cbv zeta. rewrite run_seq by assumption. cbn [st_errors st_warnings].
    destruct (f_row x i) as [_ Px]. destruct (Px r) as [PE PW].
    destruct (IH (S i) (st_reads (run (f x i) r))) as [[BE SE] [BW SW]].
    assert (Hord : forall l1 l2 : list ValidationError,
               Forall (fun v => row v = i + 1) l1 ->
               Forall (fun v => S i + 1 <= row v <= S i + length xs) l2 ->
               in_row_order l2 ->
               Forall (fun v => i + 1 <= row v <= i + S (length xs)) (l1 ++ l2)
               /\ in_row_order (l1 ++ l2)).
    { intros l1 l2 H1 H2 S2. split.
      - apply Forall_app. split.
        + eapply Forall_impl; [exact H1|]. simpl. intros; lia.
        + eapply Forall_impl; [exact H2|]. simpl. intros; lia.
      - clear -H1 H2 S2. induction H1 as [|v l1 Hv Hl IH]; [assumption|].
        simpl. constructor; [assumption|].
        apply Forall_app. split.
        + eapply Forall_impl; [exact Hl|]. simpl. intros; lia.
        + eapply Forall_impl; [exact H2|]. simpl. intros; lia. }
    split; apply Hord; assumption.
Qed.

(** The findings of row [i0 + i + 1] in the output of the loop are those the
    body pushes for the [i]-th element, after the readings of the elements
    before it. *)
Lemma forEach_from_row (xs : list A) :
  forall i0 i x r,
    xs !! i = Some x ->
    let st := run (forEach_from f i0 xs) r in
    let ri := st_reads (run (forEach_from f i0 (take i xs)) r) in
    List.filter (fun v => Nat.eqb (row v) (i0 + i + 1)) (st_errors st)
    = st_errors (run (f x (i0 + i)) ri)
    /\ List.filter (fun v => Nat.eqb (row v) (i0 + i + 1)) (st_warnings st)
       = st_warnings (run (f x (i0 + i)) ri).
Proof.
  induction xs as [|y xs IH]; intros i0 i x r Hx; [discriminate|].
  assert (Fr : forall j l, framed (forEach_from f j l)).
  { intros j l. apply framed_forEach_from. intros z j'. apply f_row. }
  cbn [forEach_from]. cbv zeta. rewrite run_seq by apply Fr.
  cbn [st_errors st_warnings]. rewrite !List.filter_app.
  destruct (f_row y i0) as [_ Py]. destruct (Py r) as [PE PW].
  destruct i as [|i]; cbn [take forEach_from].
  - injection Hx as ->. rewrite Nat.add_0_r.
    destruct (forEach_from_rows xs (S i0) (st_reads (run (f x i0) r)))
      as [[BE _] [BW _]].
    rewrite (filter_row_all (i0 + 1) (st_errors (run (f x i0) r))) by assumption.
    rewrite (filter_row_all (i0 + 1) (st_warnings (run (f x i0) r))) by assumption.
    rewrite (filter_row_none (i0 + 1) (st_errors (run (forEach_from f (S i0) xs) _)))
      by (eapply Forall_impl; [exact BE|]; simpl; intros; lia).
    rewrite (filter_row_none (i0 + 1) (st_warnings (run (forEach_from f (S i0) xs) _)))
      by (eapply Forall_impl; [exact BW|]; simpl; intros; lia).
    rewrite !app_nil_r. split; reflexivity.
  - cbn [lookup list_lookup] in Hx.
    rewrite (filter_row_none (i0 + S i + 1) (st_errors (run (f y i0) r)))
      by (eapply Forall_impl; [exact PE|]; simpl; intros; lia).
    rewrite (filter_row_none (i0 + S i + 1) (st_warnings (run (f y i0) r)))
      by (eapply Forall_impl; [exact PW|]; simpl; intros; lia).
    rewrite run_seq by apply Fr. cbn [st_reads app].
    replace (i0 + S i) with (S i0 + i) by lia.
    apply (IH (S i0) i x _ Hx).
Qed.

End Rows.

Lemma filter_filter_implied {A} (p q : A -> bool) (l : list A) :
  (forall v, p v = true -> q v = true) ->
  List.filter p l = List.filter p (List.filter q l).
Proof.
  intros Hpq. induction l as [|v l IH]; simpl; [reflexivity|].
  destruct (p v) eqn:Hp.
  - rewrite (Hpq v Hp). simpl. rewrite Hp. now f_equal.
  - destruct (q v); simpl; [rewrite Hp|]; assumption.
Qed.

(** A list in row order with rows from [k + 1] to [k + n] is the
    concatenation of its parts by row. *)
Lemma concat_rows (n : nat) :
  forall k (l : list ValidationError),
    in_row_order l -> Forall (fun v => k + 1 <= row v <= k + n) l ->
    concat (map (fun i => List.filter (fun v => Nat.eqb (row v) (i + 1)) l)
                (List.seq k n)) = l.
Proof.
  induction n as [|n IH]; intros k l Sl Bl; cbn [List.seq map concat].
  - destruct Bl as [|v l Hv _]; [reflexivity | lia].
  - assert (Hsplit : l = (List.filter (fun v => Nat.eqb (row v) (k + 1)) l
                          ++ List.filter (fun v => negb (Nat.eqb (row v) (k + 1))) l)%list).
    { clear IH. induction l as [|v l IHl]; [reflexivity|].
      apply StronglySorted_inv in Sl. destruct Sl as [Sl Hv].
      apply Forall_cons in Bl. destruct Bl as [Bv Bl]. simpl.
      destruct (Nat.eqb_spec (row v) (k + 1)) as [E|NE]; simpl.
      - f_equal. now apply IHl.
      - rewrite filter_row_none.
        + simpl. f_equal.
          assert (Hall : Forall (fun w => negb (Nat.eqb (row w) (k + 1)) = true) l).
          { rewrite List.Forall_forall in Hv, Bl. apply List.Forall_forall. intros w Hw.
            specialize (Hv w Hw). destruct (Nat.eqb_spec (row w) (k + 1)); [lia|reflexivity]. }
          clear -Hall. induction Hall as [|w l Hw _ IH]; simpl; [reflexivity|].
          rewrite Hw. now f_equal.
        + rewrite List.Forall_forall in Hv. apply List.Forall_forall. intros w Hw.
          specialize (Hv w Hw). lia. }
    set (rest := List.filter (fun v => negb (Nat.eqb (row v) (k + 1))) l) in *.
    etransitivity; [|symmetry; exact Hsplit]. f_equal.
    rewrite <- (IH (S k) rest).
    + apply f_equal. apply map_ext_in. intros i Hi. apply in_seq in Hi.
      unfold rest. apply filter_filter_implied. intros v Hv.
      apply Nat.eqb_eq in Hv.
      destruct (Nat.eqb_spec (row v) (k + 1)); [lia | reflexivity].
    + unfold rest, in_row_order. clear -Sl.
      induction Sl as [|v l Sl IH Hv]; simpl; [constructor|].
      destruct (negb _); [|assumption].
      constructor; [assumption|].
      rewrite List.Forall_forall in Hv. apply List.Forall_forall. intros w Hw.
      apply List.filter_In in Hw. apply Hv, Hw.
    + unfold rest. apply List.Forall_forall. intros v Hv.
      apply List.filter_In in Hv. destruct Hv as [Hv Hne].
      rewrite List.Forall_forall in Bl. specialize (Bl v Hv).
      destruct (Nat.eqb_spec (row v) (k + 1)); [discriminate | lia].
Qed.

End RowFacts.

(** ** Errors do not read the clock *)

Module ErrorFacts.
Import Validator Frame FrameFacts Batch ValidatorRules ValidatorFacts Js.
Local Open Scope action_scope.

Lemma noerr_skip : noerr skip.
Proof. split; [apply framed_skip | reflexivity]. Qed.

Lemma noerr_warnings_push f : noerr (warnings_push f).
Proof. split; [apply framed_warnings_push | reflexivity]. Qed.

Lemma noerr_seq a b : noerr a -> noerr b -> noerr (a ;; b).
Proof.
  intros [Fa Na] [Fb Nb]. split; [now apply framed_seq|].
  intros r. rewrite run_seq by assumption. simpl. now rewrite Na, Nb.
Qed.

Lemma noerr_if (c : bool) a b : noerr a -> noerr b -> noerr (if c then a else b).
Proof. now destruct c. Qed.

Lemma noerr_when c a : noerr a -> noerr (when c a).
Proof. intros. apply noerr_if; [assumption | apply noerr_skip]. Qed.

Lemma noerr_new_Date clock k : (forall d, noerr (k d)) -> noerr (new_Date clock k).
Proof.
  intros Hk. split.
  - apply framed_new_Date. intros d. apply Hk.
  - intros r. rewrite run_new_Date. apply Hk.
Qed.

Ltac noerr_tac :=
  repeat lazymatch goal with
  | |- noerr (seq _ _) => apply noerr_seq
  | |- noerr (when _ _) => apply noerr_when
  | |- noerr (if _ then _ else _) => apply noerr_if
  | |- noerr skip => apply noerr_skip
  | |- noerr (new_Date _ _) => apply noerr_new_Date; intro
  | |- noerr (warnings_push _) => apply noerr_warnings_push
  end.

Lemma errs_same_noerr a b : noerr a -> noerr b -> errs_same a b.
Proof.
  intros [Fa Na] [Fb Nb]. repeat split; try assumption.
  intros r1 r2. now rewrite Na, Nb.
Qed.

Lemma errs_same_errors_push f : errs_same (errors_push f) (errors_push f).
Proof. repeat split; try apply framed_errors_push. Qed.

Lemma errs_same_seq a a' b b' :
  errs_same a a' -> errs_same b b' -> errs_same (a ;; b) (a' ;; b').
Proof.
  intros (Fa & Fa' & Ha) (Fb & Fb' & Hb).
  repeat split; try (apply framed_seq; assumption).
  intros r1 r2. rewrite !run_seq by assumption. simpl.
  now rewrite (Ha r1 r2), (Hb _ (st_reads (run a' r2))).
Qed.

Lemma errs_same_if (c : bool) a a' b b' :
  errs_same a a' -> errs_same b b' ->
  errs_same (if c then a else b) (if c then a' else b').
Proof. now destruct c. Qed.

Lemma errs_same_when c a a' : errs_same a a' -> errs_same (when c a) (when c a').
Proof.
  intros. apply errs_same_if; [assumption|].
  apply errs_same_noerr; apply noerr_skip.
Qed.

Lemma errs_same_forEach {A} (f : A -> Action) xs :
  (forall x, errs_same (f x) (f x)) -> errs_same (forEach f xs) (forEach f xs).
Proof.
  intros Hf. induction xs as [|x xs IH]; simpl.
  - apply errs_same_noerr; apply noerr_skip.
  - now apply errs_same_seq.
Qed.

Ltac errs_same_step :=
  lazymatch goal with
  | |- errs_same (seq _ _) (seq _ _) => apply errs_same_seq
  | |- errs_same (when (_ && _) (new_Date _ _)) _ =>
      apply errs_same_noerr; solve [noerr_tac]
  | |- errs_same (when ?c _) (when ?c _) => apply errs_same_when
  | |- errs_same (if ?c then _ else _) (if ?c then _ else _) => apply errs_same_if
  | |- errs_same (forEach _ _) (forEach _ _) => apply errs_same_forEach; intros [? ?]
  | |- errs_same (errors_push _) (errors_push _) => apply errs_same_errors_push
  | |- errs_same (warnings_push _) (warnings_push _) =>
      apply errs_same_noerr; apply noerr_warnings_push
  | |- errs_same skip skip => apply errs_same_noerr; apply noerr_skip
  end.

Section WithRuntime.
Context `{JsRuntime}.

(** The errors of [validateEntry] do not depend on the clock, nor on the
    readings taken before. *)
Lemma validateEntry_errs_same c1 c2 entry index :
  errs_same (validateEntry c1 entry index) (validateEntry c2 entry index).
Proof. open_entry. repeat errs_same_step. Qed.

Lemma forEach_from_errs_same c1 c2 (entries : list TimesheetEntry) :
  forall index,
    errs_same (forEach_from (validateEntry c1) index entries)
              (forEach_from (validateEntry c2) index entries).
Proof.
  induction entries as [|e entries IH]; intros index; simpl.
  - apply errs_same_noerr; apply noerr_skip.
  - apply errs_same_seq; [apply validateEntry_errs_same | apply IH].
Qed.

End WithRuntime.
End ErrorFacts.

(** ** Renumbered rows, and clocks that stand still *)

Module ShiftFacts.
Import Validator Frame FrameFacts Batch ValidatorRules ValidatorFacts Js.
Local Open Scope action_scope.

Section Shift.
Variable k : nat.

Lemma shifted_skip : shifted k skip skip.
Proof. repeat split; apply framed_skip. Qed.

Lemma shifted_errors_push f g :
  g = shift_row k f -> shifted k (errors_push f) (errors_push g).
Proof. intros ->. repeat split; apply framed_errors_push. Qed.

Lemma shifted_warnings_push f g :
  g = shift_row k f -> shifted k (warnings_push f) (warnings_push g).
Proof. intros ->. repeat split; apply framed_warnings_push. Qed.

Lemma shifted_seq a a' b b' :
  shifted k a a' -> shifted k b b' -> shifted k (a ;; b) (a' ;; b').
Proof.
  intros (Fa & Fa' & Ha) (Fb & Fb' & Hb).
  split; [now apply framed_seq|]. split; [now apply framed_seq|].
  intros r. rewrite !run_seq by assumption. cbn [st_errors st_warnings st_reads].
  destruct (Ha r) as (HaE & HaW & HaR). rewrite HaR.
  destruct (Hb (st_reads (run a r))) as (HbE & HbW & HbR).
  rewrite HaE, HaW, HbE, HbW, HbR, !map_app. repeat split.
Qed.

Lemma shifted_if (c : bool) a a' b b' :
  shifted k a a' -> shifted k b b' ->
  shifted k (if c then a else b) (if c then a' else b').
Proof. now destruct c. Qed.

Lemma shifted_when c a a' : shifted k a a' -> shifted k (when c a) (when c a').
Proof. intros. apply shifted_if; [assumption | apply shifted_skip]. Qed.

Lemma shifted_new_Date clock k1 k2 :
  (forall d, shifted k (k1 d) (k2 d)) ->
  shifted k (new_Date clock k1) (new_Date clock k2).
Proof.
  intros Hk. split; [|split].
  - apply framed_new_Date. intros d. apply Hk.
  - apply framed_new_Date. intros d. apply Hk.
  - intros r. rewrite !run_new_Date. apply Hk.
Qed.

End Shift.

Ltac push_shifted :=
  unfold shift_row; cbn [row field message severity]; f_equal; lia.

Ltac shifted_step :=
  lazymatch goal with
  | |- shifted _ (seq _ _) (seq _ _) => apply shifted_seq
  | |- shifted _ (when ?c _) (when ?c _) => apply shifted_when
  | |- shifted _ (if ?c then _ else _) (if ?c then _ else _) => apply shifted_if
  | |- shifted _ (new_Date _ _) (new_Date _ _) => apply shifted_new_Date; intro
  | |- shifted _ (errors_push _) (errors_push _) =>
      apply shifted_errors_push; push_shifted
  | |- shifted _ (warnings_push _) (warnings_push _) =>
      apply shifted_warnings_push; push_shifted
  | |- shifted _ skip skip => apply shifted_skip
  end.

Section Steady.
Variable clock : Clock.
Variable now : number.
Hypothesis Hnow : forall n, clock n = now.

Lemma steady_skip : steady skip.
Proof. split; [apply framed_skip | now split]. Qed.

Lemma steady_errors_push f : steady (errors_push f).
Proof. split; [apply framed_errors_push | now split]. Qed.

Lemma steady_warnings_push f : steady (warnings_push f).
Proof. split; [apply framed_warnings_push | now split]. Qed.

Lemma steady_seq a b : steady a -> steady b -> steady (a ;; b).
Proof.
  intros [Fa Ha] [Fb Hb]. split; [now apply framed_seq|].
  intros r1 r2. rewrite !run_seq by assumption. cbn [st_errors st_warnings].
  destruct (Ha r1 r2) as [-> ->].
  destruct (Hb (st_reads (run a r1)) (st_reads (run a r2))) as [-> ->].
  now split.
Qed.

Lemma steady_if (c : bool) a b : steady a -> steady b -> steady (if c then a else b).
Proof. now destruct c. Qed.

Lemma steady_when c a : steady a -> steady (when c a).
Proof. intros. apply steady_if; [assumption | apply steady_skip]. Qed.

Lemma steady_new_Date k :
  (forall d, framed (k d)) -> steady (k now) -> steady (new_Date clock k).
Proof.
  intros Fk [_ Hk]. split; [now apply framed_new_Date|].
  intros r1 r2. rewrite !run_new_Date, !Hnow. apply Hk.
Qed.

Lemma steady_forEach {A} (f : A -> Action) xs :
  (forall x, steady (f x)) -> steady (forEach f xs).
Proof.
  intros Hf. induction xs as [|x xs IH]; simpl.
  - apply steady_skip.
  - now apply steady_seq.
Qed.

End Steady.

Ltac steady_step H :=
  lazymatch goal with
  | |- steady (seq _ _) => apply steady_seq
  | |- steady (when _ _) => apply steady_when
  | |- steady (if _ then _ else _) => apply steady_if
  | |- steady (new_Date _ _) =>
      eapply steady_new_Date; [exact H | intro; solve [framed_tac] | ]
  | |- steady (errors_push _) => apply steady_errors_push
  | |- steady (warnings_push _) => apply steady_warnings_push
  | |- steady skip => apply steady_skip
  end.

Section WithRuntime.
Context `{JsRuntime}.
Variable clock : Clock.

Lemma validateEntry_shifted k entry index :
  shifted k (validateEntry clock entry index)
            (validateEntry clock entry (k + index)).
Proof. open_entry. repeat shifted_step. Qed.

Lemma validateEntry_steady now entry index :
  (forall n, clock n = now) -> steady (validateEntry clock entry index).
Proof. intros Hnow. open_entry. repeat steady_step Hnow. Qed.

End WithRuntime.
End ShiftFacts.

(** ** Entries without errors *)

Module ValidityFacts.
Import Validator Frame FrameFacts Batch Rules ValidatorRules ValidatorFacts Js Findings.
Local Open Scope action_scope.

Section WithRuntime.
Context `{JsRuntime}.
Variable clock : Clock.

Ltac case_on c :=
  destruct c; cbn [negb andb Nat.add]; try solve [split; intros; discriminate].

Ltac split_if :=
  match goal with
  | |- context [if ?c then _ else _] =>
      lazymatch c with
      | context [if _ then _ else _] => fail
      | _ => destruct c eqn:?
      end
  end.

Lemma validateEntry_error_free e i :
  exists n, emitsE (fun _ => true) (validateEntry clock e i) n
            /\ (n = 0 <-> error_free e = true).
Proof.
  eexists. split.
  { open_entry. emitsE_spine. }
  unfold error_free, tolerant, calculatedTotal.
  assert (if_same : forall (b : bool) (n : nat), (if b then n else n) = n)
    by now intros [].
  rewrite !if_same. clear if_same.
  case_on (truthy_str (employeeId e)).
  case_on (truthy_str (startDate e)).
  case_on (truthy_str (endDate e)).
  case_on (truthy_str (timesheetStatus e)).
  case_on (isNaN (Date_parse (startDate e))).
  case_on (isNaN (Date_parse (endDate e))).
  case_on (Date_parse (endDate e) <=? Date_parse (startDate e))%float.
  case_on (scheduleHours e <? 0)%float.
  case_on (reportedHours e <? 0)%float.
  case_on (regularHours e <? 0)%float.
  case_on (overtimeHours e <? 0)%float.
  case_on (holidayHours e <? 0)%float.
  case_on (leaveHours e <? 0)%float.
  case_on (totalHours e <? 0)%float.
  destruct (0 <? totalHours e)%float, (0.01 <? _)%float,
    (scheduleHours e <? reportedHours e)%float, (includes _ _);
    cbn [negb andb Nat.add]; split; intros; congruence.
Qed.

Lemma forEach_from_error_free (entries : list TimesheetEntry) :
  forall i r,
    st_errors (run (forEach_from (validateEntry clock) i entries) r) = []
    <-> forallb error_free entries = true.
Proof.
  induction entries as [|e entries IH]; intros i r; cbn [forEach_from forallb].
  - split; reflexivity.
  - rewrite run_seq by (apply framed_forEach_from; intros; apply validateEntry_framed).
    cbn [st_errors]. rewrite andb_true_iff,
      <- (IH (S i) (st_reads (run (validateEntry clock e i) r))).
    destruct (validateEntry_error_free e i) as (n & [_ Hn] & Hok).
    rewrite <- Hok, <- (Hn r). unfold countE, count.
    rewrite (List.forallb_filter_id (fun _ => true)) by now apply forallb_forall.
    destruct (st_errors (run (validateEntry clock e i) r)); simpl.
    + tauto.
    + split; [discriminate | intros [? _]; discriminate].
Qed.

End WithRuntime.
End ValidityFacts.

(** ** The identifiers of the bulk panel *)

Module IdFacts.
Import BulkOperations StringFacts.

Lemma no_hyphen_digits d : no_hyphen (DecimalString.NilEmpty.string_of_uint d) = true.
Proof. induction d; simpl; auto. Qed.

Lemma no_hyphen_numeral n :
  no_hyphen (DecimalString.NilZero.string_of_uint (Nat.to_uint n)) = true.
Proof.
  unfold DecimalString.NilZero.string_of_uint.
  destruct (Nat.to_uint n); try reflexivity; apply (no_hyphen_digits (_ _)).
Qed.

Lemma no_hyphen_app a d : no_hyphen (a ++ String "-" d) = false.
Proof.
  induction a as [|c a IH]; [reflexivity|].
  rewrite append_cons. simpl. rewrite IH. apply andb_false_r.
Qed.

Lemma hyphen_split a a' d d' :
  no_hyphen d = true -> no_hyphen d' = true ->
  (a ++ String "-" d)%string = (a' ++ String "-" d')%string -> a = a' /\ d = d'.
Proof.
  intros Hd Hd'. revert a'. induction a as [|c a IH]; intros [|c' a'] E.
  - rewrite !append_nil_l in E. injection E as ->. now split.
  - rewrite append_nil_l, append_cons in E. injection E as <- ->.
    rewrite no_hyphen_app in Hd. discriminate.
  - rewrite append_nil_l, append_cons in E. injection E as -> <-.
    rewrite no_hyphen_app in Hd'. discriminate.
  - rewrite !append_cons in E. injection E as -> E.
    destruct (IH a' E) as [-> ->]. now split.
Qed.

Lemma to_uint_not_Nil n : Nat.to_uint n <> Decimal.Nil.
Proof.
  intros E. pose proof (DecimalNat.Unsigned.of_to n) as Hn. rewrite E in Hn.
  simpl in Hn. subst n. discriminate.
Qed.

Lemma numeral_inj i j :
  DecimalString.NilZero.string_of_uint (Nat.to_uint i)
  = DecimalString.NilZero.string_of_uint (Nat.to_uint j) -> i = j.
Proof.
  intros E. apply DecimalNat.Unsigned.to_uint_inj.
  pose proof (DecimalString.NilZero.usu _ (to_uint_not_Nil i)) as Hi.
  pose proof (DecimalString.NilZero.usu _ (to_uint_not_Nil j)) as Hj.
  rewrite E in Hi. congruence.
Qed.

Lemma entryId_inj e e' i j :
  entryId e i = entryId e' j -> employeeId e = employeeId e' /\ i = j.
Proof.
  unfold entryId. intros E.
  apply hyphen_split in E; try apply no_hyphen_numeral.
  destruct E as [E1 E2]. split; [assumption | now apply numeral_inj].
Qed.

End IdFacts.

Module BulkFacts.
Import Js JsArray BulkOperations IdFacts App.

Lemma allIds_NoDup entries : NoDup (allIds entries).
Proof.
  apply NoDup_alt. intros i j id Hi Hj. unfold allIds in *.
  rewrite list_lookup_imap in Hi, Hj.
  destruct (entries !! i) as [e|]; [|discriminate].
  destruct (entries !! j) as [e'|]; [|discriminate].
  simpl in Hi, Hj. injection Hi as Hi. injection Hj as Hj.
  apply (entryId_inj e e' i j). congruence.
Qed.

Lemma elem_of_idsAt entries positions e j :
  entries !! j = Some e ->
  (entryId e j ∈ idsAt entries positions <-> j ∈ positions).
Proof.
  intros Hj. unfold idsAt. rewrite list_elem_of_omap. split.
  - intros (i & Hi & E). destruct (entries !! i) as [e'|] eqn:Hi'; [|discriminate].
    simpl in E. injection E as E. apply entryId_inj in E. destruct E as [_ ->].
    assumption.
  - intros Hin. exists j. split; [assumption|]. now rewrite Hj.
Qed.

Lemma includes_elem_of (xs : list string) (s : string) :
  includes xs s = true <-> s ∈ xs.
Proof. rewrite includes_In. symmetry. apply list_elem_of_In. Qed.

Lemma filter_from_all {A} (p : A -> nat -> bool) (xs : list A) :
  forall i0, (forall i x, xs !! i = Some x -> p x (i0 + i) = true) ->
             filter_from p i0 xs = xs.
Proof.
  induction xs as [|x xs IH]; intros i0 Hp; [reflexivity|].
  cbn [filter_from]. rewrite <- (Nat.add_0_r i0) at 1.
  rewrite (Hp 0 x eq_refl). f_equal. apply IH.
  intros i y Hy. replace (S i0 + i) with (i0 + S i) by lia. now apply Hp.
Qed.

End BulkFacts.

(** ** Headers and cells that are already normal *)

Module ParserFacts.
Import Js CsvParser Columns RefRuntimeFacts.

Lemma headerMap_get_In m key v :
  headerMap_get m key = Some v -> In v (map snd m).
Proof.
  induction m as [|[k w] m IH]; simpl; [discriminate|].
  destruct (String.eqb key k); [intros [= <-]; now left | right; auto].
Qed.

Lemma headerMap_canonical key v :
  headerMap_get headerMap key = Some v -> In v canonical.
Proof.
  intros Hv. apply headerMap_get_In in Hv. unfold headerMap in Hv. simpl in Hv.
  unfold canonical. simpl.
  repeat (destruct Hv as [<-|Hv]; [tauto|]). contradiction.
Qed.

Lemma transformHeader_canonical c : In c canonical -> transformHeader c = c.
Proof.
  unfold canonical. simpl.
  intros [<-|[<-|[<-|[<-|[<-|[<-|[<-|[<-|[<-|[<-|[<-|[]]]]]]]]]]]]; reflexivity.
Qed.

Lemma trimEnd_idem s : trimEnd (trimEnd s) = trimEnd s.
Proof.
  induction s as [|c r IH]; [reflexivity|]. cbn [trimEnd].
  destruct (trimEnd r) as [|c' r'] eqn:E.
  - destruct (isWhiteSpace c) eqn:Hc; [reflexivity|]. simpl. now rewrite Hc.
  - change (trimEnd (String c (String c' r')))
      with (match trimEnd (String c' r') with
            | EmptyString =>
                if isWhiteSpace c then EmptyString else String c EmptyString
            | String a b => String c (String a b)
            end).
    now rewrite IH.
Qed.

Lemma trim_idem s : trim (trim s) = trim s.
Proof.
  unfold trim at 1. rewrite trimStart_trim. unfold trim. apply trimEnd_idem.
Qed.

End ParserFacts.

(** ** Distinct values in order *)

Module ListFacts.
Import Js JsArray SortFacts BulkFacts.

Lemma distinct_from_spec xs :
  forall seen,
    NoDup (distinct_from seen xs)
    /\ forall x, x ∈ distinct_from seen xs <-> x ∈ xs /\ x ∉ seen.
Proof.
  induction xs as [|y xs IH]; intros seen; cbn [distinct_from].
  - split; [constructor|]. intros x. rewrite elem_of_nil. tauto.
  - destruct (includes seen y) eqn:Hy.
    + apply includes_elem_of in Hy. destruct (IH seen) as [ND Hin].
      split; [assumption|]. intros x. rewrite Hin, elem_of_cons.
      split; [tauto|]. intros [[->|Hx] Hn]; [contradiction | tauto].
    + assert (Hy' : y ∉ seen).
      { intros Hin. apply includes_elem_of in Hin. congruence. }
      destruct (IH (y :: seen)) as [ND Hin]. split.
      * constructor; [|assumption]. rewrite Hin, elem_of_cons. tauto.
      * intros x. rewrite !elem_of_cons, Hin, elem_of_cons.
        destruct (decide (x = y)) as [->|Hne]; tauto.
Qed.

Lemma insert_string_Permutation x l : Permutation (insert_string x l) (x :: l).
Proof.
  induction l as [|y l IH]; simpl; [reflexivity|].
  destruct (String.ltb y x); [|reflexivity].
  rewrite IH. apply perm_swap.
Qed.

Lemma sort_strings_Permutation l : Permutation (sort_strings l) l.
Proof.
  induction l as [|x l IH]; simpl; [reflexivity|].
  rewrite insert_string_Permutation. now constructor.
Qed.

Lemma insert_string_sorted x l :
  StronglySorted (fun a b => String.ltb b a = false) l ->
  StronglySorted (fun a b => String.ltb b a = false) (insert_string x l).
Proof.
  induction 1 as [|y l Sl IH Hy]; simpl.
  - repeat constructor.
  - destruct (String.ltb y x) eqn:Hyx.
    + constructor; [assumption|].
      rewrite insert_string_Permutation. constructor; [|assumption].
      now apply string_ltb_asym.
    + constructor; [now constructor|].
      constructor; [assumption|].
      eapply Forall_impl; [exact Hy|]. intros z Hz. simpl.
      now apply (string_not_ltb_trans x y z).
Qed.

Lemma sort_strings_sorted l :
  StronglySorted (fun a b => String.ltb b a = false) (sort_strings l).
Proof.
  induction l as [|x l IH]; simpl; [constructor|].
  now apply insert_string_sorted.
Qed.

Lemma sorted_NoDup_strict l :
  NoDup l -> StronglySorted (fun a b => String.ltb b a = false) l ->
  StronglySorted (fun a b => String.ltb a b = true) l.
Proof.
  intros ND. induction 1 as [|x l Sl IH Hx]; [constructor|].
  apply NoDup_cons in ND. destruct ND as [Hn ND].
  constructor; [now apply IH|].
  apply List.Forall_forall. intros y Hy.
  rewrite List.Forall_forall in Hx. specialize (Hx y Hy). simpl in Hx.
  destruct (String.ltb x y) eqn:Hxy; [reflexivity|].
  pose proof (string_ltb_total _ _ Hxy Hx). subst y.
  exfalso. apply Hn. now apply list_elem_of_In.
Qed.

End ListFacts.

(** ** Filters as one predicate *)

Module FilterFacts.
Import Js JsArray AdvancedFilters.

Lemma filter_filter_and {A} (p q : A -> bool) (l : list A) :
  List.filter q (List.filter p l) = List.filter (fun x => p x && q x) l.
Proof.
  induction l as [|x l IH]; simpl; [reflexivity|].
  destruct (p x); simpl; [|assumption].
  destruct (q x); now rewrite IH.
Qed.

Lemma filter_if {A} (c : bool) (q : A -> bool) (l : list A) :
  (if c then List.filter q l else l) = List.filter (fun x => negb c || q x) l.
Proof.
  destruct c; simpl; [reflexivity|].
  induction l; simpl; congruence.
Qed.

Lemma filter_sublist {A} (p : A -> bool) (l : list A) : sublist (List.filter p l) l.
Proof.
  induction l as [|x l IH]; simpl; [constructor|].
  destruct (p x); [now apply sublist_skip | now apply sublist_cons].
Qed.

Lemma filter_idem {A} (p : A -> bool) (l : list A) :
  List.filter p (List.filter p l) = List.filter p l.
Proof.
  rewrite filter_filter_and. apply List.filter_ext. intros x. apply andb_diag.
Qed.

Lemma filter_all {A} (p : A -> bool) (l : list A) :
  (forall x, p x = true) -> List.filter p l = l.
Proof. intros Hp. induction l as [|x l IH]; simpl; [|rewrite Hp]; congruence. Qed.

Lemma filter_none {A} (p : A -> bool) (l : list A) :
  (forall x, p x = false) -> List.filter p l = [].
Proof. intros Hp. induction l as [|x l IH]; simpl; [|rewrite Hp]; congruence. Qed.

Section WithRuntime.
Context `{JsRuntime}.

Lemma applyFilters_passes filters entries :
  applyFilters filters entries = List.filter (passes filters) entries.
Proof.
  unfold applyFilters. cbv zeta.
  rewrite !filter_if, !filter_filter_and.
  apply List.filter_ext. intros entry. unfold passes. cbv beta zeta.
  rewrite ?andb_assoc. reflexivity.
Qed.

End WithRuntime.
End FilterFacts.

(** ** Counting statuses *)

Module AnalyticsFacts.
Import Js JsArray Analytics.

Lemma fold_count_status (entries : list TimesheetEntry) (status : string) :
  forall acc,
    fold_left count_status entries acc !! status
    = if (with_status_count status entries =? 0)%nat then acc !! status
      else Some (default 0 (acc !! status) + with_status_count status entries).
Proof.
  unfold with_status_count.
  induction entries as [|e entries IH]; intros acc; [reflexivity|].
  cbn [fold_left List.filter]. rewrite IH. unfold count_status.
  destruct (String.eqb_spec (timesheetStatus e) status) as [->|Hne].
  - rewrite lookup_insert_eq. cbn [length].
    set (n := length (List.filter _ entries)).
    destruct n; simpl; unfold id; f_equal; lia.
  - rewrite lookup_insert_ne by assumption. reflexivity.
Qed.

End AnalyticsFacts.

(** ** The handlers keep the state consistent *)

Module SessionFacts.
Import Js ValidatorRules App Session.

Section WithRuntime.
Context `{JsRuntime}.

Lemma initial_consistent : consistent initial.
Proof.
  unfold consistent, initial; simpl.
  repeat split; discriminate.
Qed.

Lemma handle_consistent (st : State) (event : Event) :
  consistent st -> consistent (handle st event).
Proof.
  intros (Hv & Hp & He).
  destruct event as [| clock [parsedEntries | err] | | tab | filtered
                     | clock selectedIds newStatus];
    unfold consistent; simpl.
  - repeat split; assumption.
  - repeat split; try discriminate.
    intros result [= <-]. exists clock. reflexivity.
  - repeat split; discriminate.
  - repeat split; discriminate.
  - repeat split; assumption.
  - repeat split; assumption.
  - repeat split; try discriminate.
    intros result [= <-]. exists clock. reflexivity.
Qed.

End WithRuntime.
End SessionFacts.

(** * Further properties of the rule engine *)

Section ValidatorExtras.
Import Validator Frame FrameFacts ValidatorRules ValidatorFacts Findings Js.
Import Rules Batch RowFacts ErrorFacts ShiftFacts ValidityFacts.
Local Open Scope action_scope.
Context `{JsRuntime}.

(** X1.  Findings follow the rows.  Every finding carries the row number of a
    record of the batch, between 1 and the number of records, and both
    sequences list their findings in the order of the records: row numbers
    never decrease along [errors], nor along [warnings]. *)
Theorem X1_findings_follow_the_rows
  (clock : Clock) (entries : list TimesheetEntry) :
  let result := validateTimesheet clock entries in
  Forall (fun f => 1 <= row f <= length entries)
         (errors result ++ warnings result)%list
  /\ in_row_order (errors result)
  /\ in_row_order (warnings result).
Proof.
  intros result. unfold result.
  rewrite validateTimesheet_errors, validateTimesheet_warnings.
  destruct (forEach_from_rows (validateEntry clock) (validateEntry_row clock)
              entries 0 0) as [[BE SE] [BW SW]].
  split; [|split; assumption].
  apply Forall_app. split; assumption.
Qed.

(** X2.  The errors, and with them the [isValid] flag, do not depend on the
    wall clock: only warnings do. *)
Theorem X2_errors_do_not_depend_on_the_clock
  (c1 c2 : Clock) (entries : list TimesheetEntry) :
  errors (validateTimesheet c1 entries) = errors (validateTimesheet c2 entries)
  /\ isValid (validateTimesheet c1 entries)
     = isValid (validateTimesheet c2 entries).
Proof.
  assert (HE : errors (validateTimesheet c1 entries)
               = errors (validateTimesheet c2 entries)).
  { rewrite !validateTimesheet_errors.
    apply (forEach_from_errs_same c1 c2 entries 0). }
  split; [assumption|].
  unfold validateTimesheet in *. cbn [isValid errors] in *. now rewrite HE.
Qed.

(** X3.  A batch is valid exactly when every record is free of errors: its
    four text fields are present, both dates parse and the end is after the
    start, no hour bucket is below zero, a positive total is within 0.01 of the
    breakdown sum, and reported hours above schedule hours come with a tolerant
    status. *)
Theorem X3_isValid_iff_every_record_is_error_free
  (clock : Clock) (entries : list TimesheetEntry) :
  isValid (validateTimesheet clock entries) = forallb error_free entries.
Proof.
  unfold validateTimesheet. cbn [isValid].
  pose proof (forEach_from_error_free clock entries 0 0) as Hiff.
  unfold run in Hiff. fold initial in Hiff.
  destruct (forallb error_free entries).
  - destruct Hiff as [_ ->]; reflexivity.
  - destruct (st_errors _); [|reflexivity].
    destruct Hiff as [Hiff _]. now specialize (Hiff eq_refl).
Qed.

Lemma forEach_from_app {A} (f : A -> nat -> Action) (xs ys : list A) :
  forall i,
    forEach_from f i (xs ++ ys)
    = (forEach_from f i xs ;; forEach_from f (length xs + i) ys).
Proof.
  induction xs as [|x xs IH]; intros i; [reflexivity|].
  cbn [app forEach_from length]. rewrite IH.
  now rewrite Nat.add_succ_r.
Qed.

Lemma forEach_from_shifted clock k (entries : list TimesheetEntry) :
  forall i,
    shifted k (forEach_from (validateEntry clock) i entries)
              (forEach_from (validateEntry clock) (k + i) entries).
Proof.
  induction entries as [|e entries IH]; intros i; cbn [forEach_from].
  - apply shifted_skip.
  - apply shifted_seq; [apply validateEntry_shifted|].
    rewrite <- Nat.add_succ_r. apply IH.
Qed.

(** X4.  Records are checked one by one: the errors of two batches put end to
    end are the errors of the first batch followed by those of the second,
    renumbered past the rows of the first. *)
Theorem X4_errors_of_batches_put_end_to_end
  (clock : Clock) (xs ys : list TimesheetEntry) :
  errors (validateTimesheet clock (xs ++ ys))
  = (errors (validateTimesheet clock xs)
     ++ map (shift_row (length xs)) (errors (validateTimesheet clock ys)))%list.
Proof.
  rewrite !validateTimesheet_errors, forEach_from_app.
  destruct (forEach_from_shifted clock (length xs) ys 0) as (F0 & Fk & Hk).
  rewrite run_seq by assumption. cbn [st_errors]. f_equal.
  destruct (Hk (st_reads (run (forEach_from (validateEntry clock) 0 xs) 0)))
    as (-> & _ & _).
  f_equal. apply (forEach_from_errs_same clock clock ys 0).
Qed.

End ValidatorExtras.

(** * Further properties of the rules, one by one *)

Section RuleExtras.
Import Validator Frame FrameFacts ValidatorRules ValidatorFacts Findings Js Rules.
Context `{JsRuntime}.
Variable clock : Clock.

Ltac row_errors e :=
  apply count_row_errors with (entry := e); [assumption|];
  eapply emitsE_eq; [open_entry; emitsE_spine|]; cbn [Nat.add].

Ltac row_warnings e :=
  apply count_row_warnings with (entry := e); [assumption|];
  eapply emitsW_eq; [open_entry; emitsW_spine|]; cbn [Nat.add].

Lemma if_same (b : bool) (n : nat) : (if b then n else n) = n.
Proof. now destruct b. Qed.

(** X5.  Required fields.  For the record of row [i + 1] and each of its four text
    fields, the "is required" error on that field is pushed once when the field
    is the empty string and not at all otherwise, and never as a warning. *)
Theorem X5_required_fields
  (entries : list TimesheetEntry) (i : nat) (e : TimesheetEntry)
  (Hi : entries !! i = Some e) :
  let result := validateTimesheet clock entries in
  let required name msg l := count (on_row (i + 1) (is_finding name msg)) l in
  let missing (value : string) := once (String.eqb value "") in
  (required "employeeId" "Employee ID is required" (errors result)
   = missing e.(employeeId)
   /\ required "startDate" "Start date is required" (errors result)
      = missing e.(startDate)
   /\ required "endDate" "End date is required" (errors result)
      = missing e.(endDate)
   /\ required "timesheetStatus" "Timesheet status is required" (errors result)
      = missing e.(timesheetStatus))
  /\ (required "employeeId" "Employee ID is required" (warnings result) = 0%nat
      /\ required "startDate" "Start date is required" (warnings result) = 0%nat
      /\ required "endDate" "End date is required" (warnings result) = 0%nat
      /\ required "timesheetStatus" "Timesheet status is required"
           (warnings result) = 0%nat).
Proof.
  intros result required missing. unfold required, missing, result, once.
  split; repeat split.
  - row_errors e. rewrite ?if_same. unfold truthy_str.
    destruct (String.eqb (employeeId e) ""); reflexivity.
  - row_errors e. rewrite ?if_same. unfold truthy_str.
    destruct (String.eqb (startDate e) ""); reflexivity.
  - row_errors e. rewrite ?if_same. unfold truthy_str.
    destruct (String.eqb (endDate e) ""); reflexivity.
  - row_errors e. rewrite ?if_same. unfold truthy_str.
    destruct (String.eqb (timesheetStatus e) ""); reflexivity.
  - row_warnings e. rewrite ?if_same. reflexivity.
  - row_warnings e. rewrite ?if_same. reflexivity.
  - row_warnings e. rewrite ?if_same. reflexivity.
  - row_warnings e. rewrite ?if_same. reflexivity.
Qed.


(** X6.  Status checks.  For the record of row [i + 1]: an empty status gets the one
    error on the timesheetStatus field and no warning on it; a non-empty status
    outside the six known ones gets the one "Unknown status" warning on that
    field, no other warning and no error on it; a known status gets neither the
    error nor the "Unknown status" warning. *)
Theorem X6_status_checks
  (entries : list TimesheetEntry) (i : nat) (e : TimesheetEntry)
  (Hi : entries !! i = Some e) :
  let result := validateTimesheet clock entries in
  let status := e.(timesheetStatus) in
  let nE := count (on_row (i + 1) (on_field "timesheetStatus")) (errors result) in
  let nW := count (on_row (i + 1) (on_field "timesheetStatus")) (warnings result) in
  let nU := count (on_row (i + 1) is_unknown_status) (warnings result) in
  (String.eqb status "" = true -> nE = 1%nat /\ nW = 0%nat)
  /\ (String.eqb status "" = false -> includes validStatuses status = false ->
      nE = 0%nat /\ nW = 1%nat /\ nU = 1%nat)
  /\ (includes validStatuses status = true -> nE = 0%nat /\ nU = 0%nat).
Proof.
  intros result status nE nW nU.
  assert (HE : nE = once (String.eqb status "")).
  { unfold nE, result. row_errors e. rewrite ?if_same. unfold truthy_str.
    fold status. destruct (String.eqb status ""); reflexivity. }
  assert (HU : nU = once (negb (String.eqb status "")
                          && negb (includes validStatuses status))).
  { unfold nU, result. row_warnings e. rewrite ?if_same. unfold truthy_str.
    fold status. destruct (String.eqb status ""), (includes validStatuses status);
      reflexivity. }
  assert (HW0 : String.eqb status "" = true -> nW = 0%nat).
  { intros Hs. apply String.eqb_eq in Hs. unfold nW, result. row_warnings e.
    fold status. rewrite Hs. cbn. rewrite ?if_same. reflexivity. }
  assert (HW1 : String.eqb status "" = false ->
                includes validStatuses status = false -> nW = 1%nat).
  { intros Hs Hv. unfold nW, result. row_warnings e. fold status.
    unfold truthy_str. rewrite Hs, Hv. cbn [negb].
    unfold validStatuses, includes in Hv. cbn [existsb] in Hv.
    repeat (apply orb_false_elim in Hv; destruct Hv as [? Hv]).
    repeat match goal with E : String.eqb status _ = false |- _ =>
      rewrite E; clear E end.
    cbn [orb]. rewrite ?if_same. reflexivity. }
  rewrite HE, HU. unfold once. split; [|split].
  - intros Hs. rewrite Hs. split; [reflexivity | now apply HW0].
  - intros Hs Hv. rewrite Hs, Hv. split; [reflexivity|].
    split; [now apply HW1 | reflexivity].
  - intros Hv. rewrite Hv.
    destruct (String.eqb status "") eqn:Hs; [|split; reflexivity].
    apply String.eqb_eq in Hs. rewrite Hs in Hv. discriminate.
Qed.

Local Open Scope float_scope.

(** X7.  Date checks.  For the record of row [i + 1], when both dates are present:
    the "Invalid ... date format" error is pushed once for each date that does
    not parse, and when both parse the "End date must be after start date"
    error is pushed once exactly when the end is not after the start.  When
    a date is missing none of the three is pushed. *)
Theorem X7_date_errors
  (entries : list TimesheetEntry) (i : nat) (e : TimesheetEntry)
  (Hi : entries !! i = Some e) :
  let result := validateTimesheet clock entries in
  let n name msg := count (on_row (i + 1) (is_finding name msg)) (errors result) in
  let present := truthy_str e.(startDate) && truthy_str e.(endDate) in
  let startDate := Date_parse e.(startDate) in
  let endDate := Date_parse e.(endDate) in
  n "startDate" "Invalid start date format" = once (present && isNaN startDate)
  /\ n "endDate" "Invalid end date format" = once (present && isNaN endDate)
  /\ n "endDate" "End date must be after start date"
     = once (present && negb (isNaN startDate) && negb (isNaN endDate)
             && (endDate <=? startDate)).
Proof.
  intros result n present sd ed. unfold n, result, present, once.
  repeat split.
  - row_errors e. rewrite ?if_same. fold sd ed.
    destruct (truthy_str (startDate e)), (truthy_str (endDate e)),
      (isNaN sd), (isNaN ed); reflexivity.
  - row_errors e. rewrite ?if_same. fold sd ed.
    destruct (truthy_str (startDate e)), (truthy_str (endDate e)),
      (isNaN sd), (isNaN ed); reflexivity.
  - row_errors e. rewrite ?if_same. fold sd ed.
    destruct (truthy_str (startDate e)), (truthy_str (endDate e)),
      (isNaN sd), (isNaN ed), (ed <=? sd); reflexivity.
Qed.


(** X8.  Hour bounds.  For the record of row [i + 1], each of the seven hour
    buckets gets its "cannot be negative" error once when its value is below
    zero and not at all otherwise, and schedule hours above 80 get the one
    "unusually high" warning. *)
Theorem X8_hour_bounds
  (entries : list TimesheetEntry) (i : nat) (e : TimesheetEntry)
  (Hi : entries !! i = Some e) :
  let result := validateTimesheet clock entries in
  let n name msg := count (on_row (i + 1) (is_finding name msg)) (errors result) in
  n "scheduleHours" "Schedule hours cannot be negative"
    = once (e.(scheduleHours) <? 0)
  /\ n "reportedHours" "reportedHours cannot be negative"
     = once (e.(reportedHours) <? 0)
  /\ n "regularHours" "regularHours cannot be negative"
     = once (e.(regularHours) <? 0)
  /\ n "overtimeHours" "overtimeHours cannot be negative"
     = once (e.(overtimeHours) <? 0)
  /\ n "holidayHours" "holidayHours cannot be negative"
     = once (e.(holidayHours) <? 0)
  /\ n "leaveHours" "leaveHours cannot be negative"
     = once (e.(leaveHours) <? 0)
  /\ n "totalHours" "totalHours cannot be negative"
     = once (e.(totalHours) <? 0)
  /\ count (on_row (i + 1)
              (is_finding "scheduleHours"
                 "Schedule hours over 80 seems unusually high for a period"))
           (warnings result)
     = once (80 <? e.(scheduleHours)).
Proof.
  intros result n. unfold n, result, once.
  repeat split.
  - row_errors e. rewrite ?if_same. now destruct (scheduleHours e <? 0).
  - row_errors e. rewrite ?if_same. now destruct (reportedHours e <? 0).
  - row_errors e. rewrite ?if_same. now destruct (regularHours e <? 0).
  - row_errors e. rewrite ?if_same. now destruct (overtimeHours e <? 0).
  - row_errors e. rewrite ?if_same. now destruct (holidayHours e <? 0).
  - row_errors e. rewrite ?if_same. now destruct (leaveHours e <? 0).
  - row_errors e. rewrite ?if_same. now destruct (totalHours e <? 0).
  - row_warnings e. rewrite ?if_same. now destruct (80 <? scheduleHours e).
Qed.

(** X9.  Status against hours.  For the record of row [i + 1]: status Approved or
    Partially Approved without any positive hours gets the one "Approved
    timesheet should have hours recorded" warning; Needs Approval or Partially
    Submitted without any positive hours gets the one "Submitted timesheet should
    have hours recorded" warning; Not Submitted with some positive hours gets
    the one "Not submitted timesheet has hours recorded" warning; in every
    other case the warning is not pushed. *)
Theorem X9_status_against_hours
  (entries : list TimesheetEntry) (i : nat) (e : TimesheetEntry)
  (Hi : entries !! i = Some e) :
  let result := validateTimesheet clock entries in
  let n msg :=
    count (on_row (i + 1) (is_finding "timesheetStatus" msg)) (warnings result) in
  let status := e.(timesheetStatus) in
  let approved :=
    String.eqb status "Approved" || String.eqb status "Partially Approved" in
  let submitted :=
    String.eqb status "Needs Approval" || String.eqb status "Partially Submitted" in
  n "Approved timesheet should have hours recorded"
    = once (approved && negb (hasHours e))
  /\ n "Submitted timesheet should have hours recorded"
     = once (submitted && negb (hasHours e))
  /\ n "Not submitted timesheet has hours recorded - status may be incorrect"
     = once (String.eqb status "Not Submitted" && hasHours e).
Proof.
  intros result n status approved submitted.
  unfold n, result, approved, submitted, once, hasHours.
  repeat split.
  - row_warnings e. rewrite ?if_same. fold status.
    destruct (String.eqb status "Approved"),
      (String.eqb status "Partially Approved"); cbn [orb andb];
      try (now destruct (_ || _)); rewrite ?if_same; reflexivity.
  - row_warnings e. rewrite ?if_same. fold status.
    destruct (String.eqb_spec status "Approved") as [Hs|];
      [rewrite Hs; reflexivity|].
    destruct (String.eqb_spec status "Partially Approved") as [Hs|];
      [rewrite Hs; reflexivity|].
    destruct (String.eqb_spec status "Not Submitted") as [Hs|];
      [rewrite Hs; reflexivity|].
    destruct (String.eqb_spec status "Absence/Holiday") as [Hs|];
      [rewrite Hs; reflexivity|].
    cbn [orb].
    destruct (String.eqb status "Needs Approval" || String.eqb status "Partially Submitted");
      cbn [andb]; [now destruct (_ || _) | reflexivity].
  - row_warnings e. rewrite ?if_same. fold status.
    destruct (String.eqb_spec status "Approved") as [Hs|];
      [rewrite Hs; reflexivity|].
    destruct (String.eqb_spec status "Partially Approved") as [Hs|];
      [rewrite Hs; reflexivity|].
    cbn [orb].
    destruct (String.eqb status "Not Submitted"); cbn [andb];
      [now destruct (_ || _) | ].
    rewrite ?if_same. reflexivity.
Qed.

(** X10.  Reported hours against the breakdown.  For the record of row [i + 1]:
    positive reported hours with a breakdown sum of zero get the one "no
    breakdown" warning, reported hours of zero with a positive breakdown sum get
    the one "reported hours is zero" warning, and no record gets both. *)
Theorem X10_reported_against_breakdown
  (entries : list TimesheetEntry) (i : nat) (e : TimesheetEntry)
  (Hi : entries !! i = Some e) :
  let result := validateTimesheet clock entries in
  let n msg :=
    count (on_row (i + 1) (is_finding "reportedHours" msg)) (warnings result) in
  let no_breakdown :=
    n "Reported hours exist but no breakdown provided (regular, overtime, holiday, leave)" in
  let no_reported := n "Hour breakdown provided but reported hours is zero" in
  no_breakdown = once ((0 <? e.(reportedHours)) && (calculatedTotal e =? 0))
  /\ no_reported = once ((e.(reportedHours) =? 0) && (0 <? calculatedTotal e))
  /\ (no_breakdown + no_reported <= 1)%nat.
Proof.
  intros result n no_breakdown no_reported.
  assert (H1 : no_breakdown
               = once ((0 <? e.(reportedHours)) && (calculatedTotal e =? 0))).
  { unfold no_breakdown, n, result, once, calculatedTotal. row_warnings e.
    rewrite ?if_same. now destruct (_ && _). }
  assert (H2 : no_reported
               = once ((e.(reportedHours) =? 0) && (0 <? calculatedTotal e))).
  { unfold no_reported, n, result, once, calculatedTotal. row_warnings e.
    rewrite ?if_same. now destruct (_ && _). }
  split; [assumption|]. split; [assumption|].
  rewrite H1, H2. unfold once.
  destruct (reportedHours e =? 0) eqn:Hz.
  - apply NumberFacts.eqb_not_ltb in Hz. destruct Hz as [Hz _]. rewrite Hz.
    cbn [andb]. destruct (0 <? calculatedTotal e); simpl; lia.
  - cbn [andb]. destruct (_ && _); simpl; lia.
Qed.

Section FixedClock.
Variable p : ValidationError -> bool.

Lemma emitsW_new_Date_at k n now :
  (forall r, clock r = now) -> (forall d, framed (k d)) ->
  emitsW p (k now) n -> emitsW p (new_Date clock k) n.
Proof.
  intros Hc Hf [_ Hk]. split; [now apply framed_new_Date|].
  intros r. unfold countW. rewrite run_new_Date, Hc. apply Hk.
Qed.

End FixedClock.

Ltac emitsW_fixed :=
  repeat lazymatch goal with
  | |- emitsW _ (seq _ _) _ => eapply emitsW_seq
  | |- emitsW _ (when _ _) _ => eapply emitsW_when
  | |- emitsW _ (if _ then _ else _) _ => eapply emitsW_if
  | |- emitsW _ skip _ => apply emitsW_skip
  | |- emitsW _ (new_Date _ _) _ =>
      eapply emitsW_new_Date_at; [eassumption | intro; solve [framed_tac] | ]
  | |- emitsW _ (warnings_push _) _ =>
      first [ apply emitsW_warnings_push_1; reflexivity
            | apply emitsW_warnings_push_0; reflexivity ]
  | |- emitsW _ (errors_push _) _ => apply emitsW_errors_push
  end.

Ltac emitsW_fixed_spine :=
  lazymatch goal with
  | |- emitsW _ (seq _ _) _ =>
      first [ eapply (emitsW_seq _ _ _ 0 _); [ solve [emitsW_zero] | ]
            | eapply emitsW_seq; [ solve [emitsW_fixed] | ] ];
      emitsW_fixed_spine
  | |- _ => first [ solve [emitsW_zero] | solve [emitsW_fixed] ]
  end.

(** X11.  The warnings that read the clock, when every reading gives the same time
    [now].  For the record of row [i + 1] with both dates present and
    parseable: the "Start date is in the future" warning is pushed once exactly
    when [now] is before the start date, and the "End date is more than 1 year
    ago" warning once exactly when the end date is before [now] moved back one
    calendar year.  With a date missing or unparseable neither is pushed. *)
Theorem X11_clock_warnings (now : number) (Hnow : forall n, clock n = now)
  (entries : list TimesheetEntry) (i : nat) (e : TimesheetEntry)
  (Hi : entries !! i = Some e) :
  let result := validateTimesheet clock entries in
  let n name msg :=
    count (on_row (i + 1) (is_finding name msg)) (warnings result) in
  let present := truthy_str e.(startDate) && truthy_str e.(endDate) in
  let startDate := Date_parse e.(startDate) in
  let endDate := Date_parse e.(endDate) in
  let checked := present && negb (isNaN startDate) && negb (isNaN endDate) in
  let yearAgo := Date_setFullYear now (Date_getFullYear now - 1) in
  n "startDate" "Start date is in the future" = once (checked && (now <? startDate))
  /\ n "endDate" "End date is more than 1 year ago"
     = once (checked && (endDate <? yearAgo)).
Proof.
  intros result n present sd ed checked yearAgo.
  unfold n, result, checked, present, once. split.
  - apply count_row_warnings with (entry := e); [assumption|].
    eapply emitsW_eq; [open_entry; emitsW_fixed_spine|]. cbn [Nat.add].
    rewrite ?if_same. fold sd ed.
    destruct (truthy_str (startDate e)), (truthy_str (endDate e)),
      (isNaN sd), (isNaN ed), (now <? sd); reflexivity.
  - apply count_row_warnings with (entry := e); [assumption|].
    eapply emitsW_eq; [open_entry; emitsW_fixed_spine|]. cbn [Nat.add].
    rewrite ?if_same. fold sd ed. fold yearAgo.
    destruct (truthy_str (startDate e)), (truthy_str (endDate e)),
      (isNaN sd), (isNaN ed), (ed <? yearAgo); reflexivity.
Qed.

End RuleExtras.

(** * Further properties of the table: findings by row *)

Section RowExtras.
Import Validator Frame FrameFacts Batch ValidatorRules ValidatorFacts Js TableView.
Import ShiftFacts RowFacts.
Local Open Scope action_scope.
Context `{JsRuntime}.
Variable clock : Clock.

Lemma validateTimesheet_single (e : TimesheetEntry) :
  errors (validateTimesheet clock [e]) = st_errors (run (validateEntry clock e 0) 0)
  /\ warnings (validateTimesheet clock [e])
     = st_warnings (run (validateEntry clock e 0) 0).
Proof.
  rewrite validateTimesheet_errors, validateTimesheet_warnings.
  cbn [forEach_from]. rewrite run_seq by apply framed_skip.
  cbn [st_errors st_warnings]. unfold run at 2 4. unfold skip.
  cbn [st_errors st_warnings]. now rewrite !app_nil_r.
Qed.

(** With a clock that stands still, the findings of one row are those the loop
    body pushes for its record. *)
Lemma row_of_batch (now : number) (Hnow : forall n, clock n = now)
  (entries : list TimesheetEntry) (index : nat) (e : TimesheetEntry)
  (Hi : entries !! index = Some e) :
  getRowErrors (errors (validateTimesheet clock entries)) index
  = st_errors (run (validateEntry clock e index) 0)
  /\ getRowWarnings (warnings (validateTimesheet clock entries)) index
     = st_warnings (run (validateEntry clock e index) 0).
Proof.
  unfold getRowErrors, getRowWarnings.
  rewrite validateTimesheet_errors, validateTimesheet_warnings.
  destruct (forEach_from_row (validateEntry clock) (validateEntry_row clock)
              entries 0 index e 0 Hi) as [HE HW].
  cbv zeta in HE, HW. cbn [Nat.add] in HE, HW. rewrite HE, HW.
  destruct (validateEntry_steady clock now e index Hnow) as [_ Hst].
  apply Hst.
Qed.

(** X12.  Each row is checked on its own.  With a clock that stands still,
    the errors and the warnings the table shows for the record at [index] are
    those of validating that record alone, renumbered to its row. *)
Theorem X12_row_findings_are_those_of_the_record_alone
  (now : number) (Hnow : forall n, clock n = now)
  (entries : list TimesheetEntry) (index : nat) (e : TimesheetEntry)
  (Hi : entries !! index = Some e) :
  let result := validateTimesheet clock entries in
  let alone := validateTimesheet clock [e] in
  getRowErrors (errors result) index = map (shift_row index) (errors alone)
  /\ getRowWarnings (warnings result) index
     = map (shift_row index) (warnings alone).
Proof.
  intros result alone. unfold result, alone.
  destruct (row_of_batch now Hnow entries index e Hi) as [-> ->].
  destruct (validateTimesheet_single e) as [-> ->].
  destruct (validateEntry_shifted clock index e 0) as (_ & _ & Hs).
  rewrite Nat.add_0_r in Hs.
  destruct (Hs 0) as (-> & -> & _). split; reflexivity.
Qed.

(** X13.  The rows of the table share out the findings: going through the rows
    of a table as long as the validated batch, [getRowErrors] returns every
    error exactly once and in the order of [errors], and [getRowWarnings] does
    the same for [warnings]. *)
Theorem X13_rows_share_out_the_findings (entries : list TimesheetEntry) :
  let result := validateTimesheet clock entries in
  let indices := List.seq 0 (length entries) in
  concat (map (getRowErrors (errors result)) indices) = errors result
  /\ concat (map (getRowWarnings (warnings result)) indices) = warnings result.
Proof.
  intros result indices. unfold result, indices.
  rewrite validateTimesheet_errors, validateTimesheet_warnings.
  destruct (forEach_from_rows (validateEntry clock) (validateEntry_row clock)
              entries 0 0) as [[BE SE] [BW SW]].
  split; apply (concat_rows (length entries) 0); assumption.
Qed.

End RowExtras.

(** ** The rules at sample records *)

Section RuleSamples.
Import Validator Frame ValidatorRules Findings Js Rules Batch TableView.
#[local] Existing Instance RefRuntime_runtime.

(** X5 at a sample: a row with nothing filled in, second in its batch, gets
    the one "Employee ID is required" error on row 2. *)
Lemma X5_witness :
  [Samples.scenarioA; MoreSamples.blank] !! 1%nat = Some MoreSamples.blank
  /\ count (on_row 2 (is_finding "employeeId" "Employee ID is required"))
       (errors (validateTimesheet Samples.clock
                  [Samples.scenarioA; MoreSamples.blank]))
     = 1%nat.
Proof.
  split; [reflexivity|].
  exact (proj1 (proj1 (X5_required_fields Samples.clock
                         [Samples.scenarioA; MoreSamples.blank] 1%nat
                         MoreSamples.blank eq_refl))).
Defined.

(** X6 at a sample: status "On hold" is not empty and not known; its row gets
    no error and the one "Unknown status" warning on the status field. *)
Lemma X6_witness :
  [MoreSamples.on_hold] !! 0%nat = Some MoreSamples.on_hold
  /\ String.eqb (timesheetStatus MoreSamples.on_hold) "" = false
  /\ includes validStatuses (timesheetStatus MoreSamples.on_hold) = false
  /\ count (on_row 1 (on_field "timesheetStatus"))
       (errors (validateTimesheet Samples.clock [MoreSamples.on_hold])) = 0%nat
  /\ count (on_row 1 (on_field "timesheetStatus"))
       (warnings (validateTimesheet Samples.clock [MoreSamples.on_hold])) = 1%nat
  /\ count (on_row 1 is_unknown_status)
       (warnings (validateTimesheet Samples.clock [MoreSamples.on_hold])) = 1%nat.
Proof.
  split; [reflexivity|]. split; [reflexivity|]. split; [reflexivity|].
  exact (proj1 (proj2 (X6_status_checks Samples.clock [MoreSamples.on_hold]
                         0%nat MoreSamples.on_hold eq_refl))
           eq_refl eq_refl).
Defined.

(** X7 at a sample: a period that ends before it starts gets the one "End date
    must be after start date" error. *)
Lemma X7_witness :
  [MoreSamples.period "2025-05-12" "2025-05-05"] !! 0%nat
  = Some (MoreSamples.period "2025-05-12" "2025-05-05")
  /\ count (on_row 1 (is_finding "endDate" "End date must be after start date"))
       (errors (validateTimesheet Samples.clock
                  [MoreSamples.period "2025-05-12" "2025-05-05"]))
     = 1%nat.
Proof.
  split; [reflexivity|].
  exact (proj2 (proj2 (X7_date_errors Samples.clock
                         [MoreSamples.period "2025-05-12" "2025-05-05"] 0%nat
                         (MoreSamples.period "2025-05-12" "2025-05-05")
                         eq_refl))).
Defined.

(** X8 at a sample: schedule hours of -1 get the one "Schedule hours cannot be
    negative" error. *)
Lemma X8_witness :
  [MoreSamples.scheduled (-1)] !! 0%nat = Some (MoreSamples.scheduled (-1))
  /\ count (on_row 1 (is_finding "scheduleHours"
                        "Schedule hours cannot be negative"))
       (errors (validateTimesheet Samples.clock [MoreSamples.scheduled (-1)]))
     = 1%nat.
Proof.
  split; [reflexivity|].
  exact (proj1 (X8_hour_bounds Samples.clock [MoreSamples.scheduled (-1)]
                  0%nat (MoreSamples.scheduled (-1)) eq_refl)).
Defined.

(** X9 at a sample: a week of 40 hours that is "Not Submitted" gets the one
    "Not submitted timesheet has hours recorded" warning. *)
Lemma X9_witness :
  [MoreSamples.not_submitted] !! 0%nat = Some MoreSamples.not_submitted
  /\ count (on_row 1
              (is_finding "timesheetStatus"
                 "Not submitted timesheet has hours recorded - status may be incorrect"))
       (warnings (validateTimesheet Samples.clock [MoreSamples.not_submitted]))
     = 1%nat.
Proof.
  split; [reflexivity|].
  exact (proj2 (proj2 (X9_status_against_hours Samples.clock
                         [MoreSamples.not_submitted] 0%nat
                         MoreSamples.not_submitted eq_refl))).
Defined.

(** X10 at a sample: 50 reported hours without any breakdown get the one "no
    breakdown" warning. *)
Lemma X10_witness :
  [Samples.no_breakdown] !! 0%nat = Some Samples.no_breakdown
  /\ count (on_row 1
              (is_finding "reportedHours"
                 "Reported hours exist but no breakdown provided (regular, overtime, holiday, leave)"))
       (warnings (validateTimesheet Samples.clock [Samples.no_breakdown]))
     = 1%nat.
Proof.
  split; [reflexivity|].
  exact (proj1 (X10_reported_against_breakdown Samples.clock
                  [Samples.no_breakdown] 0%nat Samples.no_breakdown eq_refl)).
Defined.

(** X11 at a sample: with the clock standing at 2025-06-01, a week that starts
    on 2025-07-01 gets the one "Start date is in the future" warning. *)
Lemma X11_witness :
  (forall n, Samples.clock n = RefRuntime.Date_parse "2025-06-01")
  /\ [MoreSamples.period "2025-07-01" "2025-07-08"] !! 0%nat
     = Some (MoreSamples.period "2025-07-01" "2025-07-08")
  /\ count (on_row 1 (is_finding "startDate" "Start date is in the future"))
       (warnings (validateTimesheet Samples.clock
                    [MoreSamples.period "2025-07-01" "2025-07-08"]))
     = 1%nat.
Proof.
  split; [intros n; reflexivity|]. split; [reflexivity|].
  exact (proj1 (X11_clock_warnings Samples.clock
                  (RefRuntime.Date_parse "2025-06-01") (fun _ => eq_refl)
                  [MoreSamples.period "2025-07-01" "2025-07-08"] 0%nat
                  (MoreSamples.period "2025-07-01" "2025-07-08") eq_refl)).
Defined.

(** X12 at a sample: in a batch of scenario A and scenario E, the errors of
    row 2 are those of scenario E validated alone, renumbered. *)
Lemma X12_witness :
  (forall n, Samples.clock n = RefRuntime.Date_parse "2025-06-01")
  /\ [Samples.scenarioA; Samples.scenarioE] !! 1%nat = Some Samples.scenarioE
  /\ getRowErrors
       (errors (validateTimesheet Samples.clock
                  [Samples.scenarioA; Samples.scenarioE])) 1
     = map (shift_row 1)
           (errors (validateTimesheet Samples.clock [Samples.scenarioE])).
Proof.
  split; [intros n; reflexivity|]. split; [reflexivity|].
  exact (proj1 (X12_row_findings_are_those_of_the_record_alone Samples.clock
                  (RefRuntime.Date_parse "2025-06-01") (fun _ => eq_refl)
                  [Samples.scenarioA; Samples.scenarioE] 1%nat
                  Samples.scenarioE eq_refl)).
Defined.

End RuleSamples.

(** * Further properties of the table: sorting *)

Section SortExtras.
Import TimesheetTable TableView SortFacts.

(** X14.  Sorting the table loses no record and invents none: the sorted copy
    is a rearrangement of the entries, whatever the column and the
    direction. *)
Theorem X14_sortedEntries_rearranges (k : Key) (d : Direction)
  (entries : list TimesheetEntry) :
  Permutation (sortedEntries k d entries) entries
  /\ length (sortedEntries k d entries) = length entries.
Proof.
  assert (P : Permutation (sortedEntries k d entries) entries)
    by apply sort_Permutation.
  split; [assumption | now apply Permutation_length].
Qed.

(** X15.  The sorted copy is in order.  When no entry has [NaN] in the sort
    column: ascending, no record is followed (anywhere later) by one with a
    smaller key; descending, none is followed by one with a greater key. *)
Theorem X15_sortedEntries_in_order (k : Key) (entries : list TimesheetEntry)
  (Hkeys : Forall (fun e => sortable k e = true) entries) :
  StronglySorted (fun a b => field_lt k b a = false) (sortedEntries k asc entries)
  /\ StronglySorted (fun a b => field_lt k a b = false)
                    (sortedEntries k desc entries).
Proof.
  split.
  - eapply StronglySorted_impl; [intros a b; apply compareEntries_asc|].
    apply (sort_StronglySorted _ (fun e => sortable k e = true)); [| |assumption].
    + apply compareEntries_total.
    + apply compareEntries_trans.
  - eapply StronglySorted_impl; [intros a b; apply compareEntries_desc|].
    apply (sort_StronglySorted _ (fun e => sortable k e = true)); [| |assumption].
    + apply compareEntries_total.
    + apply compareEntries_trans.
Qed.

(** X16.  Sorting is stable.  When no entry has [NaN] in the sort column,
    records that the sort column does not tell apart stay in the order they
    had. *)
Theorem X16_sortedEntries_stable (k : Key) (d : Direction)
  (P : TimesheetEntry -> bool) (entries : list TimesheetEntry)
  (Hkeys : Forall (fun e => sortable k e = true) entries)
  (Hsame : forall a b, P a = true -> P b = true -> field_lt k a b = false) :
  List.filter P (sortedEntries k d entries) = List.filter P entries.
Proof.
  apply sort_filter. intros a b Pa Pb.
  destruct d; [apply compareEntries_asc | apply compareEntries_desc]; auto.
Qed.

(** X15 at a sample: three weeks sorted by total hours, ascending. *)
Lemma X15_witness :
  Forall (fun e => sortable k_totalHours e = true) MoreSamples.three_weeks
  /\ StronglySorted (fun a b => field_lt k_totalHours b a = false)
       (sortedEntries k_totalHours asc MoreSamples.three_weeks).
Proof.
  split; [repeat constructor|].
  exact (proj1 (X15_sortedEntries_in_order k_totalHours MoreSamples.three_weeks
                  ltac:(repeat constructor))).
Defined.

(** X16 at a sample: sorted by employee, the two weeks of E200 keep their
    order. *)
Lemma X16_witness :
  Forall (fun e => sortable k_employeeId e = true) MoreSamples.three_weeks
  /\ List.filter (fun e => String.eqb e.(employeeId) "E200")
       (sortedEntries k_employeeId asc MoreSamples.three_weeks)
     = List.filter (fun e => String.eqb e.(employeeId) "E200")
         MoreSamples.three_weeks.
Proof.
  split; [repeat constructor|].
  apply (X16_sortedEntries_stable k_employeeId asc
           (fun e => String.eqb e.(employeeId) "E200") MoreSamples.three_weeks).
  - repeat constructor.
  - intros a b Ha Hb. apply String.eqb_eq in Ha, Hb. cbn [field_lt].
    rewrite Ha, Hb. reflexivity.
Defined.

End SortExtras.

(** * Further properties of the bulk panel and of the application *)

Section BulkExtras.
Import Js JsArray BulkOperations IdFacts App BulkFacts TableView.
Import Validator Frame FrameFacts Batch ValidatorRules ValidatorFacts.
Import ErrorFacts.

(** X17.  The identifiers the bulk panel gives the records are all different,
    even when two records carry the same employee id: an identifier determines
    the position of its record. *)
Theorem X17_entry_ids_are_unique (entries : list TimesheetEntry) :
  NoDup (allIds entries)
  /\ forall i j e e',
       entries !! i = Some e -> entries !! j = Some e' ->
       entryId e i = entryId e' j -> i = j.
Proof.
  split; [apply allIds_NoDup|].
  intros i j e e' _ _ E. now apply (entryId_inj e e' i j).
Qed.

(** X18.  A bulk status update reaches the records it was asked for and no
    other.  Given the identifiers of the records at some positions, the updated
    list is as long as before, has the new status at exactly these positions,
    and every other field, and every other record, as before. *)
Theorem X18_bulk_update_reaches_the_selected_positions
  (entries : list TimesheetEntry) (positions : list nat) (newStatus : string)
  (j : nat) (e : TimesheetEntry) (Hj : entries !! j = Some e) :
  let updated := updatedEntries (idsAt entries positions) newStatus entries in
  length updated = length entries
  /\ updated !! j
     = Some (if bool_decide (j ∈ positions) then with_status newStatus e else e).
Proof.
  intros updated. unfold updated, updatedEntries.
  split; [apply length_imap|].
  rewrite list_lookup_imap, Hj. cbn [fmap option_fmap option_map]. f_equal.
  cbv zeta.
  destruct (includes (idsAt entries positions) (entryId e j)) eqn:Hin.
  - apply includes_elem_of, (elem_of_idsAt _ _ _ _ Hj) in Hin.
    now rewrite bool_decide_eq_true_2.
  - rewrite bool_decide_eq_false_2; [reflexivity|].
    intros Hpos. apply (elem_of_idsAt _ _ _ _ Hj), includes_elem_of in Hpos.
    congruence.
Qed.

(** X19.  Revalidation after a bulk status update.  The new [validation] is
    that of the updated entries, and a record that was not selected keeps the
    errors of its row; it keeps its warnings too when the clock stands at the
    same time in both validations. *)
Theorem X19_revalidation_keeps_the_other_rows `{JsRuntime}
  (c1 c2 : Clock) (selectedIds : list string) (newStatus : string)
  (st : State) (j : nat) (e : TimesheetEntry)
  (Hj : entries st !! j = Some e)
  (Hsel : includes selectedIds (entryId e j) = false) :
  let before := validateTimesheet c1 (entries st) in
  let st' := handleBulkStatusUpdate c2 selectedIds newStatus st in
  let after := validateTimesheet c2 (entries st') in
  validation st' = Some after
  /\ getRowErrors (errors after) j = getRowErrors (errors before) j
  /\ forall now, (forall n, c1 n = now) -> (forall n, c2 n = now) ->
     getRowWarnings (warnings after) j = getRowWarnings (warnings before) j.
Proof.
  intros before st' after. unfold after, before, st'.
  cbn [handleBulkStatusUpdate entries validation].
  set (updated := updatedEntries selectedIds newStatus (entries st)).
  assert (Hupd : updated !! j = Some e).
  { unfold updated, updatedEntries. rewrite list_lookup_imap, Hj.
    cbn [fmap option_fmap option_map]. cbv zeta. now rewrite Hsel. }
  split; [reflexivity|]. split.
  - set (c0 := (fun _ : nat => 0%float) : Clock).
    assert (Hc : forall c l, errors (validateTimesheet c l)
                             = errors (validateTimesheet c0 l)).
    { intros c l. rewrite !validateTimesheet_errors.
      apply (forEach_from_errs_same c c0 l 0). }
    rewrite (Hc c2), (Hc c1).
    destruct (row_of_batch c0 0%float (fun _ => eq_refl) updated j e Hupd)
      as [-> _].
    destruct (row_of_batch c0 0%float (fun _ => eq_refl) (entries st) j e Hj)
      as [-> _].
    reflexivity.
  - intros now H1 H2.
    destruct (row_of_batch c2 now H2 updated j e Hupd) as [_ ->].
    destruct (row_of_batch c1 now H1 (entries st) j e Hj) as [_ ->].
    destruct (validateEntry_same c1 c2 e j) as (_ & _ & Hsame).
    rewrite (Hsame 0%nat); [reflexivity | |]; now rewrite H1, H2.
Qed.

(** X20.  Select all.  From an empty selection [toggleSelectAll] selects every
    record; if there is a record at all, the panel then counts as "all
    selected" and a second [toggleSelectAll] empties the selection again. *)
Theorem X20_select_all_and_back (entries : list TimesheetEntry) :
  let all := toggleSelectAll entries ∅ in
  getSelectedEntries entries all = entries
  /\ (entries <> [] ->
      isAllSelected entries all = true /\ toggleSelectAll entries all = ∅).
Proof.
  intros all.
  assert (Hall : all = list_to_set (allIds entries)).
  { unfold all, toggleSelectAll, isAllSelected. now rewrite size_empty. }
  split.
  - unfold getSelectedEntries. apply filter_from_all. intros i x Hx.
    apply bool_decide_eq_true_2. rewrite Hall, elem_of_list_to_set.
    unfold allIds. cbn [Nat.add].
    apply (elem_of_lookup_imap_2 (fun index entry => entryId entry index)).
    assumption.
  - intros Hne.
    assert (Hsize : size all = length entries).
    { rewrite Hall, size_list_to_set by apply allIds_NoDup.
      unfold allIds. apply length_imap. }
    assert (Hyes : isAllSelected entries all = true).
    { unfold isAllSelected. rewrite Hsize, Nat.eqb_refl, andb_true_r.
      destruct entries; [contradiction | reflexivity]. }
    split; [assumption|]. unfold toggleSelectAll. now rewrite Hyes.
Qed.

(** X30.  Ticking one row of the bulk panel.  [toggleSelectEntry] with the
    identifier of a row flips whether that row is selected, leaves every row
    at another position as it was (also a row of the same employee), and a
    second tick restores the selection. *)
Theorem X30_ticking_a_row_flips_that_row_alone
  (selectedIds : gset string) (entry : TimesheetEntry) (index : nat) :
  let id := entryId entry index in
  let toggled := toggleSelectEntry selectedIds id in
  (id ∈ toggled <-> id ∉ selectedIds)
  /\ (forall other j, j <> index ->
        (entryId other j ∈ toggled <-> entryId other j ∈ selectedIds))
  /\ toggleSelectEntry toggled id = selectedIds.
Proof.
  intros id toggled.
  assert (Hother : forall other j, j <> index -> entryId other j <> id).
  { intros other j Hj E. apply entryId_inj in E. now destruct E. }
  unfold toggled, toggleSelectEntry. cbv zeta.
  destruct (decide (id ∈ selectedIds)) as [Hin | Hout].
  - rewrite (bool_decide_eq_true_2 _ Hin).
    assert (Hgone : id ∉ selectedIds ∖ {[id]})
      by (rewrite elem_of_difference, elem_of_singleton; tauto).
    rewrite (bool_decide_eq_false_2 _ Hgone).
    split; [tauto|]. split.
    + intros other j Hj. specialize (Hother other j Hj).
      rewrite elem_of_difference, elem_of_singleton. tauto.
    + apply set_eq. intros x.
      rewrite elem_of_union, elem_of_difference, elem_of_singleton.
      destruct (decide (x = id)) as [-> | Hx]; tauto.
  - rewrite (bool_decide_eq_false_2 _ Hout).
    assert (Hthere : id ∈ selectedIds ∪ {[id]})
      by (rewrite elem_of_union, elem_of_singleton; tauto).
    rewrite (bool_decide_eq_true_2 _ Hthere).
    split; [tauto|]. split.
    + intros other j Hj. specialize (Hother other j Hj).
      rewrite elem_of_union, elem_of_singleton. tauto.
    + apply set_eq. intros x.
      rewrite elem_of_difference, elem_of_union, elem_of_singleton.
      split; [tauto|]. intros Hx. split; [tauto|]. now intros ->.
Qed.

End BulkExtras.

Section BulkSamples.
Import Js JsArray BulkOperations App TableView ValidatorRules.
#[local] Existing Instance RefRuntime_runtime.

(** X17 at a sample: the three weeks, two of them of E200, get three different
    identifiers. *)
Lemma X17_witness : NoDup (allIds MoreSamples.three_weeks).
Proof. exact (proj1 (X17_entry_ids_are_unique MoreSamples.three_weeks)). Defined.

(** X18 at a sample: asked for the first week of E200 only, the update leaves
    the other week of E200 (position 2) as it was. *)
Lemma X18_witness :
  MoreSamples.three_weeks !! 2%nat = Some (MoreSamples.week_of "E200" 24)
  /\ updatedEntries (idsAt MoreSamples.three_weeks [0%nat]) "Needs Approval"
       MoreSamples.three_weeks !! 2%nat
     = Some (MoreSamples.week_of "E200" 24).
Proof.
  split; [reflexivity|].
  exact (proj2 (X18_bulk_update_reaches_the_selected_positions
                  MoreSamples.three_weeks [0%nat] "Needs Approval" 2%nat
                  (MoreSamples.week_of "E200" 24) eq_refl)).
Defined.

(** X19 at a sample: after the first week was set to "Needs Approval", the
    second row shows the errors it showed before. *)
Lemma X19_witness :
  entries MoreSamples.loaded !! 1%nat = Some (MoreSamples.week_of "E100" 32)
  /\ includes (idsAt MoreSamples.three_weeks [0%nat])
       (entryId (MoreSamples.week_of "E100" 32) 1) = false
  /\ getRowErrors
       (errors (validateTimesheet Samples.clock
                  (entries (handleBulkStatusUpdate Samples.clock
                              (idsAt MoreSamples.three_weeks [0%nat])
                              "Needs Approval" MoreSamples.loaded)))) 1
     = getRowErrors
         (errors (validateTimesheet Samples.clock (entries MoreSamples.loaded))) 1.
Proof.
  split; [reflexivity|]. split; [reflexivity|].
  exact (proj1 (proj2 (X19_revalidation_keeps_the_other_rows
                         Samples.clock Samples.clock
                         (idsAt MoreSamples.three_weeks [0%nat])
                         "Needs Approval" MoreSamples.loaded 1%nat
                         (MoreSamples.week_of "E100" 32) eq_refl eq_refl))).
Defined.

(** X20 at a sample: with three weeks in the table, "select all" selects all
    three. *)
Lemma X20_witness :
  MoreSamples.three_weeks <> []
  /\ isAllSelected MoreSamples.three_weeks
       (toggleSelectAll MoreSamples.three_weeks ∅) = true.
Proof.
  split; [discriminate|].
  exact (proj1 (proj2 (X20_select_all_and_back MoreSamples.three_weeks)
                  ltac:(discriminate))).
Defined.

End BulkSamples.

(** * Further properties of the normalizer *)

Section ParserExtras.
Import Js CsvParser Columns JsObject ParserFacts.
Context `{JsRuntime}.

(** X21.  Header normalization settles at once.  For a header whose normalised
    spelling is not a property name inherited by [headerMap]: the result is one
    of the eleven field names or the header itself, and normalising the result
    again changes nothing. *)
Theorem X21_transformHeader_settles (header : string)
  (Hown : includes inherited_names (trim (toLowerCase header)) = false) :
  (In (transformHeader header) canonical \/ transformHeader header = header)
  /\ transformHeader (transformHeader header) = transformHeader header.
Proof.
  destruct (headerMap_get headerMap (trim (toLowerCase header))) as [c|] eqn:E.
  - pose proof (headerMap_canonical _ _ E) as Hc.
    assert (Ht : truthy_str c = true).
    { revert Hc. unfold canonical. simpl.
      intros [<-|[<-|[<-|[<-|[<-|[<-|[<-|[<-|[<-|[<-|[<-|[]]]]]]]]]]]];
        reflexivity. }
    assert (Hres : transformHeader header = c).
    { unfold transformHeader. now rewrite E, Ht. }
    rewrite Hres. split; [now left | now apply transformHeader_canonical].
  - assert (Hres : transformHeader header = header).
    { unfold transformHeader. now rewrite E. }
    rewrite !Hres. split; [now right | reflexivity].
Qed.

(** X22.  Cell normalization settles at once: a cell text that [transform]
    returned is returned unchanged when transformed again for the same
    field. *)
Theorem X22_transform_settles `{!ParseFloatLaws} (value field : string) :
  transform (transform value field) field = transform value field.
Proof.
  unfold transform. cbv zeta.
  destruct (includes numericFields field); [|now rewrite trim_idem].
  assert (Hzero : (if negb (truthy_str "0") || String.eqb (trim "0") ""
                   then "0"
                   else if isNaN (parseFloat "0") then "0" else trim "0") = "0").
  { rewrite parseFloat_zero. reflexivity. }
  destruct (negb (truthy_str value) || String.eqb (trim value) "") eqn:Hblank;
    [exact Hzero|].
  destruct (isNaN (parseFloat value)) eqn:Hnan; [exact Hzero|].
  apply orb_false_elim in Hblank. destruct Hblank as [_ Hne].
  rewrite trim_idem, Hne, parseFloat_trim, Hnan.
  unfold truthy_str. rewrite Hne. reflexivity.
Qed.

(** X23.  Hour buckets are always numbers.  When [parseCSV] resolves, every
    record holds under each of the seven numeric fields a number that is
    neither [NaN] nor a negative zero, whatever the file held (or did not hold)
    in that column. *)
Theorem X23_parsed_hours_are_numbers `{CsvReader} (file : string)
  (records : list (gmap string Value))
  (Hparsed : parseCSV file = Resolved records) :
  Forall (fun record =>
            Forall (fun field =>
                      exists x : number,
                        record !! field = Some (VNum x)
                        /\ PrimFloat.is_nan x = false
                        /\ (PrimFloat.is_zero x = true -> x = 0%float))
                   numericFields)
         records.
Proof.
  unfold parseCSV in Hparsed.
  destruct (Papa_parse file transformHeader transform) as [result|err];
    [|discriminate].
  unfold complete in Hparsed. destruct (Papa.errors result); [|discriminate].
  injection Hparsed as <-. apply List.Forall_forall. intros record Hin.
  apply in_map_iff in Hin. destruct Hin as (entry & <- & _).
  apply List.Forall_forall. intros field Hf.
  exists (or0 (parseFloat_prop entry field)).
  split; [now apply lookup_processEntry_numeric|].
  unfold or0, truthy_num.
  destruct (PrimFloat.is_nan (parseFloat_prop entry field)) eqn:Hn;
    [split; reflexivity|].
  destruct (PrimFloat.is_zero (parseFloat_prop entry field)) eqn:Hz;
    cbn [orb negb]; [split; reflexivity|].
  split; [assumption | congruence].
Qed.

(** X24.  A column the file does not have.  On a runtime that reads no number
    from the text "undefined" (as [parseFloat(undefined)] does everywhere), a
    row without one of the numeric fields gets that field with the number
    0. *)
Theorem X24_missing_hours_column_reads_zero (entry : gmap string string)
  (field : string)
  (Hundefined : isNaN (parseFloat "undefined") = true)
  (Hfield : In field numericFields) (Hmissing : entry !! field = None) :
  processEntry entry !! field = Some (VNum 0%float).
Proof.
  rewrite lookup_processEntry_numeric by assumption.
  unfold parseFloat_prop. rewrite Hmissing. do 2 f_equal.
  apply or0_falsy. now left.
Qed.

End ParserExtras.

Section ParserMoreSamples.
Import Js CsvParser Columns JsObject.
#[local] Existing Instance RefRuntime_runtime.

(** X21 at a sample: a padded header in capitals. *)
Lemma X21_witness :
  includes inherited_names (trim (toLowerCase " EMPLOYEE ID ")) = false
  /\ transformHeader (transformHeader " EMPLOYEE ID ")
     = transformHeader " EMPLOYEE ID ".
Proof.
  split; [reflexivity|].
  exact (proj2 (X21_transformHeader_settles " EMPLOYEE ID " eq_refl)).
Defined.

(** X22 at a sample, on the reference runtime: a padded number. *)
Lemma X22_witness :
  transform (transform " 40.5 " "scheduleHours") "scheduleHours"
  = transform " 40.5 " "scheduleHours".
Proof.
  exact (@X22_transform_settles RefRuntime_runtime RefRuntime_parseFloat_laws
           " 40.5 " "scheduleHours").
Defined.

(** X23 at a sample: the one row of the padded file, which has a cell that is
    no number and has no total. *)
Lemma X23_witness :
  parseCSV (H0 := MoreSamples.one_row_reader) Samples.padded_file
  = Resolved [processEntry Samples.padded_row]
  /\ Forall (fun record =>
               Forall (fun field =>
                         exists x : number,
                           record !! field = Some (VNum x)
                           /\ PrimFloat.is_nan x = false
                           /\ (PrimFloat.is_zero x = true -> x = 0%float))
                      numericFields)
            [processEntry Samples.padded_row].
Proof.
  split; [reflexivity|].
  exact (X23_parsed_hours_are_numbers (H0 := MoreSamples.one_row_reader)
           Samples.padded_file [processEntry Samples.padded_row] eq_refl).
Defined.

(** X24 at a sample, on the reference runtime: a row without any column. *)
Lemma X24_witness :
  isNaN (parseFloat "undefined") = true
  /\ In "totalHours" numericFields
  /\ (∅ : gmap string string) !! "totalHours" = None
  /\ processEntry ∅ !! "totalHours" = Some (VNum 0%float).
Proof.
  assert (Hin : In "totalHours" numericFields).
  { unfold numericFields. do 6 right. now left. }
  split; [reflexivity|]. split; [exact Hin|]. split; [reflexivity|].
  exact (X24_missing_hours_column_reads_zero ∅ "totalHours" eq_refl Hin eq_refl).
Defined.

End ParserMoreSamples.

(** * Further properties of the filter panel and of the status counts *)

Section FilterExtras.
Import Js JsArray AdvancedFilters FilterFacts NumberOrderFacts ListFacts BulkFacts.
Context `{JsRuntime}.

(** X25.  Filtering only narrows.  The filtered list is a sub-list of the
    entries (same records, same order, nothing added); filtering the filtered
    list again changes nothing; and with no filter set every entry is kept. *)
Theorem X25_applyFilters_narrows (filters : FilterState)
  (entries : list TimesheetEntry) :
  sublist (applyFilters filters entries) entries
  /\ applyFilters filters (applyFilters filters entries)
     = applyFilters filters entries
  /\ (hasActiveFilters filters = false -> applyFilters filters entries = entries).
Proof.
  rewrite !applyFilters_passes. split; [apply filter_sublist|].
  split; [apply filter_idem|].
  intros Hnone. apply filter_all. intros entry.
  unfold hasActiveFilters, values in Hnone. cbn [existsb] in Hnone.
  repeat (apply orb_false_elim in Hnone; destruct Hnone as [? Hnone]).
  unfold passes, truthy_str.
  repeat match goal with E : negb (String.eqb _ "") = false |- _ =>
    rewrite E; clear E end.
  reflexivity.
Qed.

(** X26.  Bounds that cannot be read.  A minimum or maximum of hours whose
    text does not read as a number, or a date bound that does not parse, hides
    every entry; and while a date bound is set, no entry with an unparseable
    start date is shown. *)
Theorem X26_unreadable_bounds_hide_entries (filters : FilterState)
  (entries : list TimesheetEntry) :
  (truthy_str filters.(minHours) = true ->
   isNaN (parseFloat filters.(minHours)) = true ->
   applyFilters filters entries = [])
  /\ (truthy_str filters.(maxHours) = true ->
      isNaN (parseFloat filters.(maxHours)) = true ->
      applyFilters filters entries = [])
  /\ (truthy_str filters.(startDateFrom) = true ->
      isNaN (Date_parse filters.(startDateFrom)) = true ->
      applyFilters filters entries = [])
  /\ (truthy_str filters.(startDateTo) = true ->
      isNaN (Date_parse filters.(startDateTo)) = true ->
      applyFilters filters entries = [])
  /\ (truthy_str filters.(startDateFrom) || truthy_str filters.(startDateTo) = true ->
      Forall (fun entry => isNaN (Date_parse entry.(startDate)) = false)
             (applyFilters filters entries)).
Proof.
  rewrite !applyFilters_passes. unfold isNaN.
  repeat split.
  - intros Ht Hn. apply filter_none. intros entry. unfold passes.
    rewrite Ht, (leb_nan_l _ _ Hn). cbn [negb orb]. now rewrite !andb_false_r.
  - intros Ht Hn. apply filter_none. intros entry. unfold passes.
    rewrite Ht, (leb_nan_r _ _ Hn). cbn [negb orb]. now rewrite !andb_false_r.
  - intros Ht Hn. apply filter_none. intros entry. unfold passes.
    rewrite Ht, (leb_nan_l _ _ Hn). cbn [negb orb]. now rewrite !andb_false_r.
  - intros Ht Hn. apply filter_none. intros entry. unfold passes.
    rewrite Ht, (leb_nan_r _ _ Hn). cbn [negb orb]. now rewrite !andb_false_r.
  - intros Ht. apply List.Forall_forall. intros entry Hin.
    apply List.filter_In in Hin. destruct Hin as [_ Hp].
    destruct (PrimFloat.is_nan (Date_parse (startDate entry))) eqn:Hn;
      [|reflexivity].
    unfold passes in Hp.
    rewrite (leb_nan_r _ _ Hn), (leb_nan_l _ _ Hn), !orb_false_r in Hp.
    destruct (truthy_str (startDateFrom filters)),
      (truthy_str (startDateTo filters)); try discriminate;
      cbn [negb] in Hp; rewrite ?andb_false_r in Hp; cbn [andb] in Hp;
      rewrite ?andb_false_r in Hp; discriminate.
Qed.

(** X27.  The drop-downs.  [uniqueEmployees] lists exactly the employee ids
    that occur in the entries, each once, in ascending order; [uniqueStatuses]
    does the same for the statuses. *)
Theorem X27_unique_values_are_sorted_and_distinct
  (entries : list TimesheetEntry) :
  let listed (l : list string) (values : list string) :=
    NoDup l
    /\ StronglySorted (fun a b => String.ltb a b = true) l
    /\ forall x, x ∈ l <-> x ∈ values in
  listed (uniqueEmployees entries) (map employeeId entries)
  /\ listed (uniqueStatuses entries) (map timesheetStatus entries).
Proof.
  assert (Hgen : forall values,
             NoDup (sort_strings (distinct values))
             /\ StronglySorted (fun a b => String.ltb a b = true)
                               (sort_strings (distinct values))
             /\ forall x, x ∈ sort_strings (distinct values) <-> x ∈ values).
  { intros values. destruct (distinct_from_spec values []) as [ND Hin].
    fold (distinct values) in ND, Hin.
    assert (ND' : NoDup (sort_strings (distinct values))).
    { now rewrite sort_strings_Permutation. }
    split; [assumption|]. split.
    - apply sorted_NoDup_strict; [assumption | apply sort_strings_sorted].
    - intros x. rewrite sort_strings_Permutation, Hin, elem_of_nil. tauto. }
  intros listed. split; apply Hgen.
Qed.

End FilterExtras.

Section AnalyticsExtras.
Import Js JsArray Analytics AnalyticsFacts.

(** X28.  The status chart counts right.  When no status is a property name
    inherited from [Object.prototype], [statusData] holds for every status that
    occurs the number of entries that carry it, and nothing for a status that
    does not occur. *)
Theorem X28_statusData_counts_each_status (entries : list TimesheetEntry)
  (data : gmap string nat) (Hdata : statusData entries = Some data)
  (status : string) :
  data !! status
  = if (with_status_count status entries =? 0)%nat then None
    else Some (with_status_count status entries).
Proof.
  unfold statusData in Hdata. destruct (existsb _ entries); [discriminate|].
  injection Hdata as <-. rewrite fold_count_status, lookup_empty. reflexivity.
Qed.

End AnalyticsExtras.

Section FilterSamples.
Import Js JsArray AdvancedFilters Analytics.
#[local] Existing Instance RefRuntime_runtime.

(** X25 at a sample: after [clearFilters] the three weeks are all shown. *)
Lemma X25_witness :
  hasActiveFilters clearFilters = false
  /\ applyFilters clearFilters MoreSamples.three_weeks = MoreSamples.three_weeks.
Proof.
  split; [reflexivity|].
  exact (proj2 (proj2 (X25_applyFilters_narrows clearFilters
                         MoreSamples.three_weeks)) eq_refl).
Defined.

(** X26 at a sample, on the reference runtime: a minimum of "many" hours hides
    the three weeks. *)
Lemma X26_witness :
  truthy_str (minHours MoreSamples.unreadable_minimum) = true
  /\ isNaN (parseFloat (minHours MoreSamples.unreadable_minimum)) = true
  /\ applyFilters MoreSamples.unreadable_minimum MoreSamples.three_weeks = [].
Proof.
  split; [reflexivity|]. split; [reflexivity|].
  exact (proj1 (X26_unreadable_bounds_hide_entries
                  MoreSamples.unreadable_minimum MoreSamples.three_weeks)
           eq_refl eq_refl).
Defined.

(** X28 at a sample: the three weeks are all approved. *)
Lemma X28_witness :
  statusData MoreSamples.three_weeks
  = Some (fold_left count_status MoreSamples.three_weeks ∅)
  /\ fold_left count_status MoreSamples.three_weeks ∅ !! "Approved" = Some 3%nat.
Proof.
  split; [reflexivity|].
  exact (X28_statusData_counts_each_status MoreSamples.three_weeks
           (fold_left count_status MoreSamples.three_weeks ∅) eq_refl "Approved").
Defined.

End FilterSamples.

(** ** The application as a whole *)

Section SessionExtras.
Import Js ValidatorRules App Session SessionFacts.
Context `{JsRuntime}.

(** X29.  Whatever the handlers of the application are called with, and in
    whatever order (files chosen, parses settling with records or with an
    error, resets, tab clicks, filtered lists handed over, bulk status
    updates), the validation it holds is the validation of the entries it
    holds, the processed flag is not set without a validation, and no entries
    are held without a validation. *)
Theorem X29_validation_belongs_to_the_entries (events : list Event) :
  let st := after events in
  (forall result, st.(validation) = Some result ->
     exists clock, result = validateTimesheet clock st.(entries))
  /\ (st.(hasProcessed) = true -> st.(validation) <> None)
  /\ (st.(validation) = None -> st.(entries) = []).
Proof.
  cbv zeta. unfold after.
  change (consistent (fold_left handle events initial)).
  generalize initial initial_consistent.
  induction events as [|event events IH]; intros st Hst; simpl.
  - exact Hst.
  - apply IH. apply handle_consistent. exact Hst.
Qed.

End SessionExtras.
